(** * PIFuHD [Reconstructor]: a shallow embedding of [PIFuHD/recontructor.py]

    The development follows the Python source method by method.  The learned
    networks, the marching-cubes reconstruction, OpenCV and the OBJ writer are
    collaborators of the class; they are taken as an interface
    ([Collaborators]) whose operations may raise.  Effects are explicit:
    a computation threads the [Reconstructor] object, may raise an
    [Exception] (an instance of Python's class [Exception], or one that
    [except Exception] lets through), and emits the [Event]s (oracle calls,
    files written, lines printed) it performs, in order. *)

From Stdlib Require Import List ZArith Lia Bool String Ascii.
From Stdlib Require Import DecimalString QArith.
Import ListNotations.
Close Scope Q_scope.
Open Scope Z_scope.

Set Implicit Arguments.

(** ** Python and numpy primitives *)

Module Py.

(** [range(n)] for an integer [n]. *)
Definition range (n : Z) : list Z := map Z.of_nat (seq 0 (Z.to_nat n)).

(** [range(a, b)]. *)
Definition range2 (a b : Z) : list Z := map (fun k => a + Z.of_nat k) (seq 0 (Z.to_nat (b - a))).

(** Normalisation of one slice bound against a sequence of length [n]:
    a negative bound counts from the end, and the result is clamped to
    [0..n]. *)
Definition norm_index (n i : Z) : Z :=
  if i <? 0 then Z.max (i + n) 0 else Z.min i n.

Section Slices.
Context {A : Type}.

Definition len (l : list A) : Z := Z.of_nat (List.length l).

Definition slice_start (l : list A) (left : Z) : nat :=
  Z.to_nat (norm_index (len l) left).

(** Number of positions selected by [left:right]; zero when the
    normalised stop does not exceed the normalised start. *)
Definition slice_len (l : list A) (left right : Z) : nat :=
  Z.to_nat (norm_index (len l) right - norm_index (len l) left).

(** [l[left:right]] *)
Definition slice (l : list A) (left right : Z) : list A :=
  firstn (slice_len l left right) (skipn (slice_start l left) l).

(** [l[left:right] = vals] on a numpy array whose rows have type [A]:
    the value is broadcast along the first axis, so it must have as many
    rows as the slice or exactly one row; otherwise numpy raises
    [ValueError] and the array is unchanged ([None] here). *)
Definition slice_assign (l : list A) (left right : Z) (vals : list A)
  : option (list A) :=
  let a := slice_start l left in
  let k := slice_len l left right in
  if Nat.eqb (List.length vals) k then
    Some (firstn a l ++ vals ++ skipn (a + k) l)
  else
    match vals with
    | [v] => Some (firstn a l ++ repeat v k ++ skipn (a + k) l)
    | _ => None
    end.
End Slices.

(** [s[:-4]] on a string. *)
Definition drop_last4 (s : string) : string :=
  substring 0 (String.length s - 4)%nat s.

(** ["%d" % z] *)
Definition fmt_d (z : Z) : string := NilZero.string_of_int (Z.to_int z).

End Py.

(** ** Scalars

    Array elements are floating-point numbers in the source.  Only the shape
    of the arithmetic matters below, so the element type and its operations
    are an interface. *)

Class Scalar (F : Type) := {
  f0 : F;
  f1 : F;
  fhalf : F;
  fadd : F -> F -> F;
  fmul : F -> F -> F
}.

(** A row of an [N x 3] array. *)
Definition Vec3 (F : Type) : Type := (F * F * F)%type.
(** A row of an [N x 4] array. *)
Definition Vec4 (F : Type) : Type := (F * F * F * F)%type.
(** A [4 x 4] matrix, by rows. *)
Definition Mat4 (F : Type) : Type := (Vec4 F * Vec4 F * Vec4 F * Vec4 F)%type.

Section Arrays.
Context {F : Type} `{Scalar F}.

Definition zero3 : Vec3 F := (f0, f0, f0).

(** [np.zeros(a.shape)] for an [N x 3] array [a]. *)
Definition np_zeros_like (a : list (Vec3 F)) : list (Vec3 F) := map (fun _ => zero3) a.

(** The element-wise map [x * 0.5 + 0.5]. *)
Definition remap (x : F) : F := fadd (fmul x fhalf) fhalf.
Definition remap3 (v : Vec3 F) : Vec3 F :=
  let '(x, y, z) := v in (remap x, remap y, remap z).

(** [np.concatenate([verts, np.ones_like(verts[:, :1])], 1)], one row. *)
Definition append_one (v : Vec3 F) : Vec4 F :=
  let '(x, y, z) := v in (x, y, z, f1).

Definition transpose4 (m : Mat4 F) : Mat4 F :=
  let '((a00, a01, a02, a03), (a10, a11, a12, a13),
        (a20, a21, a22, a23), (a30, a31, a32, a33)) := m in
  ((a00, a10, a20, a30), (a01, a11, a21, a31),
   (a02, a12, a22, a32), (a03, a13, a23, a33)).

(** One row of [np.matmul(rows, m)]: entry [j] is the sum over [k] of
    [r[k] * m[k][j]]. *)
Definition row_matmul (r : Vec4 F) (m : Mat4 F) : Vec4 F :=
  let '(r0, r1, r2, r3) := r in
  let '((a00, a01, a02, a03), (a10, a11, a12, a13),
        (a20, a21, a22, a23), (a30, a31, a32, a33)) := m in
  (fadd (fadd (fadd (fmul r0 a00) (fmul r1 a10)) (fmul r2 a20)) (fmul r3 a30),
   fadd (fadd (fadd (fmul r0 a01) (fmul r1 a11)) (fmul r2 a21)) (fmul r3 a31),
   fadd (fadd (fadd (fmul r0 a02) (fmul r1 a12)) (fmul r2 a22)) (fmul r3 a32),
   fadd (fadd (fadd (fmul r0 a03) (fmul r1 a13)) (fmul r2 a23)) (fmul r3 a33)).

(** [a[:, :3]], one row. *)
Definition first3 (r : Vec4 F) : Vec3 F := let '(x, y, z, _) := r in (x, y, z).

(** [np.matmul(np.concatenate([verts, ones], 1), m_inv.T)[:, :3]] *)
Definition to_world (m_inv : Mat4 F) (verts : list (Vec3 F)) : list (Vec3 F) :=
  map (fun v => first3 (row_matmul (append_one v) (transpose4 m_inv))) verts.

(** [xyz[:, :2, :]], one point. *)
Definition first2 (v : Vec3 F) : F * F := let '(x, y, _) := v in (x, y).

(** Dot product of two homogeneous 4-vectors, summed left to right. *)
Definition dot4 (r a : Vec4 F) : F :=
  let '(r0, r1, r2, r3) := r in
  let '(a0, a1, a2, a3) := a in
  fadd (fadd (fadd (fmul r0 a0) (fmul r1 a1)) (fmul r2 a2)) (fmul r3 a3).

(** The homogeneous action of a matrix on a point, as the specification
    words it: extend the point by 1, multiply by the matrix, drop the
    homogeneous component. *)
Definition homogeneous_apply (m : Mat4 F) (v : Vec3 F) : Vec3 F :=
  let '(m0, m1, m2, _) := m in
  (dot4 (append_one v) m0, dot4 (append_one v) m1, dot4 (append_one v) m2).
End Arrays.

(** ** Outcomes, events and the collaborators' interface *)

(** A raised exception, with the text [str(e)] that [print(e)] shows.
    [StdError] is an instance of Python's class [Exception], the one that
    [except Exception] catches; [BaseOnly] derives from [BaseException]
    alone ([KeyboardInterrupt], and the [SystemExit] of [exit()]). *)
Inductive Exception : Type :=
| StdError (msg : string)
| BaseOnly (msg : string).

(** [str(e)] *)
Definition message (e : Exception) : string :=
  match e with
  | StdError msg => msg
  | BaseOnly msg => msg
  end.

(** [isinstance(e, Exception)] *)
Definition is_Exception (e : Exception) : bool :=
  match e with
  | StdError _ => true
  | BaseOnly _ => false
  end.

Inductive Result (A : Type) : Type :=
| Ok (a : A)
| Raise (e : Exception).
Arguments Ok {A} a.
Arguments Raise {A} e.

(** What the class uses from [PIFuHD.model], [PIFuHD.mesh_util],
    [PIFuHD.geometry], torch, numpy and OpenCV.  [Net] is the state of
    [self.netMR] together with the [netG] it shares with [self.netG]. *)
Class Collaborators (F : Type) := {
  Net : Type;
  View : Type;      (* one image of a batch, a [C x H x W] tensor *)
  Calib : Type;     (* the calibration tensor of the input *)
  Face : Type;      (* a triangle of the extracted mesh *)
  Preview : Type;   (* an [H x W x 3] image array *)
  netG_eval : Net -> Net;
  filter_global : Net -> list View -> Result Net;
  filter_local : Net -> list View -> Result Net;
  netF : Net -> bool;                  (* [netG.netF is not None] *)
  netB : Net -> bool;                  (* [netG.netB is not None] *)
  nmlF : Net -> option (list View);
  nmlB : Net -> option (list View);
  calc_normal : Net -> list (Vec3 F) -> Calib -> Result Net;
  nmls : Net -> list (Vec3 F);
  projection : Net -> list (Vec3 F) -> Calib -> Result (list (Vec3 F));
  index : list View -> list (F * F) -> Result (list (Vec3 F));
  reconstruction :
    Net -> Calib -> Z -> Vec3 F -> Vec3 F -> F -> bool -> Z ->
    Result (Net * (list (Vec3 F) * list Face));
  bgr255 : View -> Preview;
  cv2_imwrite : string -> list Preview -> Result unit;
  save_obj_mesh_with_color :
    string -> list (Vec3 F) -> list Face -> list (Vec3 F) -> Result unit;
  inv : Mat4 F -> Result (Mat4 F)
}.

Section Reconstructor.
Context {F : Type} {SF : Scalar F} {C : Collaborators F}.

(** Observable actions, in the order they happen.  Oracle calls are
    recorded when they are issued; file events when the file has been
    written. *)
Inductive Event : Type :=
| EPrint (s : string)
| EGetItem (i : Z)
| EImwrite (path : string) (img : list Preview)
| EReconstruction (num_samples : Z)
| ECalcNormal (points : list (Vec3 F))
| EProjection (points : list (Vec3 F))
| EIndex (uv : list (F * F))
| ESaveObj (path : string) (verts : list (Vec3 F)) (faces : list Face)
           (color : list (Vec3 F)).

(** The fields of [opt] the methods read. *)
Record Opt : Type := {
  results_path : string;
  name : string;
  resolution : Z;
  use_compose : bool
}.

(** One item of the test dataset. *)
Record Data : Type := {
  data_name : string;
  img_512 : list View;
  img : list View;
  calib : Calib;
  b_min : Vec3 F;
  b_max : Vec3 F;
  calib_world : option (Mat4 F)      (* ['calib_world' in data] *)
}.

(** The attributes of [self] the methods read or write. *)
Record Self : Type := {
  start_id : Z;
  end_id : Z;
  netMR : Net;
  opt : Opt
}.

Definition set_start_id (v : Z) (s : Self) : Self :=
  {| start_id := v; end_id := end_id s; netMR := netMR s; opt := opt s |}.
Definition set_end_id (v : Z) (s : Self) : Self :=
  {| start_id := start_id s; end_id := v; netMR := netMR s; opt := opt s |}.
Definition set_netMR (n : Net) (s : Self) : Self :=
  {| start_id := start_id s; end_id := end_id s; netMR := n; opt := opt s |}.

(** *** The effect monad *)

Definition M (A : Type) : Type := Self -> Result A * Self * list Event.

Definition ret {A} (a : A) : M A := fun s => (Ok a, s, []).

Definition bind {A B} (m : M A) (k : A -> M B) : M B :=
  fun s =>
    match m s with
    | (Ok a, s1, w1) => let '(r, s2, w2) := k a s1 in (r, s2, w1 ++ w2)
    | (Raise e, s1, w1) => (Raise e, s1, w1)
    end.

Definition raise {A} (e : Exception) : M A := fun s => (Raise e, s, []).

Definition lift {A} (r : Result A) : M A := fun s => (r, s, []).

Definition emit (ev : Event) : M unit := fun s => (Ok tt, s, [ev]).

Definition get_self : M Self := fun s => (Ok s, s, []).

Definition modify (f : Self -> Self) : M unit := fun s => (Ok tt, f s, []).

(** [try: m  except Exception as e: h e].  The clause catches the
    instances of [Exception]; any other exception leaves the [try]
    statement as it was raised. *)
Definition try_except {A} (m : M A) (h : Exception -> M A) : M A :=
  fun s =>
    match m s with
    | (Raise e, s1, w1) =>
        if is_Exception e
        then let '(r, s2, w2) := h e s1 in (r, s2, w1 ++ w2)
        else (Raise e, s1, w1)
    | ok => ok
    end.

(** A method of [self.netMR] that updates the network's state. *)
Definition net_call (f : Net -> Result Net) : M unit :=
  fun s =>
    match f (netMR s) with
    | Ok n => (Ok tt, set_netMR n s, [])
    | Raise e => (Raise e, s, [])
    end.

Definition print (s : string) : M unit := emit (EPrint s).
End Reconstructor.

Declare Scope recon_scope.
Delimit Scope recon_scope with recon.
Notation "x <- m ;; k" := (bind m (fun x => k))
  (at level 61, m at next level, right associativity) : recon_scope.
Notation "' pat <- m ;; k" := (bind m (fun x => match x with pat => k end))
  (at level 61, pat pattern, m at next level, right associativity) : recon_scope.
Notation "m ;; k" := (bind m (fun _ => k))
  (at level 61, right associativity) : recon_scope.

(** ** The methods of [Reconstructor] *)

(** How the body of a [for] loop ends: it falls through to the next
    iteration, executes [break], or executes [return r]. *)
Inductive Ctl (R : Type) : Type :=
| Next
| Break
| Return (r : R).
Arguments Next {R}.
Arguments Break {R}.
Arguments Return {R} r.

Section Methods.
Context {F : Type} {SF : Scalar F} {C : Collaborators F}.
Local Open Scope recon_scope.

(** *** Loops *)

(** [for i in xs: body]; [Some r] when the body returned [r]. *)
Fixpoint for_in {R} (xs : list Z) (body : Z -> M (Ctl R)) : M (option R) :=
  match xs with
  | [] => ret None
  | i :: rest =>
      c <- body i ;;
      match c with
      | Next => for_in rest body
      | Break => ret None
      | Return r => ret (Some r)
      end
  end.

(** [for i in xs: a = body(i, a)] for a loop that only updates [a]. *)
Fixpoint for_acc {A} (xs : list Z) (body : Z -> A -> M A) (a : A) : M A :=
  match xs with
  | [] => ret a
  | i :: rest => a' <- body i a ;; for_acc rest body a'
  end.

(** *** Shared pieces of the two mesh generators *)

(** [torch.cat([a, b], 0)]; [b] is [None] when the normal map was never
    computed. *)
Definition torch_cat (a : list View) (b : option (list View))
  : Result (list View) :=
  match b with
  | Some b' => Ok (a ++ b')
  | None => Raise (StdError "expected Tensor as element 1 in argument 0, but got NoneType")
  end.

(** The first [try] block: the predicted front and back normal maps are
    appended to the preview views; the bare [except: pass] catches every
    exception and keeps whatever was assigned before the failure. *)
Definition cat_normal_maps (n : Net) (image_tensor_global : list View)
  : list View :=
  match (if netF n then torch_cat image_tensor_global (nmlF n)
         else Ok image_tensor_global) with
  | Raise _ => image_tensor_global
  | Ok g1 =>
      match (if netB n then torch_cat g1 (nmlB n) else Ok g1) with
      | Raise _ => g1
      | Ok g2 => g2
      end
  end.

(** [np.concatenate(l, axis=1)]: the images side by side. *)
Definition np_concatenate (l : list Preview) : Result (list Preview) :=
  match l with
  | [] => Raise (StdError "need at least one array to concatenate")
  | _ => Ok l
  end.

(** [save_path[:-4] + '.png'] *)
Definition png_path (save_path : string) : string :=
  String.append (Py.drop_last4 save_path) ".png".

(** Lines 119-126 and 171-178: build the preview and write it. *)
Definition save_preview (save_path : string)
           (image_tensor_global : list View) : M string :=
  let save_img_path := png_path save_path in
  let save_img_list := map bgr255 image_tensor_global in
  save_img <- lift (np_concatenate save_img_list) ;;
  lift (cv2_imwrite save_img_path save_img) ;;
  emit (EImwrite save_img_path save_img) ;;
  ret save_img_path.

(** The call of [reconstruction(self.netMR, ...)], which queries the
    occupancy network. *)
Definition call_reconstruction (calib_tensor : Calib) (res : Z)
           (bmin bmax : Vec3 F) (thresh : F) (use_octree : bool)
           (num_samples : Z) : M (list (Vec3 F) * list Face) :=
  emit (EReconstruction num_samples) ;;
  (fun s =>
     match reconstruction (netMR s) calib_tensor res bmin bmax thresh
                          use_octree num_samples with
     | Ok (n, vf) => (Ok vf, set_netMR n s, [])
     | Raise e => (Raise e, s, [])
     end).

(** *** [_gen_mesh_gray] *)

(** One iteration of the loop of lines 137-145, for chunk size [iv]. *)
Definition normal_chunk (iv : Z) (verts : list (Vec3 F))
           (calib_tensor : Calib) (i : Z) (color : list (Vec3 F))
  : M (list (Vec3 F)) :=
  let left := i * iv in
  let right := if i =? Py.len color / iv then -1 else (i + 1) * iv in
  emit (ECalcNormal (Py.slice verts left right)) ;;
  net_call (fun n => calc_normal n (Py.slice verts left right) calib_tensor) ;;
  s <- get_self ;;
  let nml := map remap3 (nmls (netMR s)) in
  match Py.slice_assign color left right nml with
  | Some color' => ret color'
  | None => raise (StdError "could not broadcast input array")
  end.

(** Lines 135-145 for chunk size [iv]. *)
Definition normal_colors (iv : Z) (verts : list (Vec3 F))
           (calib_tensor : Calib) : M (list (Vec3 F)) :=
  let color := np_zeros_like verts in
  for_acc (Py.range (Py.len color / iv + 1))
          (normal_chunk iv verts calib_tensor) color.

(** [interval = 50000], the chunk size of the source. *)
Definition interval : Z := 50000.

(** The guarded block of lines 118-148. *)
Definition gray_guarded (res : Z) (data : Data) (save_path : string)
           (thresh : F) (use_octree : bool)
           (image_tensor_global : list View)
  : M (option (string * string)) :=
  let calib_tensor := calib data in
  save_img_path <- save_preview save_path image_tensor_global ;;
  '(verts, faces) <- call_reconstruction calib_tensor res (b_min data)
                                         (b_max data) thresh use_octree
                                         50000 ;;
  color <- normal_colors interval verts calib_tensor ;;
  lift (save_obj_mesh_with_color save_path verts faces color) ;;
  emit (ESaveObj save_path verts faces color) ;;
  ret (Some (save_img_path, save_path)).

(** Lines 100-150.  [components] is not used by the source either.  The
    item carries the keys the method reads, and the transfers
    [.to(device=self.cuda)] of lines 101-103 return their tensor: of the
    statements before the guarded block, the two filter calls are the
    ones that may raise. *)
Definition _gen_mesh_gray (res : Z) (data : Data) (save_path : string)
           (thresh : F) (use_octree components : bool)
  : M (option (string * string)) :=
  let image_tensor_global := img_512 data in
  let image_tensor := img data in
  net_call (fun n => filter_global n image_tensor_global) ;;
  net_call (fun n => filter_local n image_tensor) ;;
  s <- get_self ;;
  let image_tensor_global := cat_normal_maps (netMR s) image_tensor_global in
  try_except
    (gray_guarded res data save_path thresh use_octree image_tensor_global)
    (fun e => print (message e) ;; ret None).

(** *** [_gen_mesh_color] *)

(** Lines 185-188: one projection of all vertices, one image lookup. *)
Definition projected_colors (verts : list (Vec3 F)) (image_tensor : list View)
           (calib_tensor : Calib) : M (list (Vec3 F)) :=
  emit (EProjection verts) ;;
  s <- get_self ;;
  xyz_tensor <- lift (projection (netMR s) verts calib_tensor) ;;
  let uv := map first2 xyz_tensor in
  emit (EIndex uv) ;;
  color <- lift (index (firstn 1 image_tensor) uv) ;;
  ret (map remap3 color).

(** Lines 190-192. *)
Definition world_vertices (data : Data) (verts : list (Vec3 F))
  : M (list (Vec3 F)) :=
  match calib_world data with
  | Some cw => m_inv <- lift (inv cw) ;; ret (to_world m_inv verts)
  | None => ret verts
  end.

(** The guarded block of lines 170-194. *)
Definition color_guarded (res : Z) (data : Data) (save_path : string)
           (thresh : F) (use_octree : bool)
           (image_tensor_global : list View) : M unit :=
  let image_tensor := img data in
  let calib_tensor := calib data in
  save_preview save_path image_tensor_global ;;
  '(verts, faces) <- call_reconstruction calib_tensor res (b_min data)
                                         (b_max data) thresh use_octree
                                         100000 ;;
  color <- projected_colors verts image_tensor calib_tensor ;;
  verts <- world_vertices data verts ;;
  lift (save_obj_mesh_with_color save_path verts faces color) ;;
  emit (ESaveObj save_path verts faces color).

(** Lines 152-197.  The method has no [return] statement. *)
Definition _gen_mesh_color (res : Z) (data : Data) (save_path : string)
           (thresh : F) (use_octree components : bool) : M unit :=
  let image_tensor_global := img_512 data in
  let image_tensor := img data in
  net_call (fun n => filter_global n image_tensor_global) ;;
  net_call (fun n => filter_local n image_tensor) ;;
  s <- get_self ;;
  let image_tensor_global := cat_normal_maps (netMR s) image_tensor_global in
  try_except
    (color_guarded res data save_path thresh use_octree image_tensor_global)
    (fun e => print (message e)).

(** *** [evaluate] *)

(** [test_dataset[i]] *)
Definition getitem (test_dataset : list Data) (i : Z) : M Data :=
  emit (EGetItem i) ;;
  match (if i <? 0 then None else nth_error test_dataset (Z.to_nat i)) with
  | Some d => ret d
  | None => raise (StdError "IndexError")
  end.

(** ['%s/%s/recon/result_%s_%d.obj' % (results_path, name, item, res)] *)
Definition result_path (o : Opt) (item_name : string) : string :=
  String.concat ""
    [results_path o; "/"; name o; "/recon/result_"; item_name; "_";
     Py.fmt_d (resolution o); ".obj"]%string.

(** The line printed before the loop. *)
Definition banner : string := "generate mesh (test) ...".

(** [self.netG.eval()]; [self.netG] is the [netG] inside [self.netMR]. *)
Definition __set_eval : M unit :=
  modify (fun s => set_netMR (netG_eval (netMR s)) s).

(** Lines 69-92.  The [else] branch of [if True:] cannot run and is left
    out; [_gen_mesh_gray] is called with its default [thresh=0.5] and
    [use_octree=True]. *)
Definition evaluate (test_dataset : list Data)
  : M (option (string * string)) :=
  s <- get_self ;;
  (if start_id s <? 0 then modify (set_start_id 0) else ret tt) ;;
  s <- get_self ;;
  (if end_id s <? 0 then modify (set_end_id (Py.len test_dataset))
   else ret tt) ;;
  __set_eval ;;
  print banner ;;
  s <- get_self ;;
  r <- for_in (Py.range2 (start_id s) (end_id s))
         (fun i =>
            if i >=? Py.len test_dataset then ret Break
            else
              test_data <- getitem test_dataset i ;;
              s <- get_self ;;
              let save_path := result_path (opt s) (data_name test_data) in
              print save_path ;;
              r <- _gen_mesh_gray (resolution (opt s)) test_data save_path
                                  fhalf true (use_compose (opt s)) ;;
              ret (Return r)) ;;
  ret (match r with Some r => r | None => None end).
End Methods.

(** ** Vocabulary of the statements *)

Section Vocabulary.
Context {F : Type} {SF : Scalar F} {C : Collaborators F}.
Local Open Scope recon_scope.

(** The normal oracle answers every point on its own: whatever the state
    of the network and the batch, the call succeeds and leaves in [nmls]
    the value of [f] at each point of the batch, in order. *)
Definition pointwise_oracle (f : Vec3 F -> Vec3 F) (cal : Calib) : Prop :=
  forall n pts, exists n',
    calc_normal n pts cal = Ok n' /\ nmls n' = map f pts.

(** The batch that iteration [i] of the loop hands to the oracle. *)
Definition chunk_of (iv : Z) (verts : list (Vec3 F)) (i : Z)
  : list (Vec3 F) :=
  Py.slice verts (i * iv)
           (if i =? Py.len verts / iv then -1 else (i + 1) * iv).

Definition chunks (iv : Z) (verts : list (Vec3 F)) : list (list (Vec3 F)) :=
  map (chunk_of iv verts) (Py.range (Py.len verts / iv + 1)).

(** Number of leading vertices that fall into some batch. *)
Definition covered (iv n : Z) : nat := Z.to_nat (Z.max (n / iv * iv) (n - 1)).

(** Number of leading vertices written when iteration [a] starts. *)
Definition done_upto (iv n : Z) (a : nat) : nat :=
  if Z.of_nat a <=? n / iv then Z.to_nat (Z.of_nat a * iv) else covered iv n.

(** An attribute array whose first [c] rows hold [g] of the vertex and
    whose other rows still hold the zeros it was created with. *)
Definition paint (g : Vec3 F -> Vec3 F) (verts : list (Vec3 F)) (c : nat)
  : list (Vec3 F) :=
  map g (firstn c verts) ++ repeat zero3 (List.length verts - c).

(** The reference resolution of the specification: the same oracle asked
    once, for all vertices. *)
Definition reference_colors (verts : list (Vec3 F)) (calib_tensor : Calib)
  : M (list (Vec3 F)) :=
  emit (ECalcNormal verts) ;;
  net_call (fun n => calc_normal n verts calib_tensor) ;;
  s <- get_self ;;
  ret (map remap3 (nmls (netMR s))).

(** [ceil(n / d)] *)
Definition ceil_div (n d : Z) : Z := (n + d - 1) / d.

(** The batches of the normal-oracle calls found in a trace. *)
Definition normal_calls (w : list Event) : list (list (Vec3 F)) :=
  flat_map (fun ev => match ev with ECalcNormal p => [p] | _ => [] end) w.

(** The batches of the projection calls found in a trace. *)
Definition projection_calls (w : list Event) : list (list (Vec3 F)) :=
  flat_map (fun ev => match ev with EProjection p => [p] | _ => [] end) w.

(** The meshes written in a trace: path, vertices and colors. *)
Definition saved_meshes (w : list Event)
  : list (string * list (Vec3 F) * list (Vec3 F)) :=
  flat_map (fun ev => match ev with
                      | ESaveObj p v _ c => [(p, v, c)]
                      | _ => []
                      end) w.

(** The dataset items read in a trace. *)
Definition items_read (w : list Event) : list Z :=
  flat_map (fun ev => match ev with EGetItem i => [i] | _ => [] end) w.

(** The two observable parts of a finished run. *)
Definition outcome {A} (x : Result A * Self * list Event) : Result A :=
  fst (fst x).
Definition events {A} (x : Result A * Self * list Event) : list Event :=
  snd x.

(** What [except Exception as e: print(e)] makes of an exception [e] that
    the guarded block raised in state [s] after the events [w0]: an
    instance of [Exception] is printed and the method falls off its end,
    returning [none]; any other exception reaches the caller. *)
Definition handled {A} (none : A) (e : Exception) (s : Self)
           (w0 : list Event) : Result A * Self * list Event :=
  if is_Exception e then (Ok none, s, w0 ++ [EPrint (message e)])
  else (Raise e, s, w0).

(** The same, as a relation between the events [w0] of the guarded block
    and the outcome [r] and events [w] of the method. *)
Definition ends_handled {A} (none : A) (e : Exception) (w0 : list Event)
           (r : Result A) (w : list Event) : Prop :=
  if is_Exception e then r = Ok none /\ w = w0 ++ [EPrint (message e)]
  else r = Raise e /\ w = w0.

(** The values of [start_id] and [end_id] after the first four lines of
    [evaluate]. *)
Definition norm_start (s : Self) : Z := if start_id s <? 0 then 0 else start_id s.
Definition norm_end (s : Self) (n : Z) : Z := if end_id s <? 0 then n else end_id s.

(** [self] when the loop of [evaluate] starts, for a dataset of [n]
    items. *)
Definition normalize_ids (n : Z) (s : Self) : Self :=
  let s1 := if start_id s <? 0 then set_start_id 0 s else s in
  let s2 := if end_id s1 <? 0 then set_end_id n s1 else s1 in
  set_netMR (netG_eval (netMR s2)) s2.
End Vocabulary.

(** ** Scripted collaborators over the rationals, for concrete runs *)

Module Demo.

#[export] Instance scalar_Q : Scalar Q := {|
  f0 := 0%Q;
  f1 := 1%Q;
  fhalf := (1 # 2)%Q;
  fadd := Qplus;
  fmul := Qmult
|}.

(** What the scripted collaborators answer. *)
Record Script : Type := {
  mesh : Result (list (Vec3 Q) * list (Z * Z * Z));
  normal_at : Vec3 Q -> Vec3 Q;
  color_at : Q * Q -> Vec3 Q
}.

Definition is_zero (q : Q) : bool := Qeq_bool q 0%Q.

(** The inverse of a diagonal matrix; the demo knows no other matrices. *)
Definition inv_diagonal (m : Mat4 Q) : Result (Mat4 Q) :=
  let '((a00, a01, a02, a03), (a10, a11, a12, a13),
        (a20, a21, a22, a23), (a30, a31, a32, a33)) := m in
  if forallb is_zero [a01; a02; a03; a10; a12; a13; a20; a21; a23; a30; a31; a32]
  then
    if existsb is_zero [a00; a11; a22; a33]
    then Raise (StdError "Singular matrix")
    else Ok ((Qinv a00, 0%Q, 0%Q, 0%Q), (0%Q, Qinv a11, 0%Q, 0%Q),
             (0%Q, 0%Q, Qinv a22, 0%Q), (0%Q, 0%Q, 0%Q, Qinv a33))
  else Raise (StdError "demo: not a diagonal matrix").

(** The network state is the content of [nmls]; views and preview images
    are numbered; the calibration is trivial. *)
Definition collab (sc : Script) : Collaborators Q := {|
  Net := list (Vec3 Q);
  View := Z;
  Calib := unit;
  Face := (Z * Z * Z)%type;
  Preview := Z;
  netG_eval := fun n => n;
  filter_global := fun n _ => Ok n;
  filter_local := fun n _ => Ok n;
  netF := fun _ => false;
  netB := fun _ => false;
  nmlF := fun _ => None;
  nmlB := fun _ => None;
  calc_normal := fun _ pts _ => Ok (map (normal_at sc) pts);
  nmls := fun n => n;
  projection := fun _ pts _ => Ok pts;
  index := fun _ uv => Ok (map (color_at sc) uv);
  reconstruction := fun n _ _ _ _ _ _ _ =>
    match mesh sc with
    | Ok m => Ok (n, m)
    | Raise e => Raise e
    end;
  bgr255 := fun v => v;
  cv2_imwrite := fun _ _ => Ok tt;
  save_obj_mesh_with_color := fun _ _ _ _ => Ok tt;
  inv := inv_diagonal
|}.

Definition v1 : Vec3 Q := (1%Q, 0%Q, 0%Q).
Definition v2 : Vec3 Q := (0%Q, 1%Q, 0%Q).
Definition v3 : Vec3 Q := (0%Q, 0%Q, 1%Q).

(** The normal of the scripted surface at a point is the point itself. *)
Definition script_of (m : Result (list (Vec3 Q) * list (Z * Z * Z))) : Script :=
  {| mesh := m;
     normal_at := fun v => v;
     color_at := fun '(u, v) => (u, v, 0%Q) |}.

Definition one_vertex : Script := script_of (Ok ([v1], [])).
Definition no_vertex : Script := script_of (Ok ([], [])).
Definition triangle : Script := script_of (Ok ([v1; v2; v3], [(1, 2, 3)%Z])).
Definition out_of_memory : Script :=
  script_of (Raise (StdError "CUDA out of memory")).

(** A reconstruction interrupted from the keyboard. *)
Definition interrupted : Script :=
  script_of (Raise (BaseOnly "KeyboardInterrupt")).

(** Scaling by 2 in x, y and z. *)
Definition scale2 : Mat4 Q :=
  ((2%Q, 0%Q, 0%Q, 0%Q), (0%Q, 2%Q, 0%Q, 0%Q),
   (0%Q, 0%Q, 2%Q, 0%Q), (0%Q, 0%Q, 0%Q, 1%Q)).

Definition item (sc : Script) (cw : option (Mat4 Q)) : @Data Q (collab sc) :=
  @Build_Data Q (collab sc) "person"%string [7] [8] tt
              ((-1)%Q, (-1)%Q, (-1)%Q) (1%Q, 1%Q, 1%Q) cw.

Definition opt0 : Opt :=
  {| results_path := "out"%string; name := "run"%string;
     resolution := 256; use_compose := false |}.

Definition self0 (sc : Script) (a b : Z) : @Self Q (collab sc) :=
  @Build_Self Q (collab sc) a b [] opt0.

(** One call of each mesh generator on the scripted collaborators. *)
Definition gray_run (sc : Script) (cw : option (Mat4 Q)) :=
  @_gen_mesh_gray Q scalar_Q (collab sc) 256 (item sc cw)
                  "out/mesh.obj"%string (1 # 2)%Q true false (self0 sc 0 1).

Definition color_run (sc : Script) (cw : option (Mat4 Q)) :=
  @_gen_mesh_color Q scalar_Q (collab sc) 256 (item sc cw)
                   "out/mesh.obj"%string (1 # 2)%Q true false (self0 sc 0 1).

(** The attribute loop alone, for chunk size [iv]. *)
Definition resolve (iv : Z) (verts : list (Vec3 Q)) :=
  @normal_colors Q scalar_Q (collab no_vertex) iv verts tt (self0 no_vertex 0 1).

(** The reference resolution on the same oracle. *)
Definition resolve_reference (verts : list (Vec3 Q)) :=
  @reference_colors Q scalar_Q (collab no_vertex) verts tt (self0 no_vertex 0 1).

End Demo.

(** ** [__init__]

    The constructor reads more of the command-line options than the
    methods do, loads the checkpoint, overwrites the options with those
    stored in it, builds the two networks and creates the output
    directories.  The options object it receives is the caller's: the
    assignment to [opt.resume_epoch] is seen by the caller. *)

(** The fields of [opt] that [__init__] reads or writes. *)
Record Options : Type := {
  load_netMR_checkpoint_path : option string;
  resume_epoch : Z;
  checkpoints_path : string;
  opt_name : string;                 (* [opt.name] *)
  opt_start_id : Z;                  (* [opt.start_id] *)
  opt_end_id : Z;                    (* [opt.end_id] *)
  gpu_id : Z;
  dataroot : string;
  opt_resolution : Z;                (* [opt.resolution] *)
  opt_results_path : string;         (* [opt.results_path] *)
  loadSize : Z;
  opt_use_compose : bool             (* [opt.use_compose] *)
}.

(** [opt.resume_epoch = v] *)
Definition set_resume_epoch (v : Z) (o : Options) : Options :=
  {| load_netMR_checkpoint_path := load_netMR_checkpoint_path o;
     resume_epoch := v;
     checkpoints_path := checkpoints_path o;
     opt_name := opt_name o;
     opt_start_id := opt_start_id o;
     opt_end_id := opt_end_id o;
     gpu_id := gpu_id o;
     dataroot := dataroot o;
     opt_resolution := opt_resolution o;
     opt_results_path := opt_results_path o;
     loadSize := loadSize o;
     opt_use_compose := opt_use_compose o |}.

(** Lines 40-49: [opt = state_dict['opt']] with [dataroot], [resolution],
    [results_path] and [loadSize] put back from the options received. *)
Definition overwrite_opt (stored received : Options) : Options :=
  {| load_netMR_checkpoint_path := load_netMR_checkpoint_path stored;
     resume_epoch := resume_epoch stored;
     checkpoints_path := checkpoints_path stored;
     opt_name := opt_name stored;
     opt_start_id := opt_start_id stored;
     opt_end_id := opt_end_id stored;
     gpu_id := gpu_id stored;
     dataroot := dataroot received;
     opt_resolution := opt_resolution received;
     opt_results_path := opt_results_path received;
     loadSize := loadSize received;
     opt_use_compose := opt_use_compose stored |}.

(** The part of the options the methods read from [self.opt]. *)
Definition methods_opt (o : Options) : Opt :=
  {| results_path := opt_results_path o;
     name := opt_name o;
     resolution := opt_resolution o;
     use_compose := opt_use_compose o |}.

(** ['%s/%s/recon' % (opt.results_path, opt.name)] *)
Definition recon_dir (o : Opt) : string :=
  String.concat "" [results_path o; "/"; name o; "/recon"]%string.

(** ['%s/%s_train_latest' % (opt.checkpoints_path, opt.name)] *)
Definition latest_path (o : Options) : string :=
  String.concat "" [checkpoints_path o; "/"; opt_name o; "_train_latest"]%string.

(** ['%s/%s_train_epoch_%d' % (checkpoints_path, name, resume_epoch)] *)
Definition epoch_path (o : Options) : string :=
  String.concat ""
    [checkpoints_path o; "/"; opt_name o; "_train_epoch_";
     Py.fmt_d (resume_epoch o)]%string.

(** What [__init__] uses from [os], torch and [PIFuHD.model]. *)
Class InitCollaborators (F : Type) (C : Collaborators F) := {
  NetGOpt : Type;                    (* [state_dict['opt_netG']] *)
  Weights : Type;                    (* [state_dict['model_state_dict']] *)
  NetG : Type;                       (* the network built for [self.netG] *)
  cuda_is_available : bool;
  path_exists : string -> bool;      (* [os.path.exists] *)
  torch_load : string -> string -> Result (Options * NetGOpt * Weights);
  HGPIFuNetwNML : NetGOpt -> string -> string -> Result NetG;
  HGPIFuMRNet : Options -> NetG -> string -> string -> Result Net;
  load_state_dict : Net -> Weights -> Result Net;
  makedirs : string -> Result unit   (* [os.makedirs(p, exist_ok=True)] *)
}.

(** What [__init__] does to the outside, in order. *)
Inductive InitEvent : Type :=
| IPrint (s : string)
| ILoad (path device : string)
| IMakedirs (path : string).

Section Constructor.
Context {F : Type} {SF : Scalar F} {C : Collaborators F}
        {IC : InitCollaborators C}.

(** A computation of the constructor: it may change the options object
    it received, raise, and emit events. *)
Definition IM (A : Type) : Type :=
  Options -> Result A * Options * list InitEvent.

Definition iret {A} (a : A) : IM A := fun o => (Ok a, o, []).

Definition ibind {A B} (m : IM A) (k : A -> IM B) : IM B :=
  fun o =>
    match m o with
    | (Ok a, o1, w1) => let '(r, o2, w2) := k a o1 in (r, o2, w1 ++ w2)
    | (Raise e, o1, w1) => (Raise e, o1, w1)
    end.

Definition iraise {A} (e : Exception) : IM A := fun o => (Raise e, o, []).
Definition ilift {A} (r : Result A) : IM A := fun o => (r, o, []).
Definition iemit (ev : InitEvent) : IM unit := fun o => (Ok tt, o, [ev]).
Definition iget : IM Options := fun o => (Ok o, o, []).
Definition imodify (f : Options -> Options) : IM unit :=
  fun o => (Ok tt, f o, []).

(** Lines 19-26: the checkpoint to load. *)
Definition choose_state_dict_path : IM (option string) :=
  ibind iget (fun opt =>
  match load_netMR_checkpoint_path opt with
  | Some p => iret (Some p)
  | None =>
      if resume_epoch opt <? 0 then
        ibind (imodify (set_resume_epoch 0)) (fun _ =>
        iret (Some (latest_path opt)))
      else iret (Some (epoch_path opt))
  end).

(** ['cuda:%d' % opt.gpu_id if torch.cuda.is_available() else 'cpu'] *)
Definition device_name (opt : Options) : string :=
  if cuda_is_available
  then String.append "cuda:" (Py.fmt_d (gpu_id opt))
  else "cpu"%string.

(** [f'{p}'] for a path that may be [None]. *)
Definition fmt_path (p : option string) : string :=
  match p with Some s => s | None => "None"%string end.

(** Lines 35-51: load the checkpoint or leave the program; [exit] raises
    [SystemExit] with the message. *)
Definition load_checkpoint (state_dict_path : option string) (cuda : string)
  : IM (Options * NetGOpt * Weights) :=
  match state_dict_path with
  | Some p =>
      if path_exists p then
        ibind (iemit (IPrint (String.append "Resuming from  " p))) (fun _ =>
        ibind (iemit (ILoad p cuda)) (fun _ =>
        ibind (ilift (torch_load p cuda)) (fun state_dict =>
        ibind (iemit (IPrint "Warning: opt is overwritten.")) (fun _ =>
        ibind iget (fun opt =>
        let '(stored, opt_netG, weights) := state_dict in
        iret (overwrite_opt stored opt, opt_netG, weights))))))
      else
        iraise (BaseOnly (String.append "failed loading state dict! " (fmt_path state_dict_path)))
  | None =>
      iraise (BaseOnly (String.append "failed loading state dict! " (fmt_path state_dict_path)))
  end.

Definition do_makedirs (p : string) : IM unit :=
  ibind (ilift (makedirs p)) (fun _ => iemit (IMakedirs p)).

(** Lines 17-64.  The attributes [self.range], [self.cuda] and
    [self.netG] are read by no method of the class and are not part of
    [Self]; the device is passed to the constructors of the networks. *)
Definition __init__ : IM Self :=
  ibind choose_state_dict_path (fun state_dict_path =>
  ibind iget (fun opt =>
  let self_start_id := opt_start_id opt in
  let self_end_id := opt_end_id opt in
  let cuda := device_name opt in
  ibind (load_checkpoint state_dict_path cuda) (fun loaded =>
  let '(opt, opt_netG, weights) := loaded in
  ibind (ilift (HGPIFuNetwNML opt_netG "orthogonal" cuda)) (fun netG =>
  ibind (ilift (HGPIFuMRNet opt netG "orthogonal" cuda)) (fun net =>
  ibind (ilift (load_state_dict net weights)) (fun net =>
  ibind (do_makedirs (checkpoints_path opt)) (fun _ =>
  ibind (do_makedirs (opt_results_path opt)) (fun _ =>
  ibind (do_makedirs (recon_dir (methods_opt opt))) (fun _ =>
  iret {| start_id := self_start_id;
          end_id := self_end_id;
          netMR := net;
          opt := methods_opt opt |}))))))))).

(** The directories a trace shows as created. *)
Definition dirs_made (w : list InitEvent) : list string :=
  flat_map (fun ev => match ev with IMakedirs p => [p] | _ => [] end) w.

(** The checkpoints a trace shows as read. *)
Definition loads (w : list InitEvent) : list string :=
  flat_map (fun ev => match ev with ILoad p _ => [p] | _ => [] end) w.

(** The path [__init__] settles on, as a function of the options. *)
Definition chosen_path (opt : Options) : string :=
  match load_netMR_checkpoint_path opt with
  | Some p => p
  | None => if resume_epoch opt <? 0 then latest_path opt else epoch_path opt
  end.

(** The options object of the caller after [__init__]. *)
Definition after_choice (opt : Options) : Options :=
  match load_netMR_checkpoint_path opt with
  | Some _ => opt
  | None => if resume_epoch opt <? 0 then set_resume_epoch 0 opt else opt
  end.

(** The three observable parts of a finished run of the constructor. *)
Definition init_outcome {A} (x : Result A * Options * list InitEvent)
  : Result A := fst (fst x).
Definition init_options {A} (x : Result A * Options * list InitEvent)
  : Options := snd (fst x).
Definition init_events {A} (x : Result A * Options * list InitEvent)
  : list InitEvent := snd x.
End Constructor.

(** ** Vocabulary of the further statements *)

Section MoreVocabulary.
Context {F : Type} {SF : Scalar F} {C : Collaborators F}.

(** The views appended by the first [try] block when nothing fails in
    it. *)
Definition back_views (n : Net) : list View :=
  if netB n then match nmlB n with Some b => b | None => [] end else [].

(** The state a run ends in. *)
Definition final_self {A} (x : Result A * Self * list Event) : Self :=
  snd (fst x).

(** A trace in which reconstruction was attempted. *)
Definition reconstruction_attempts (w : list Event) : list Z :=
  flat_map (fun ev => match ev with EReconstruction ns => [ns] | _ => [] end) w.

(** The lines printed in a trace. *)
Definition printed (w : list Event) : list string :=
  flat_map (fun ev => match ev with EPrint s => [s] | _ => [] end) w.

(** The image lookups found in a trace. *)
Definition index_calls (w : list Event) : list (list (F * F)) :=
  flat_map (fun ev => match ev with EIndex uv => [uv] | _ => [] end) w.

(** Two states of [self] that differ at most in the network. *)
Definition same_but_net (s s' : Self) : Prop :=
  start_id s' = start_id s /\ end_id s' = end_id s /\ opt s' = opt s.

(** The state in which the guarded block of a mesh generator starts,
    after the two filter calls returned [n1] and [n2]. *)
Definition filtered (n1 n2 : Net) (s : Self) : Self :=
  set_netMR n2 (set_netMR n1 s).
End MoreVocabulary.

(** ** Scripted collaborators of the constructor *)

Module DemoInit.

(** The options stored in the scripted checkpoint. *)
Definition stored_opt : Options :=
  {| load_netMR_checkpoint_path := None;
     resume_epoch := 7;
     checkpoints_path := "train/checkpoints"%string;
     opt_name := "pifuhd"%string;
     opt_start_id := 100;
     opt_end_id := 200;
     gpu_id := 3;
     dataroot := "train/data"%string;
     opt_resolution := 128;
     opt_results_path := "train/results"%string;
     loadSize := 1024;
     opt_use_compose := true |}.

(** The options of the scripted caller. *)
Definition caller_opt (ckpt : option string) (epoch : Z) : Options :=
  {| load_netMR_checkpoint_path := ckpt;
     resume_epoch := epoch;
     checkpoints_path := "ckpt"%string;
     opt_name := "run"%string;
     opt_start_id := -1;
     opt_end_id := -1;
     gpu_id := 0;
     dataroot := "in"%string;
     opt_resolution := 256;
     opt_results_path := "out"%string;
     loadSize := 512;
     opt_use_compose := false |}.

(** One checkpoint file exists, ["ckpt/run_train_latest"]; every
    directory can be created; there is no GPU. *)
#[export] Instance init_collab (sc : Demo.Script)
  : InitCollaborators (Demo.collab sc) := {|
  NetGOpt := unit;
  Weights := unit;
  NetG := unit;
  cuda_is_available := false;
  path_exists := fun p => String.eqb p "ckpt/run_train_latest";
  torch_load := fun _ _ => Ok (stored_opt, tt, tt);
  HGPIFuNetwNML := fun _ _ _ => Ok tt;
  HGPIFuMRNet := fun _ _ _ _ =>
    (Ok (@nil (Vec3 Q)) : Result (@Net Q (Demo.collab sc)));
  load_state_dict := fun n _ => Ok n;
  makedirs := fun _ => Ok tt
|}.

Definition init_run (ckpt : option string) (epoch : Z) :=
  @__init__ Q (Demo.collab Demo.triangle) (init_collab Demo.triangle)
            (caller_opt ckpt epoch).

(** An item without views. *)
Definition blind_item (sc : Demo.Script) : @Data Q (Demo.collab sc) :=
  @Build_Data Q (Demo.collab sc) "person"%string [] [8] tt
              ((-1)%Q, (-1)%Q, (-1)%Q) (1%Q, 1%Q, 1%Q) None.

(** A calibration that has no inverse. *)
Definition flat : Mat4 Q :=
  ((1%Q, 0%Q, 0%Q, 0%Q), (0%Q, 1%Q, 0%Q, 0%Q),
   (0%Q, 0%Q, 0%Q, 0%Q), (0%Q, 0%Q, 0%Q, 1%Q)).

(** Collaborators with a normal oracle that runs out of memory on any
    batch holding a point off the plane [z = 0], a reconstruction that
    returns five vertices, and filter calls that fail on demand. *)
Definition off_plane (v : Vec3 Q) : bool :=
  let '(_, _, z) := v in negb (Demo.is_zero z).

Definition five : list (Vec3 Q) :=
  [Demo.v1; Demo.v2; Demo.v3; Demo.v1; Demo.v2].

Definition faulty (fail_filter : bool) : Collaborators Q := {|
  Net := list (Vec3 Q);
  View := Z;
  Calib := unit;
  Face := (Z * Z * Z)%type;
  Preview := Z;
  netG_eval := fun n => n;
  filter_global := fun n _ =>
    if fail_filter then Raise (StdError "filter failed") else Ok n;
  filter_local := fun n _ => Ok n;
  netF := fun _ => false;
  netB := fun _ => false;
  nmlF := fun _ => None;
  nmlB := fun _ => None;
  calc_normal := fun _ pts _ =>
    if existsb off_plane pts then Raise (StdError "CUDA out of memory")
    else Ok pts;
  nmls := fun n => n;
  projection := fun _ pts _ => Ok pts;
  index := fun _ uv => Ok (map (fun '(u, v) => (u, v, 0%Q)) uv);
  reconstruction := fun n _ _ _ _ _ _ _ => Ok (n, (five, []));
  bgr255 := fun v => v;
  cv2_imwrite := fun _ _ => Ok tt;
  save_obj_mesh_with_color := fun _ _ _ _ => Ok tt;
  inv := Demo.inv_diagonal
|}.

Definition faulty_item (fail_filter : bool) : @Data Q (faulty fail_filter) :=
  @Build_Data Q (faulty fail_filter) "person"%string [7] [8] tt
              ((-1)%Q, (-1)%Q, (-1)%Q) (1%Q, 1%Q, 1%Q) None.

Definition faulty_self (fail_filter : bool) (a b : Z)
  : @Self Q (faulty fail_filter) :=
  @Build_Self Q (faulty fail_filter) a b [] Demo.opt0.

(** What the constructor returns on the scripted checkpoint. *)
Definition built : @Self Q (Demo.collab Demo.triangle) :=
  @Build_Self Q (Demo.collab Demo.triangle) (-1) (-1) []
              {| results_path := "out"%string; name := "pifuhd"%string;
                 resolution := 256; use_compose := true |}.

(** The attribute loop on five vertices with chunk size two. *)
Definition failing_loop :=
  @normal_colors Q Demo.scalar_Q (faulty false) 2 five tt
                 (faulty_self false 0 1).

End DemoInit.

(** ** Facts about slices *)

Section SliceFacts.
Context {A : Type}.
Implicit Types l vals : list A.

Lemma norm_index_range (n i : Z) :
  0 <= n -> 0 <= Py.norm_index n i <= n.
Proof.
  intros Hn. unfold Py.norm_index.
  destruct (i <? 0) eqn:E; [apply Z.ltb_lt in E | apply Z.ltb_ge in E]; lia.
Qed.

Lemma len_nonneg l : 0 <= Py.len l.
Proof. unfold Py.len. lia. Qed.

Lemma slice_start_le l left : (Py.slice_start l left <= List.length l)%nat.
Proof.
  unfold Py.slice_start.
  pose proof (norm_index_range left (len_nonneg l)) as Hr.
  unfold Py.len in *. lia.
Qed.

Lemma slice_end_le l left right :
  (Py.slice_start l left + Py.slice_len l left right <= List.length l)%nat.
Proof.
  unfold Py.slice_start, Py.slice_len.
  pose proof (norm_index_range left (len_nonneg l)) as Hl.
  pose proof (norm_index_range right (len_nonneg l)) as Hr.
  unfold Py.len in *. lia.
Qed.

Lemma slice_length l left right :
  List.length (Py.slice l left right) = Py.slice_len l left right.
Proof.
  unfold Py.slice. rewrite length_firstn, length_skipn.
  pose proof (slice_end_le l left right). lia.
Qed.

Lemma slice_start_same_length {B : Type} l (l' : list B) left :
  List.length l = List.length l' ->
  Py.slice_start l left = Py.slice_start l' left.
Proof. intros E. unfold Py.slice_start, Py.len. now rewrite E. Qed.

Lemma slice_len_same_length {B : Type} l (l' : list B) left right :
  List.length l = List.length l' ->
  Py.slice_len l left right = Py.slice_len l' left right.
Proof. intros E. unfold Py.slice_len, Py.len. now rewrite E. Qed.

(** A slice assignment never changes the number of rows. *)
Lemma slice_assign_length l left right vals l' :
  Py.slice_assign l left right vals = Some l' ->
  List.length l' = List.length l.
Proof.
  unfold Py.slice_assign. intros E.
  pose proof (slice_end_le l left right) as Hb.
  pose proof (slice_start_le l left) as Ha.
  destruct (Nat.eqb (List.length vals) (Py.slice_len l left right)) eqn:Ek.
  - apply Nat.eqb_eq in Ek. inversion E; subst l'; clear E.
    rewrite !length_app, length_firstn, length_skipn. lia.
  - destruct vals as [|v [|v' vals']]; try discriminate.
    inversion E; subst l'; clear E.
    rewrite !length_app, length_firstn, repeat_length, length_skipn. lia.
Qed.

Lemma range_length (n : Z) : List.length (Py.range n) = Z.to_nat n.
Proof. unfold Py.range. now rewrite length_map, length_seq. Qed.
End SliceFacts.

(** ** The attribute loop of [_gen_mesh_gray] *)

Section PaintFacts.
Context {F : Type} {SF : Scalar F}.
Variable g : Vec3 F -> Vec3 F.
Implicit Types verts : list (Vec3 F).

Lemma skipn_repeat {A : Type} (x : A) (k n : nat) :
  skipn k (repeat x n) = repeat x (n - k).
Proof.
  revert n; induction k as [|k IH]; intros [|n]; simpl; auto.
Qed.

Lemma firstn_plus {A : Type} (l : list A) (a k : nat) :
  firstn (a + k) l = firstn a l ++ firstn k (skipn a l).
Proof.
  revert l; induction a as [|a IH]; intros [|x l]; simpl; auto.
  - now rewrite firstn_nil.
  - now rewrite IH.
Qed.

Lemma paint_length verts (c : nat) :
  (c <= List.length verts)%nat ->
  List.length (paint g verts c) = List.length verts.
Proof.
  intros Hc. unfold paint.
  rewrite length_app, length_map, length_firstn, repeat_length. lia.
Qed.

Lemma paint_zero verts : paint g verts 0 = np_zeros_like verts.
Proof.
  unfold paint, np_zeros_like. simpl. rewrite Nat.sub_0_r.
  symmetry. apply map_const.
Qed.

Lemma paint_all verts (c : nat) :
  (List.length verts <= c)%nat -> paint g verts c = map g verts.
Proof.
  intros Hc. unfold paint. rewrite firstn_all2 by assumption.
  replace (List.length verts - c)%nat with 0%nat by lia.
  simpl. apply app_nil_r.
Qed.

(** Overwriting rows [a .. a+k) of an array painted up to [a] with the
    values of [g] there paints it up to [a + k]. *)
Lemma paint_update verts (a k : nat) :
  (a + k <= List.length verts)%nat ->
  firstn a (paint g verts a) ++ map g (firstn k (skipn a verts))
    ++ skipn (a + k) (paint g verts a)
  = paint g verts (a + k).
Proof.
  intros Hak. unfold paint.
  assert (Hla : List.length (map g (firstn a verts)) = a)
    by (rewrite length_map, length_firstn; lia).
  rewrite firstn_app, Hla, Nat.sub_diag, firstn_O, app_nil_r.
  rewrite <- Hla at 1. rewrite firstn_all.
  rewrite skipn_app, Hla.
  rewrite (skipn_all2 (map g (firstn a verts))) by lia.
  simpl. replace (a + k - a)%nat with k by lia.
  rewrite skipn_repeat, firstn_plus, map_app, <- app_assoc.
  do 3 f_equal. lia.
Qed.

Lemma slice_assign_paint verts (left right : Z) :
  Py.slice_assign (paint g verts (Py.slice_start verts left)) left right
                  (map g (Py.slice verts left right))
  = Some (paint g verts (Py.slice_start verts left
                         + Py.slice_len verts left right)).
Proof.
  pose proof (slice_start_le verts left) as Ha.
  pose proof (slice_end_le verts left right) as Hb.
  pose proof (paint_length verts Ha) as Hlen.
  unfold Py.slice_assign.
  rewrite (slice_start_same_length _ verts left Hlen).
  rewrite (slice_len_same_length _ verts left right Hlen).
  rewrite length_map, slice_length, Nat.eqb_refl.
  unfold Py.slice at 1.
  now rewrite paint_update.
Qed.
End PaintFacts.

Section LoopFacts.
Context {F : Type} {SF : Scalar F} {C : Collaborators F}.
Variables (iv : Z) (verts : list (Vec3 F)) (cal : Calib).

Ltac run_step :=
  unfold normal_chunk, bind, emit, net_call, get_self, ret, raise, lift in *;
  simpl in *.

(** One iteration, whatever the oracle does: it issues exactly one oracle
    call, on the slice of the iteration, and if it completes the array
    has kept its length. *)
Lemma normal_chunk_inv i color s r s' w :
  List.length color = List.length verts ->
  normal_chunk iv verts cal i color s = (r, s', w) ->
  w = [ECalcNormal (chunk_of iv verts i)] /\
  (forall c', r = Ok c' -> List.length c' = List.length verts).
Proof.
  intros Hlen E. unfold chunk_of.
  assert (Hl : Py.len color = Py.len verts) by (unfold Py.len; now rewrite Hlen).
  run_step. rewrite Hl in E.
  set (left := i * iv) in *.
  set (right := if i =? Py.len verts / iv then -1 else (i + 1) * iv) in *.
  destruct (calc_normal (netMR s) (Py.slice verts left right) cal) as [n|e].
  - simpl in E.
    destruct (Py.slice_assign color left right (map remap3 (nmls n))) as [c1|] eqn:Ea;
      inversion E; subst; split; auto; intros c' Hc; inversion Hc; subst.
    rewrite <- Hlen. eapply slice_assign_length; eauto.
  - inversion E; subst; split; auto; intros c' Hc; discriminate.
Qed.

(** The whole loop, whatever the oracle does: the calls issued are the
    chunks of a prefix of the iterations, all of them if the loop
    completes, and the array keeps its length. *)
Lemma normal_loop_inv xs : forall color s r s' w,
  List.length color = List.length verts ->
  for_acc xs (normal_chunk iv verts cal) color s = (r, s', w) ->
  exists k, (k <= List.length xs)%nat /\
    w = map (fun i => ECalcNormal (chunk_of iv verts i)) (firstn k xs) /\
    (forall c', r = Ok c' ->
                k = List.length xs /\ List.length c' = List.length verts).
Proof.
  induction xs as [|i xs IH]; intros color s r s' w Hlen E.
  - simpl in E. unfold ret in E. inversion E; subst.
    exists 0%nat. repeat split; auto. inversion H; subst; auto.
  - simpl in E. unfold bind in E.
    destruct (normal_chunk iv verts cal i color s) as [[r1 s1] w1] eqn:E1.
    destruct (normal_chunk_inv _ _ _ Hlen E1) as [Hw1 Hr1].
    destruct r1 as [c1|e1].
    + destruct (for_acc xs (normal_chunk iv verts cal) c1 s1) as [[r2 s2] w2] eqn:E2.
      inversion E; subst r s' w; clear E.
      destruct (IH _ _ _ _ _ (Hr1 c1 eq_refl) E2) as (k & Hk & Hw2 & Hr2).
      exists (S k). split; [simpl; lia|]. split.
      * subst w1 w2. reflexivity.
      * intros c' Hc. destruct (Hr2 c' Hc) as [-> Hl]. auto.
    + inversion E; subst r s' w; clear E.
      exists 1%nat. split; [simpl; lia|]. split.
      * subst w1. simpl. reflexivity.
      * intros c' Hc; discriminate.
Qed.

(** No chunk is longer than the chunk size. *)
Lemma chunk_of_length i :
  0 < iv -> 0 <= i -> Z.of_nat (List.length (chunk_of iv verts i)) <= iv.
Proof.
  intros Hiv Hi. unfold chunk_of. rewrite slice_length.
  unfold Py.slice_len, Py.norm_index.
  pose proof (len_nonneg verts) as Hn.
  assert (0 <= i * iv) by nia.
  destruct (i * iv <? 0) eqn:El; [apply Z.ltb_lt in El; lia|].
  destruct (i =? Py.len verts / iv) eqn:Eq.
  - apply Z.eqb_eq in Eq. change (-1 <? 0) with true. cbv iota.
    pose proof (Z.mul_div_le (Py.len verts) iv Hiv) as Hle.
    pose proof (Z.mod_pos_bound (Py.len verts) iv Hiv) as Hmod.
    pose proof (Z.div_mod (Py.len verts) iv ltac:(lia)) as Hdm.
    subst i. lia.
  - replace ((i + 1) * iv) with (i * iv + iv) by ring.
    destruct (i * iv + iv <? 0) eqn:Er; [apply Z.ltb_lt in Er; lia|].
    lia.
Qed.
End LoopFacts.

(** *** The loop against an oracle that answers point by point *)

Section PointwiseLoop.
Context {F : Type} {SF : Scalar F} {C : Collaborators F}.
Variables (iv : Z) (verts : list (Vec3 F)) (cal : Calib).
Variable f : Vec3 F -> Vec3 F.
Hypothesis Hiv : 0 < iv.
Hypothesis Hf : pointwise_oracle f cal.

Let g : Vec3 F -> Vec3 F := fun v => remap3 (f v).
Let N : Z := Py.len verts.

Lemma div_bounds : N / iv * iv <= N < N / iv * iv + iv /\ 0 <= N / iv.
Proof.
  pose proof (len_nonneg verts) as Hn. fold N in Hn.
  pose proof (Z.div_mod N iv ltac:(lia)) as Hdm.
  pose proof (Z.mod_pos_bound N iv Hiv) as Hm.
  pose proof (Z.div_pos N iv Hn Hiv). lia.
Qed.

Lemma done_upto_le (a : nat) :
  Z.of_nat a <= N / iv -> Z.of_nat a * iv <= N.
Proof. intros Ha. pose proof div_bounds. nia. Qed.

Lemma normal_chunk_pointwise (a : nat) s :
  Z.of_nat a <= N / iv ->
  exists s',
    normal_chunk iv verts cal (Z.of_nat a) (paint g verts (done_upto iv N a)) s
    = (Ok (paint g verts (done_upto iv N (S a))), s',
       [ECalcNormal (chunk_of iv verts (Z.of_nat a))]).
Proof.
  intros Ha.
  pose proof (done_upto_le a Ha) as Hle.
  pose proof div_bounds as (Hq1 & Hq0).
  assert (Hnn : 0 <= Z.of_nat a * iv) by nia.
  assert (Hdone : done_upto iv N a = Z.to_nat (Z.of_nat a * iv)).
  { unfold done_upto. destruct (Z.of_nat a <=? N / iv) eqn:E; auto.
    apply Z.leb_gt in E. lia. }
  assert (Hstart : Py.slice_start verts (Z.of_nat a * iv) = Z.to_nat (Z.of_nat a * iv)).
  { unfold Py.slice_start, Py.norm_index. fold N.
    destruct (Z.of_nat a * iv <? 0) eqn:E; [apply Z.ltb_lt in E; lia|].
    f_equal. lia. }
  assert (Hlen : Py.len (paint g verts (done_upto iv N a)) = N).
  { unfold Py.len. rewrite paint_length; [reflexivity|].
    rewrite Hdone. unfold N, Py.len in Hle. lia. }
  unfold normal_chunk, chunk_of, bind, emit, net_call, get_self, ret, raise.
  rewrite Hlen. fold N.
  set (right := if Z.of_nat a =? N / iv then -1 else (Z.of_nat a + 1) * iv).
  destruct (Hf (netMR s) (Py.slice verts (Z.of_nat a * iv) right)) as (n' & E1 & E2).
  rewrite E1. simpl. rewrite E2, map_map.
  change (map (fun x => remap3 (f x))) with (map g).
  rewrite Hdone, <- Hstart, slice_assign_paint.
  exists (set_netMR n' s). do 3 f_equal.
  rewrite Hstart. unfold Py.slice_len, Py.norm_index. fold N.
  destruct (Z.of_nat a * iv <? 0) eqn:E; [apply Z.ltb_lt in E; lia|].
  unfold done_upto, covered, right.
  replace (Z.of_nat (S a)) with (Z.of_nat a + 1) by lia.
  replace ((Z.of_nat a + 1) * iv) with (Z.of_nat a * iv + iv) by ring.
  destruct (Z.of_nat a =? N / iv) eqn:Eq.
  - apply Z.eqb_eq in Eq. change (-1 <? 0) with true. cbv iota.
    destruct (Z.of_nat a + 1 <=? N / iv) eqn:Es; [apply Z.leb_le in Es; lia|].
    rewrite <- Eq in Hq1 |- *. f_equal. lia.
  - apply Z.eqb_neq in Eq.
    destruct (Z.of_nat a + 1 <=? N / iv) eqn:Es;
      [apply Z.leb_le in Es | apply Z.leb_gt in Es; lia].
    assert (Z.of_nat a * iv + iv <= N) by nia.
    destruct (Z.of_nat a * iv + iv <? 0) eqn:Er; [apply Z.ltb_lt in Er; lia|].
    f_equal. lia.
Qed.

Lemma normal_loop_pointwise (b : nat) : forall (a : nat) s,
  Z.of_nat (a + b) = N / iv + 1 ->
  exists s',
    for_acc (map Z.of_nat (seq a b)) (normal_chunk iv verts cal)
            (paint g verts (done_upto iv N a)) s
    = (Ok (paint g verts (done_upto iv N (a + b))), s',
       map (fun i => ECalcNormal (chunk_of iv verts i)) (map Z.of_nat (seq a b))).
Proof.
  induction b as [|b IH]; intros a s Hab.
  - simpl. rewrite Nat.add_0_r. exists s. reflexivity.
  - simpl. unfold bind.
    destruct (normal_chunk_pointwise a s ltac:(lia)) as (s1 & E1).
    rewrite E1.
    destruct (IH (S a) s1 ltac:(lia)) as (s2 & E2).
    rewrite E2. exists s2.
    replace (a + S b)%nat with (S a + b)%nat by lia. reflexivity.
Qed.

(** The loop on a point-by-point oracle: it completes, the first
    [covered iv N] rows hold the remapped oracle value of their vertex,
    the other rows keep their zeros, and the oracle was called once for
    each chunk, in order. *)
Lemma normal_colors_pointwise s :
  exists s',
    normal_colors iv verts cal s
    = (Ok (paint g verts (covered iv N)), s', map ECalcNormal (chunks iv verts)).
Proof.
  pose proof div_bounds as (Hq1 & Hq0).
  unfold normal_colors, chunks, Py.range.
  assert (Hz : Py.len (np_zeros_like verts) = N).
  { unfold Py.len, np_zeros_like. now rewrite length_map. }
  rewrite Hz. fold N.
  destruct (normal_loop_pointwise (Z.to_nat (N / iv + 1)) 0 s ltac:(lia)) as (s' & E).
  assert (H0 : done_upto iv N 0 = 0%nat).
  { unfold done_upto. simpl. destruct (0 <=? N / iv) eqn:E0; auto.
    apply Z.leb_gt in E0; lia. }
  rewrite H0, paint_zero in E. rewrite E. exists s'.
  rewrite !map_map. f_equal. do 2 f_equal.
  unfold done_upto. simpl.
  destruct (Z.of_nat (Z.to_nat (N / iv + 1)) <=? N / iv) eqn:E1; auto.
  apply Z.leb_le in E1. lia.
Qed.
End PointwiseLoop.

(** ** The shape of a run of the mesh generators *)

Section RunShapes.
Context {F : Type} {SF : Scalar F} {C : Collaborators F}.
Variables (res : Z) (data : Data) (save_path : string) (thresh : F)
          (use_octree : bool).

Lemma save_preview_cases g s r s' w :
  save_preview save_path g s = (r, s', w) ->
  s' = s /\
  ((exists e, r = Raise e /\ w = []) \/
   (r = Ok (png_path save_path) /\
    w = [EImwrite (png_path save_path) (map bgr255 g)])).
Proof.
  unfold save_preview, bind, lift, emit, ret. intros E.
  destruct (np_concatenate (map bgr255 g)) as [imgs|e] eqn:Ec.
  - assert (imgs = map bgr255 g) as ->.
    { unfold np_concatenate in Ec. destruct (map bgr255 g); congruence. }
    destruct (cv2_imwrite (png_path save_path) (map bgr255 g)) as [[]|e];
      inversion E; subst; split; eauto.
  - inversion E; subst; split; eauto.
Qed.

(** The guarded block of [_gen_mesh_gray] ends in one of four ways. *)
Lemma gray_guarded_cases g s r s' w :
  gray_guarded res data save_path thresh use_octree g s = (r, s', w) ->
  (exists e, r = Raise e /\ w = [] /\ s' = s)
  \/ (exists e, r = Raise e /\ s' = s /\
        reconstruction (netMR s) (calib data) res (b_min data) (b_max data)
                       thresh use_octree 50000 = Raise e /\
        w = [EImwrite (png_path save_path) (map bgr255 g);
             EReconstruction 50000])
  \/ (exists n verts faces rc wc,
        reconstruction (netMR s) (calib data) res (b_min data) (b_max data)
                       thresh use_octree 50000 = Ok (n, (verts, faces)) /\
        normal_colors interval verts (calib data) (set_netMR n s)
          = (rc, s', wc) /\
        ((exists e, r = Raise e /\
                    w = EImwrite (png_path save_path) (map bgr255 g)
                          :: EReconstruction 50000 :: wc)
         \/ (exists color, rc = Ok color /\
               r = Ok (Some (png_path save_path, save_path)) /\
               save_obj_mesh_with_color save_path verts faces color = Ok tt /\
               w = EImwrite (png_path save_path) (map bgr255 g)
                     :: EReconstruction 50000
                     :: wc ++ [ESaveObj save_path verts faces color]))).
Proof.
  unfold gray_guarded. unfold bind at 1. intros E.
  destruct (save_preview save_path g s) as [[r0 s0] w0] eqn:E0.
  destruct (save_preview_cases _ _ E0) as [-> [(e & -> & ->) | (-> & ->)]].
  { inversion E; subst. left. eauto. }
  unfold call_reconstruction, bind, emit, lift, ret in E. simpl in E.
  destruct (reconstruction (netMR s) (calib data) res (b_min data)
              (b_max data) thresh use_octree 50000)
    as [[n [verts faces]]|e] eqn:Er.
  2:{ inversion E; subst. right; left. exists e. auto. }
  right; right.
  destruct (normal_colors interval verts (calib data) (set_netMR n s))
    as [[rc sc] wc] eqn:Ec.
  exists n, verts, faces, rc, wc.
  destruct rc as [color|e].
  - destruct (save_obj_mesh_with_color save_path verts faces color) as [[]|e] eqn:Es;
      inversion E; subst; (split; [reflexivity|]); (split; [assumption|]).
    + right. exists color. repeat split; auto.
    + left. exists e. rewrite app_nil_r. auto.
  - inversion E; subst. repeat split; auto. left. exists e. auto.
Qed.

(** A call of [_gen_mesh_gray]: a failure of the two filter calls
    propagates; otherwise the guarded block runs and its exception, if
    any, is printed and turned into [None] when it is an instance of
    [Exception], and propagates when it is not. *)
Lemma gen_mesh_gray_cases components s r s' w :
  _gen_mesh_gray res data save_path thresh use_octree components s
    = (r, s', w) ->
  (exists e, r = Raise e /\ w = [])
  \/ (exists s1 g rb wb,
        gray_guarded res data save_path thresh use_octree g s1 = (rb, s', wb) /\
        match rb with
        | Ok v => r = Ok v /\ w = wb
        | Raise e => ends_handled None e wb r w
        end).
Proof.
  unfold _gen_mesh_gray, bind, net_call, get_self, try_except, print, emit, ret.
  intros E.
  destruct (filter_global (netMR s) (img_512 data)) as [n1|e]; simpl in E.
  2:{ inversion E; subst. left. eauto. }
  destruct (filter_local n1 (img data)) as [n2|e]; simpl in E.
  2:{ inversion E; subst. left. eauto. }
  right.
  match type of E with
  | context [gray_guarded _ _ _ _ _ ?g ?s1] =>
      destruct (gray_guarded res data save_path thresh use_octree g s1)
        as [[rb sb] wb] eqn:Eb; exists s1, g, rb, wb
  end.
  destruct rb as [v|e]; [inversion E; subst; auto|].
  unfold ends_handled. destruct (is_Exception e); inversion E; subst; auto.
Qed.

Lemma world_vertices_cases verts s r s' w :
  world_vertices data verts s = (r, s', w) ->
  w = [] /\ s' = s /\
  match calib_world data with
  | None => r = Ok verts
  | Some cw =>
      match inv cw with
      | Ok m_inv => r = Ok (to_world m_inv verts)
      | Raise e => r = Raise e
      end
  end.
Proof.
  unfold world_vertices, bind, lift, ret. intros E.
  destruct (calib_world data) as [cw|].
  - destruct (inv cw) as [m|e]; inversion E; subst; auto.
  - inversion E; subst; auto.
Qed.

(** The guarded block of [_gen_mesh_color] ends in one of four ways. *)
Lemma color_guarded_cases g s r s' w :
  color_guarded res data save_path thresh use_octree g s = (r, s', w) ->
  (exists e, r = Raise e /\ w = [])
  \/ (exists e, r = Raise e /\
        reconstruction (netMR s) (calib data) res (b_min data) (b_max data)
                       thresh use_octree 100000 = Raise e /\
        w = [EImwrite (png_path save_path) (map bgr255 g);
             EReconstruction 100000])
  \/ (exists n verts faces,
        reconstruction (netMR s) (calib data) res (b_min data) (b_max data)
                       thresh use_octree 100000 = Ok (n, (verts, faces)) /\
        ((exists e tail, r = Raise e /\
            (tail = [] \/ exists uv, tail = [EIndex uv]) /\
            w = EImwrite (png_path save_path) (map bgr255 g)
                  :: EReconstruction 100000 :: EProjection verts :: tail)
         \/ (exists xyz color verts',
               projection n verts (calib data) = Ok xyz /\
               index (firstn 1 (img data)) (map first2 xyz) = Ok color /\
               world_vertices data verts (set_netMR n s)
                 = (Ok verts', set_netMR n s, []) /\
               r = Ok tt /\
               w = [EImwrite (png_path save_path) (map bgr255 g);
                    EReconstruction 100000; EProjection verts;
                    EIndex (map first2 xyz);
                    ESaveObj save_path verts' faces (map remap3 color)]))).
Proof.
  unfold color_guarded. unfold bind at 1. intros E.
  destruct (save_preview save_path g s) as [[r0 s0] w0] eqn:E0.
  destruct (save_preview_cases _ _ E0) as [-> [(e & -> & ->) | (-> & ->)]].
  { inversion E; subst. left. eauto. }
  unfold call_reconstruction, projected_colors, bind, emit, lift, ret,
    get_self in E.
  set (img1 := firstn 1 (img data)) in *.
  simpl in E.
  destruct (reconstruction (netMR s) (calib data) res (b_min data)
              (b_max data) thresh use_octree 100000)
    as [[n [verts faces]]|e] eqn:Er.
  2:{ inversion E; subst. right; left. exists e. auto. }
  right; right. exists n, verts, faces. split; [reflexivity|].
  simpl in E.
  destruct (projection n verts (calib data)) as [xyz|e] eqn:Ep.
  2:{ inversion E; subst. left. exists e, []. auto. }
  destruct (index img1 (map first2 xyz)) as [color|e] eqn:Ei.
  2:{ inversion E; subst. left. exists e, [EIndex (map first2 xyz)]. eauto 6. }
  destruct (world_vertices data verts (set_netMR n s)) as [[rw sw] ww] eqn:Ew.
  destruct (world_vertices_cases _ _ Ew) as (-> & -> & Hw).
  destruct rw as [verts'|e].
  2:{ inversion E; subst. left. exists e, [EIndex (map first2 xyz)]. eauto 6. }
  destruct (save_obj_mesh_with_color save_path verts' faces (map remap3 color))
    as [[]|e]; inversion E; subst.
  - right. exists xyz, color, verts'. auto.
  - left. exists e, [EIndex (map first2 xyz)]. eauto 6.
Qed.

Lemma gen_mesh_color_cases components s r s' w :
  _gen_mesh_color res data save_path thresh use_octree components s
    = (r, s', w) ->
  (exists e, r = Raise e /\ w = [])
  \/ (exists s1 g rb wb,
        color_guarded res data save_path thresh use_octree g s1 = (rb, s', wb) /\
        match rb with
        | Ok v => r = Ok tt /\ w = wb
        | Raise e => ends_handled tt e wb r w
        end).
Proof.
  unfold _gen_mesh_color, bind, net_call, get_self, try_except, print, emit, ret.
  intros E.
  destruct (filter_global (netMR s) (img_512 data)) as [n1|e]; simpl in E.
  2:{ inversion E; subst. left. eauto. }
  destruct (filter_local n1 (img data)) as [n2|e]; simpl in E.
  2:{ inversion E; subst. left. eauto. }
  right.
  match type of E with
  | context [color_guarded _ _ _ _ _ ?g ?s1] =>
      destruct (color_guarded res data save_path thresh use_octree g s1)
        as [[rb sb] wb] eqn:Eb; exists s1, g, rb, wb
  end.
  destruct rb as [[]|e]; [inversion E; subst; auto|].
  unfold ends_handled. destruct (is_Exception e); inversion E; subst; auto.
Qed.
(** The guarded block of [_gen_mesh_gray], stage by stage. *)
Lemma gray_guarded_unfold g s :
  gray_guarded res data save_path thresh use_octree g s =
  let png := png_path save_path in
  let imgs := map bgr255 g in
  let pre := [EImwrite png imgs; EReconstruction 50000] in
  match np_concatenate imgs with
  | Raise e => (Raise e, s, [])
  | Ok _ =>
  match cv2_imwrite png imgs with
  | Raise e => (Raise e, s, [])
  | Ok _ =>
  match reconstruction (netMR s) (calib data) res (b_min data) (b_max data)
                       thresh use_octree 50000 with
  | Raise e => (Raise e, s, pre)
  | Ok (n, (verts, faces)) =>
  let '(rc, s2, wc) :=
    normal_colors interval verts (calib data) (set_netMR n s) in
  match rc with
  | Raise e => (Raise e, s2, pre ++ wc)
  | Ok color =>
  match save_obj_mesh_with_color save_path verts faces color with
  | Raise e => (Raise e, s2, pre ++ wc)
  | Ok _ =>
      (Ok (Some (png, save_path)), s2,
       pre ++ wc ++ [ESaveObj save_path verts faces color])
  end end end end end.
Proof.
  unfold gray_guarded, save_preview, call_reconstruction, bind, lift, emit, ret.
  cbv zeta.
  destruct (np_concatenate (map bgr255 g)) as [imgs|e] eqn:Ec; [|reflexivity].
  assert (imgs = map bgr255 g) as ->.
  { unfold np_concatenate in Ec. destruct (map bgr255 g); congruence. }
  destruct (cv2_imwrite (png_path save_path) (map bgr255 g)) as [[]|e];
    [|reflexivity].
  simpl.
  destruct (reconstruction (netMR s) (calib data) res (b_min data)
              (b_max data) thresh use_octree 50000)
    as [[n [verts faces]]|e]; [|reflexivity].
  destruct (normal_colors interval verts (calib data) (set_netMR n s))
    as [[[color|e] s2] wc]; [|reflexivity].
  destruct (save_obj_mesh_with_color save_path verts faces color) as [[]|e];
    simpl; [reflexivity | now rewrite app_nil_r].
Qed.

(** [_gen_mesh_gray]: the two filter calls, then the guarded block and
    its [except] clause. *)
Lemma gen_mesh_gray_unfold components s :
  _gen_mesh_gray res data save_path thresh use_octree components s =
  match filter_global (netMR s) (img_512 data) with
  | Raise e => (Raise e, s, [])
  | Ok n1 =>
  match filter_local n1 (img data) with
  | Raise e => (Raise e, set_netMR n1 s, [])
  | Ok n2 =>
  match gray_guarded res data save_path thresh use_octree
                     (cat_normal_maps n2 (img_512 data)) (filtered n1 n2 s) with
  | (Raise e, s2, wb) => handled None e s2 wb
  | ok => ok
  end end end.
Proof.
  unfold _gen_mesh_gray, bind, net_call, get_self, try_except, print, emit,
    ret, handled, filtered.
  destruct (filter_global (netMR s) (img_512 data)) as [n1|e]; [|reflexivity].
  simpl.
  destruct (filter_local n1 (img data)) as [n2|e]; [|reflexivity].
  simpl.
  match goal with
  | |- context [gray_guarded _ _ _ _ _ ?g ?s1] =>
      destruct (gray_guarded res data save_path thresh use_octree g s1)
        as [[[v|e] sb] wb]
  end; [reflexivity|].
  destruct (is_Exception e); reflexivity.
Qed.

(** The guarded block of [_gen_mesh_color], stage by stage. *)
Lemma color_guarded_unfold g s :
  color_guarded res data save_path thresh use_octree g s =
  let png := png_path save_path in
  let imgs := map bgr255 g in
  let pre := [EImwrite png imgs; EReconstruction 100000] in
  match np_concatenate imgs with
  | Raise e => (Raise e, s, [])
  | Ok _ =>
  match cv2_imwrite png imgs with
  | Raise e => (Raise e, s, [])
  | Ok _ =>
  match reconstruction (netMR s) (calib data) res (b_min data) (b_max data)
                       thresh use_octree 100000 with
  | Raise e => (Raise e, s, pre)
  | Ok (n, (verts, faces)) =>
  let s2 := set_netMR n s in
  match projection n verts (calib data) with
  | Raise e => (Raise e, s2, pre ++ [EProjection verts])
  | Ok xyz =>
  let uv := map first2 xyz in
  let asked := pre ++ [EProjection verts; EIndex uv] in
  match index (firstn 1 (img data)) uv with
  | Raise e => (Raise e, s2, asked)
  | Ok color =>
  match outcome (world_vertices data verts s2) with
  | Raise e => (Raise e, s2, asked)
  | Ok verts' =>
  match save_obj_mesh_with_color save_path verts' faces (map remap3 color) with
  | Raise e => (Raise e, s2, asked)
  | Ok _ =>
      (Ok tt, s2,
       asked ++ [ESaveObj save_path verts' faces (map remap3 color)])
  end end end end end end end.
Proof.
  unfold color_guarded, save_preview. unfold bind at 1 2 3.
  unfold lift, emit, ret. cbv zeta.
  destruct (np_concatenate (map bgr255 g)) as [imgs|e] eqn:Ec; [|reflexivity].
  assert (imgs = map bgr255 g) as ->.
  { unfold np_concatenate in Ec. destruct (map bgr255 g); congruence. }
  destruct (cv2_imwrite (png_path save_path) (map bgr255 g)) as [[]|e];
    [|reflexivity].
  unfold call_reconstruction, projected_colors, bind, emit, lift, ret,
    get_self.
  set (img1 := firstn 1 (img data)) in *.
  simpl.
  destruct (reconstruction (netMR s) (calib data) res (b_min data)
              (b_max data) thresh use_octree 100000)
    as [[n [verts faces]]|e]; [|reflexivity].
  simpl.
  destruct (projection n verts (calib data)) as [xyz|e]; [|reflexivity].
  destruct (index img1 (map first2 xyz)) as [color|e]; [|reflexivity].
  destruct (world_vertices data verts (set_netMR n s)) as [[rw sw] ww] eqn:Ew.
  destruct (world_vertices_cases _ _ Ew) as (-> & -> & _).
  unfold outcome. simpl.
  destruct rw as [verts'|e]; [|reflexivity].
  destruct (save_obj_mesh_with_color save_path verts' faces (map remap3 color))
    as [[]|e]; reflexivity.
Qed.

(** [_gen_mesh_color]: the two filter calls, then the guarded block and
    its [except] clause. *)
Lemma gen_mesh_color_unfold components s :
  _gen_mesh_color res data save_path thresh use_octree components s =
  match filter_global (netMR s) (img_512 data) with
  | Raise e => (Raise e, s, [])
  | Ok n1 =>
  match filter_local n1 (img data) with
  | Raise e => (Raise e, set_netMR n1 s, [])
  | Ok n2 =>
  match color_guarded res data save_path thresh use_octree
                      (cat_normal_maps n2 (img_512 data)) (filtered n1 n2 s) with
  | (Raise e, s2, wb) => handled tt e s2 wb
  | ok => ok
  end end end.
Proof.
  unfold _gen_mesh_color, bind, net_call, get_self, try_except, print, emit,
    ret, handled, filtered.
  destruct (filter_global (netMR s) (img_512 data)) as [n1|e]; [|reflexivity].
  simpl.
  destruct (filter_local n1 (img data)) as [n2|e]; [|reflexivity].
  simpl.
  match goal with
  | |- context [color_guarded _ _ _ _ _ ?g ?s1] =>
      destruct (color_guarded res data save_path thresh use_octree g s1)
        as [[[v|e] sb] wb]
  end; [reflexivity|].
  destruct (is_Exception e); reflexivity.
Qed.
End RunShapes.

(** ** Reading traces *)

Section TraceFacts.
Context {F : Type} {SF : Scalar F} {C : Collaborators F}.

Lemma saved_meshes_app (w1 w2 : list Event) :
  saved_meshes (w1 ++ w2) = saved_meshes w1 ++ saved_meshes w2.
Proof. unfold saved_meshes. apply flat_map_app. Qed.

Lemma normal_calls_app (w1 w2 : list Event) :
  normal_calls (w1 ++ w2) = normal_calls w1 ++ normal_calls w2.
Proof. unfold normal_calls. apply flat_map_app. Qed.

Lemma projection_calls_app (w1 w2 : list Event) :
  projection_calls (w1 ++ w2) = projection_calls w1 ++ projection_calls w2.
Proof. unfold projection_calls. apply flat_map_app. Qed.

Lemma items_read_app (w1 w2 : list Event) :
  items_read (w1 ++ w2) = items_read w1 ++ items_read w2.
Proof. unfold items_read. apply flat_map_app. Qed.

(** The two ways a guarded block that raised can end. *)
Lemma ends_handled_cases {A} {none : A} {e w0 r w} :
  ends_handled none e w0 r w ->
  (is_Exception e = true /\ r = Ok none /\ w = w0 ++ [EPrint (message e)])
  \/ (is_Exception e = false /\ r = Raise e /\ w = w0).
Proof. unfold ends_handled. destruct (is_Exception e); intuition. Qed.

(** Printing the exception adds no call and no file to the trace. *)
Lemma ends_handled_trace {A} {none : A} {e w0 r w} :
  ends_handled none e w0 r w ->
  saved_meshes w = saved_meshes w0 /\
  normal_calls w = normal_calls w0 /\
  projection_calls w = projection_calls w0 /\
  items_read w = items_read w0.
Proof.
  intros H. destruct (ends_handled_cases H) as [(_ & _ & ->) | (_ & _ & ->)];
    [|auto].
  rewrite saved_meshes_app, normal_calls_app, projection_calls_app,
    items_read_app. simpl. now rewrite !app_nil_r.
Qed.

Lemma normal_calls_map (cs : list (list (Vec3 F))) :
  normal_calls (map ECalcNormal cs) = cs.
Proof. induction cs as [|c cs IH]; simpl; [|rewrite IH]; reflexivity. Qed.

Lemma saved_meshes_calls (cs : list (list (Vec3 F))) :
  saved_meshes (map ECalcNormal cs) = [].
Proof. induction cs as [|c cs IH]; simpl; auto. Qed.

Lemma items_read_calls (cs : list (list (Vec3 F))) :
  items_read (map ECalcNormal cs) = [].
Proof. induction cs as [|c cs IH]; simpl; auto. Qed.

(** The trace of the attribute loop, whatever the oracle does: only
    oracle calls, each on at most [iv] points; if the loop completes,
    one call for each chunk and an array as long as the vertex list. *)
Lemma normal_colors_inv (iv : Z) verts cal s rc s' wc :
  0 < iv ->
  normal_colors iv verts cal s = (rc, s', wc) ->
  exists cs,
    wc = map ECalcNormal cs /\
    Forall (fun p => Z.of_nat (List.length p) <= iv) cs /\
    (forall c, rc = Ok c ->
               cs = chunks iv verts /\ List.length c = List.length verts).
Proof.
  intros Hiv E. unfold normal_colors in E.
  assert (Hz : List.length (np_zeros_like verts) = List.length verts)
    by (unfold np_zeros_like; apply length_map).
  assert (Hl : Py.len (np_zeros_like verts) = Py.len verts)
    by (unfold Py.len; now rewrite Hz).
  rewrite Hl in E.
  destruct (normal_loop_inv iv verts cal _ _ _ Hz E) as (k & Hk & Hw & Hr).
  exists (map (chunk_of iv verts) (firstn k (Py.range (Py.len verts / iv + 1)))).
  split; [now rewrite map_map|]. split.
  - apply Forall_map, Forall_forall. intros i Hi.
    apply chunk_of_length; auto.
    assert (Hin : In i (Py.range (Py.len verts / iv + 1))).
    { rewrite <- (firstn_skipn k). apply in_or_app. now left. }
    unfold Py.range in Hin. apply in_map_iff in Hin.
    destruct Hin as (m & <- & _). lia.
  - intros c Hc. destruct (Hr c Hc) as [-> Hlen]. split; auto.
    unfold chunks. now rewrite firstn_all.
Qed.
End TraceFacts.

(** ** Summaries of the two mesh generators *)

Section Summaries.
Context {F : Type} {SF : Scalar F} {C : Collaborators F}.
Variables (res : Z) (data : Data) (save_path : string) (thresh : F)
          (use_octree components : bool).

Lemma interval_pos : 0 < interval.
Proof. reflexivity. Qed.

(** Every run of [_gen_mesh_gray] is of one of three kinds: a filter call
    raised and nothing was done; the guarded block raised and the
    [except] clause printed the exception and made the method return
    [None], or let it through; or the mesh was saved and the two paths
    returned. *)
Lemma gray_run_summary s r s' w :
  _gen_mesh_gray res data save_path thresh use_octree components s
    = (r, s', w) ->
  (exists e, r = Raise e /\ w = [])
  \/ (exists e w0,
        ends_handled None e w0 r w /\
        (w0 = [] \/
         exists imgs cs,
           w0 = EImwrite (png_path save_path) imgs
                  :: EReconstruction 50000 :: map ECalcNormal cs /\
           Forall (fun p => Z.of_nat (List.length p) <= interval) cs))
  \/ (exists imgs s1 n verts faces color s2,
        r = Ok (Some (png_path save_path, save_path)) /\
        reconstruction (netMR s1) (calib data) res (b_min data) (b_max data)
                       thresh use_octree 50000 = Ok (n, (verts, faces)) /\
        normal_colors interval verts (calib data) (set_netMR n s1)
          = (Ok color, s2, map ECalcNormal (chunks interval verts)) /\
        List.length color = List.length verts /\
        w = EImwrite (png_path save_path) imgs
              :: EReconstruction 50000
              :: map ECalcNormal (chunks interval verts)
              ++ [ESaveObj save_path verts faces color]).
Proof.
  intros E.
  destruct (gen_mesh_gray_cases _ _ _ _ _ _ _ E)
    as [(e & -> & ->) | (s1 & g & rb & wb & Eb & Hrb)].
  { left. eauto. }
  right.
  destruct (gray_guarded_cases _ _ _ _ _ _ _ Eb)
    as [(e & -> & -> & _)
       | [(e & -> & _ & _ & ->)
         | (n & verts & faces & rc & wc & Er & Ec & Hend)]].
  - left. exists e, []. auto.
  - left. eexists e, _. split; [exact Hrb|].
    right. exists (map bgr255 g), []. auto.
  - destruct (normal_colors_inv _ _ _ interval_pos Ec) as (cs & -> & Hcs & Hok).
    destruct Hend as [(e & -> & ->) | (color & -> & -> & _ & ->)].
    + left. eexists e, _. split; [exact Hrb|].
      right. exists (map bgr255 g), cs. auto.
    + destruct Hrb as [-> ->]. right.
      destruct (Hok color eq_refl) as [-> Hlen].
      exists (map bgr255 g), s1, n, verts, faces, color, s'. auto.
Qed.

(** The meshes saved by a run of [_gen_mesh_gray]. *)
Lemma gray_saved_meshes s r s' w :
  _gen_mesh_gray res data save_path thresh use_octree components s
    = (r, s', w) ->
  (saved_meshes w = [] /\ r <> Ok (Some (png_path save_path, save_path)))
  \/ (exists verts color,
        saved_meshes w = [(save_path, verts, color)] /\
        List.length color = List.length verts /\
        r = Ok (Some (png_path save_path, save_path))).
Proof.
  intros E.
  destruct (gray_run_summary _ E)
    as [(e & -> & ->)
       | [(e & w0 & Hh & Hw0)
         | (imgs & s1 & n & verts & faces & color & s2 & -> & _ & _ & Hlen & ->)]].
  - left. split; [reflexivity | discriminate].
  - left. split.
    + destruct (ends_handled_trace Hh) as (-> & _).
      destruct Hw0 as [-> | (imgs & cs & -> & _)]; [reflexivity|].
      simpl. apply saved_meshes_calls.
    + destruct (ends_handled_cases Hh) as [(_ & -> & _) | (_ & -> & _)];
        discriminate.
  - right. exists verts, color. repeat split; auto.
    simpl. rewrite saved_meshes_app, saved_meshes_calls. reflexivity.
Qed.

(** Every run of [_gen_mesh_color]: a filter call raised; or the guarded
    block raised and the [except] clause printed the exception or let it
    through; or the mesh was saved.  The method returns [None] after a
    printed exception and after a saved mesh alike. *)
Lemma color_run_summary s r s' w :
  _gen_mesh_color res data save_path thresh use_octree components s
    = (r, s', w) ->
  (exists e, r = Raise e /\ w = [])
  \/ (exists e w0,
        ends_handled tt e w0 r w /\
        (w0 = [] \/
         exists imgs tail,
           w0 = EImwrite (png_path save_path) imgs
                  :: EReconstruction 100000 :: tail /\
           (tail = [] \/
            exists s1 n verts faces,
              reconstruction (netMR s1) (calib data) res (b_min data)
                             (b_max data) thresh use_octree 100000
              = Ok (n, (verts, faces)) /\
              (tail = [EProjection verts] \/
               exists uv, tail = [EProjection verts; EIndex uv]))))
  \/ (exists imgs s1 n verts faces xyz color verts',
        r = Ok tt /\
        reconstruction (netMR s1) (calib data) res (b_min data) (b_max data)
                       thresh use_octree 100000 = Ok (n, (verts, faces)) /\
        world_vertices data verts (set_netMR n s1)
          = (Ok verts', set_netMR n s1, []) /\
        w = [EImwrite (png_path save_path) imgs;
             EReconstruction 100000; EProjection verts;
             EIndex (map first2 xyz);
             ESaveObj save_path verts' faces (map remap3 color)]).
Proof.
  intros E.
  destruct (gen_mesh_color_cases _ _ _ _ _ _ _ E)
    as [(e & -> & ->) | (s1 & g & rb & wb & Eb & Hrb)].
  { left. eauto. }
  right.
  destruct (color_guarded_cases _ _ _ _ _ _ _ Eb)
    as [(e & -> & ->)
       | [(e & -> & _ & ->)
         | (n & verts & faces & Er & Hend)]].
  - left. exists e, []. auto.
  - left. eexists e, _. split; [exact Hrb|].
    right. exists (map bgr255 g), []. auto.
  - destruct Hend as [(e & tail & -> & Ht & ->)
                     | (xyz & color & verts' & _ & _ & Ew & -> & ->)].
    + left. eexists e, _. split; [exact Hrb|].
      right. eexists (map bgr255 g), _.
      split; [reflexivity|]. right. exists s1, n, verts, faces.
      split; [exact Er|].
      destruct Ht as [-> | (uv & ->)]; [left | right; exists uv]; reflexivity.
    + destruct Hrb as [-> ->]. right.
      exists (map bgr255 g), s1, n, verts, faces, xyz, color, verts'. auto.
Qed.

(** The normal oracle is asked about at most [interval] points at a
    time, and about nothing else than chunks of the vertex list. *)
Lemma chunks_bounded (iv : Z) (verts : list (Vec3 F)) :
  0 < iv ->
  Forall (fun p => Z.of_nat (List.length p) <= iv) (chunks iv verts).
Proof.
  intros Hiv. unfold chunks. apply Forall_map, Forall_forall. intros i Hi.
  apply chunk_of_length; auto.
  unfold Py.range in Hi. apply in_map_iff in Hi.
  destruct Hi as (m & <- & _). lia.
Qed.
End Summaries.

(** ** Which vertices the chunks reach *)

Section ChunkCoverage.
Context {F : Type} {SF : Scalar F}.
Variables (iv : Z) (verts : list (Vec3 F)).
Hypothesis Hiv : 0 < iv.

Let N : Z := Py.len verts.

Lemma chunk_of_done (a : nat) :
  Z.of_nat a <= N / iv ->
  chunk_of iv verts (Z.of_nat a)
  = firstn (done_upto iv N (S a) - done_upto iv N a)
           (skipn (done_upto iv N a) verts).
Proof.
  intros Ha.
  pose proof (div_bounds verts Hiv) as (Hq1 & Hq0). fold N in Hq1, Hq0.
  assert (Hle : Z.of_nat a * iv <= N) by nia.
  assert (Hnn : 0 <= Z.of_nat a * iv) by nia.
  unfold chunk_of, Py.slice, Py.slice_start, Py.slice_len, Py.norm_index.
  fold N.
  destruct (Z.of_nat a * iv <? 0) eqn:E; [apply Z.ltb_lt in E; lia|].
  unfold done_upto, covered.
  replace (Z.of_nat (S a)) with (Z.of_nat a + 1) by lia.
  replace ((Z.of_nat a + 1) * iv) with (Z.of_nat a * iv + iv) by ring.
  destruct (Z.of_nat a <=? N / iv) eqn:E0; [|apply Z.leb_gt in E0; lia].
  destruct (Z.of_nat a =? N / iv) eqn:Eq.
  - apply Z.eqb_eq in Eq. change (-1 <? 0) with true. cbv iota.
    destruct (Z.of_nat a + 1 <=? N / iv) eqn:Es; [apply Z.leb_le in Es; lia|].
    rewrite <- Eq in Hq1 |- *. f_equal; [|f_equal]; lia.
  - apply Z.eqb_neq in Eq.
    destruct (Z.of_nat a + 1 <=? N / iv) eqn:Es;
      [apply Z.leb_le in Es | apply Z.leb_gt in Es; lia].
    assert (Z.of_nat a * iv + iv <= N) by nia.
    destruct (Z.of_nat a * iv + iv <? 0) eqn:Er; [apply Z.ltb_lt in Er; lia|].
    f_equal; [|f_equal]; lia.
Qed.

Lemma done_upto_mono (a : nat) :
  Z.of_nat a <= N / iv ->
  (done_upto iv N a <= done_upto iv N (S a) <= List.length verts)%nat.
Proof.
  intros Ha.
  pose proof (div_bounds verts Hiv) as (Hq1 & Hq0). fold N in Hq1, Hq0.
  assert (Hle : Z.of_nat a * iv <= N) by nia.
  assert (Hnn : 0 <= Z.of_nat a * iv) by nia.
  assert (HN : N = Z.of_nat (List.length verts)) by reflexivity.
  unfold done_upto, covered.
  replace (Z.of_nat (S a)) with (Z.of_nat a + 1) by lia.
  replace ((Z.of_nat a + 1) * iv) with (Z.of_nat a * iv + iv) by ring.
  destruct (Z.of_nat a <=? N / iv) eqn:E0; [|apply Z.leb_gt in E0; lia].
  destruct (Z.of_nat a + 1 <=? N / iv) eqn:Es;
    [apply Z.leb_le in Es | apply Z.leb_gt in Es].
  - assert (Z.of_nat a * iv + iv <= N) by nia. lia.
  - assert (Z.of_nat a = N / iv) as Eq by lia.
    rewrite <- Eq in Hq1 |- *. lia.
Qed.

Lemma done_upto_mono_from (b : nat) : forall a : nat,
  Z.of_nat (a + b) <= N / iv + 1 ->
  (done_upto iv N a <= done_upto iv N (a + b))%nat.
Proof.
  induction b as [|b IH]; intros a Hab.
  - rewrite Nat.add_0_r. lia.
  - pose proof (done_upto_mono a ltac:(lia)) as [Hm1 _].
    specialize (IH (S a) ltac:(lia)).
    replace (a + S b)%nat with (S a + b)%nat by lia. lia.
Qed.

Lemma chunks_concat_from (b : nat) : forall a : nat,
  Z.of_nat (a + b) = N / iv + 1 ->
  List.concat (map (chunk_of iv verts) (map Z.of_nat (seq a b)))
  = firstn (done_upto iv N (a + b) - done_upto iv N a)
           (skipn (done_upto iv N a) verts).
Proof.
  induction b as [|b IH]; intros a Hab.
  - simpl. now rewrite Nat.add_0_r, Nat.sub_diag.
  - simpl. rewrite (IH (S a)) by lia.
    rewrite chunk_of_done by lia.
    pose proof (done_upto_mono a ltac:(lia)) as [Hm1 Hm2].
    pose proof (done_upto_mono_from b (S a) ltac:(lia)) as H12.
    replace (a + S b)%nat with (S a + b)%nat by lia.
    set (d0 := done_upto iv N a) in *.
    set (d1 := done_upto iv N (S a)) in *.
    set (d2 := done_upto iv N (S a + b)) in *.
    replace (d2 - d0)%nat with ((d1 - d0) + (d2 - d1))%nat by lia.
    rewrite firstn_plus, skipn_skipn.
    do 3 f_equal. lia.
Qed.

(** The chunks, put end to end, are the first [covered iv N] vertices. *)
Lemma chunks_concat :
  List.concat (chunks iv verts) = firstn (covered iv N) verts.
Proof.
  pose proof (div_bounds verts Hiv) as (Hq1 & Hq0). fold N in Hq1, Hq0.
  unfold chunks, Py.range. fold N.
  rewrite (chunks_concat_from (Z.to_nat (N / iv + 1)) 0) by lia.
  assert (H0 : done_upto iv N 0 = 0%nat).
  { unfold done_upto. simpl. destruct (0 <=? N / iv) eqn:E0; auto.
    apply Z.leb_gt in E0; lia. }
  rewrite H0, Nat.sub_0_r. simpl. f_equal.
  unfold done_upto.
  destruct (Z.of_nat (Z.to_nat (N / iv + 1)) <=? N / iv) eqn:E1; auto.
  apply Z.leb_le in E1. lia.
Qed.

Lemma covered_divisible : N mod iv = 0 -> covered iv N = List.length verts.
Proof.
  intros Hm. unfold covered.
  pose proof (Z.div_mod N iv ltac:(lia)) as Hdm.
  assert (HN : N = Z.of_nat (List.length verts)) by reflexivity.
  replace (N / iv * iv) with N by lia. lia.
Qed.

Lemma covered_remainder :
  N mod iv <> 0 -> covered iv N = pred (List.length verts).
Proof.
  intros Hm. unfold covered.
  pose proof (Z.div_mod N iv ltac:(lia)) as Hdm.
  pose proof (Z.mod_pos_bound N iv Hiv) as Hb.
  assert (HN : N = Z.of_nat (List.length verts)) by reflexivity.
  lia.
Qed.

Lemma paint_remainder (g : Vec3 F -> Vec3 F) :
  N mod iv <> 0 ->
  paint g verts (covered iv N) = map g (removelast verts) ++ [zero3].
Proof.
  intros Hm. rewrite covered_remainder by assumption.
  unfold paint. rewrite <- removelast_firstn_len.
  assert (List.length verts <> 0%nat).
  { intros E0. apply Hm. unfold N, Py.len. rewrite E0. apply Z.mod_0_l. lia. }
  replace (List.length verts - pred (List.length verts))%nat with 1%nat by lia.
  reflexivity.
Qed.

Lemma ceil_div_divisible : N mod iv = 0 -> ceil_div N iv = N / iv.
Proof.
  intros Hm. unfold ceil_div.
  pose proof (Z.div_mod N iv ltac:(lia)) as Hdm.
  symmetry. apply (Z.div_unique_pos _ _ _ (iv - 1)); lia.
Qed.

Lemma ceil_div_remainder : N mod iv <> 0 -> ceil_div N iv = N / iv + 1.
Proof.
  intros Hm. unfold ceil_div.
  pose proof (Z.div_mod N iv ltac:(lia)) as Hdm.
  pose proof (Z.mod_pos_bound N iv Hiv) as Hb.
  symmetry. apply (Z.div_unique_pos _ _ _ (N mod iv - 1)); lia.
Qed.
End ChunkCoverage.

(** ** Attribute resolution: properties of the chunked loop *)

Section ResolutionClaims.
Context {F : Type} {SF : Scalar F} {C : Collaborators F}.

(** Reading back the slice that was just assigned gives the assigned
    rows, or the single assigned row repeated when it was broadcast. *)
Lemma slice_of_slice_assign (l vals l' : list (Vec3 F)) (left right : Z) :
  Py.slice_assign l left right vals = Some l' ->
  Py.slice l' left right = vals
  \/ (exists v, vals = [v] /\
                 Py.slice l' left right = repeat v (Py.slice_len l left right)).
Proof.
  intros Ha.
  pose proof (slice_assign_length _ _ _ _ Ha) as Hlen.
  pose proof (slice_start_le l left) as Hs.
  pose proof (slice_end_le l left right) as He.
  unfold Py.slice.
  rewrite (slice_start_same_length l' l left Hlen).
  rewrite (slice_len_same_length l' l left right Hlen).
  unfold Py.slice_assign in Ha.
  set (a := Py.slice_start l left) in *.
  set (k := Py.slice_len l left right) in *.
  assert (Hcut : forall mid : list (Vec3 F),
             List.length mid = k ->
             firstn k (skipn a (firstn a l ++ mid ++ skipn (a + k) l)) = mid).
  { intros mid Hmid.
    rewrite skipn_app, length_firstn.
    replace (Init.Nat.min a (List.length l)) with a by lia.
    rewrite Nat.sub_diag. simpl.
    rewrite skipn_all2 by (rewrite length_firstn; lia). simpl.
    rewrite firstn_app, <- Hmid, firstn_all, Nat.sub_diag. simpl.
    apply app_nil_r. }
  destruct (Nat.eqb (List.length vals) k) eqn:Ek.
  - apply Nat.eqb_eq in Ek. inversion Ha; subst l'. left. now apply Hcut.
  - destruct vals as [|v [|v' vals']]; try discriminate.
    inversion Ha; subst l'. right. exists v. split; [reflexivity|].
    apply Hcut, repeat_length.
Qed.

(** C8. In the surface-normal flavor, what an iteration stores in its
    slice of the attribute array is, row by row and component by
    component, [x * 0.5 + 0.5] of what the oracle returned for the batch;
    when the oracle returned a single row for a longer slice, that row,
    remapped in the same way, fills the slice. *)
Theorem normals_remapped_before_store
        (iv : Z) (verts : list (Vec3 F)) (cal : Calib) (i : Z)
        (color color' : list (Vec3 F)) (s s' : Self) (w : list Event) :
  normal_chunk iv verts cal i color s = (Ok color', s', w) ->
  let left := i * iv in
  let right := if i =? Py.len color / iv then -1 else (i + 1) * iv in
  let stored '(x, y, z) :=
    (fadd (fmul x fhalf) fhalf,
     fadd (fmul y fhalf) fhalf,
     fadd (fmul z fhalf) fhalf) in
  Py.slice color' left right = map stored (nmls (netMR s'))
  \/ (exists v, nmls (netMR s') = [v] /\
                 Py.slice color' left right
                 = repeat (stored v) (Py.slice_len color left right)).
Proof.
  intros E left right stored.
  unfold normal_chunk, bind, emit, net_call, get_self, ret, raise in E.
  fold left right in E.
  destruct (calc_normal (netMR s) (Py.slice verts left right) cal) as [n|e];
    simpl in E; [|discriminate].
  destruct (Py.slice_assign color left right (map remap3 (nmls n)))
    as [c1|] eqn:Ea; inversion E; subst; clear E.
  simpl.
  destruct (slice_of_slice_assign _ _ _ _ Ea) as [Hs | (v & Hv & Hs)].
  - left. exact Hs.
  - right. destruct (nmls n) as [|x [|x' rest]]; try discriminate.
    exists x. split; [reflexivity|]. inversion Hv; subst v. exact Hs.
Qed.

(** C5. The attribute array that [_gen_mesh_gray] hands to the mesh
    writer has exactly one 3-channel row for each extracted vertex, and
    so has every array the attribute loop returns. *)
Theorem attribute_array_matches_vertices :
  (forall res data save_path thresh use_octree components s,
      Forall (fun '(_, verts, color) => List.length color = List.length verts)
             (saved_meshes
                (events (_gen_mesh_gray res data save_path thresh use_octree
                                        components s))))
  /\ (forall verts cal s,
         match outcome (normal_colors interval verts cal s) with
         | Ok color => List.length color = List.length verts
         | Raise _ => True
         end).
Proof.
  split.
  - intros res data save_path thresh use_octree components s.
    destruct (_gen_mesh_gray res data save_path thresh use_octree components s)
      as [[r s'] w] eqn:E.
    unfold events; simpl.
    destruct (gray_saved_meshes _ _ _ _ _ _ _ E)
      as [[-> _] | (verts & color & -> & Hlen & _)]; auto.
  - intros verts cal s.
    destruct (normal_colors interval verts cal s) as [[r s'] w] eqn:E.
    unfold outcome; simpl.
    destruct (normal_colors_inv _ _ _ interval_pos E) as (cs & _ & _ & Hok).
    destruct r as [color|e]; auto. now destruct (Hok color eq_refl).
Qed.

(** C4, as the code has it. A resolution that completes has called the
    oracle [floor(N / chunkSize) + 1] times, once in each iteration and
    never on more than [chunkSize] points; the call of iteration
    [i < floor(N / chunkSize)] received the vertices
    [i * chunkSize .. (i + 1) * chunkSize).  The count is
    [ceil(N / chunkSize)] when [chunkSize] does not divide [N], and one
    more when it does. *)
Theorem oracle_called_once_per_iteration
        (iv : Z) (verts : list (Vec3 F)) (cal : Calib)
        (s s' : Self) (color : list (Vec3 F)) (w : list Event) :
  0 < iv ->
  normal_colors iv verts cal s = (Ok color, s', w) ->
  Z.of_nat (List.length (normal_calls w)) = Py.len verts / iv + 1 /\
  Forall (fun p => Z.of_nat (List.length p) <= iv) (normal_calls w) /\
  (forall k : nat,
      Z.of_nat k < Py.len verts / iv ->
      nth_error (normal_calls w) k
      = Some (Py.slice verts (Z.of_nat k * iv) ((Z.of_nat k + 1) * iv))) /\
  (Py.len verts mod iv <> 0 ->
   Z.of_nat (List.length (normal_calls w)) = ceil_div (Py.len verts) iv) /\
  (Py.len verts mod iv = 0 ->
   Z.of_nat (List.length (normal_calls w)) = ceil_div (Py.len verts) iv + 1 /\
   nth_error (normal_calls w) (Z.to_nat (Py.len verts / iv)) = Some []).
Proof.
  intros Hiv E.
  destruct (normal_colors_inv _ _ _ Hiv E) as (cs & -> & Hcs & Hok).
  destruct (Hok color eq_refl) as [-> _].
  rewrite normal_calls_map in *.
  pose proof (div_bounds verts Hiv) as (_ & Hq0).
  assert (Hcount : Z.of_nat (List.length (chunks iv verts))
                   = Py.len verts / iv + 1).
  { unfold chunks. rewrite length_map, range_length. lia. }
  split; [exact Hcount|]. split; [exact Hcs|]. split; [|split].
  - intros k Hk. unfold chunks, Py.range.
    rewrite map_map.
    rewrite (nth_error_map _ k (seq 0 _)).
    rewrite nth_error_seq.
    destruct (Nat.ltb_spec k (Z.to_nat (Py.len verts / iv + 1))) as [_|Hge];
      [|lia].
    simpl. unfold chunk_of.
    destruct (Z.of_nat k =? Py.len verts / iv) eqn:Eq;
      [apply Z.eqb_eq in Eq; lia | reflexivity].
  - intros Hm. rewrite Hcount. symmetry. now apply ceil_div_remainder.
  - intros Hm. split.
    + rewrite Hcount. f_equal. symmetry. now apply ceil_div_divisible.
    + unfold chunks, Py.range.
      rewrite map_map.
      rewrite (nth_error_map _ (Z.to_nat (Py.len verts / iv)) (seq 0 _)).
      rewrite nth_error_seq.
      destruct (Nat.ltb_spec (Z.to_nat (Py.len verts / iv))
                             (Z.to_nat (Py.len verts / iv + 1))) as [_|Hge];
        [|lia].
      simpl. f_equal.
      rewrite (chunk_of_done verts Hiv) by lia.
      pose proof (Z.div_mod (Py.len verts) iv ltac:(lia)) as Hdm.
      rewrite skipn_all2; [apply firstn_nil|].
      unfold done_upto.
      destruct (Z.of_nat (Z.to_nat (Py.len verts / iv)) <=? Py.len verts / iv) eqn:El;
        [|apply Z.leb_gt in El; lia].
      unfold Py.len in *. lia.
Qed.

(** C1, where the code departs from it. When the chunk size does not
    divide the number of vertices, the last iteration stops one vertex
    short: the batches together are all vertices but the last, and the
    last row of the attribute array keeps the zeros it was created
    with. *)
Theorem trailing_vertex_dropped
        (iv : Z) (verts : list (Vec3 F)) (cal : Calib)
        (f : Vec3 F -> Vec3 F) (s : Self) :
  0 < iv ->
  pointwise_oracle f cal ->
  Py.len verts mod iv <> 0 ->
  List.concat (chunks iv verts) = removelast verts /\
  exists s',
    normal_colors iv verts cal s
    = (Ok (map (fun v => remap3 (f v)) (removelast verts) ++ [zero3]), s',
       map ECalcNormal (chunks iv verts)).
Proof.
  intros Hiv Hf Hm. split.
  - rewrite chunks_concat by assumption.
    rewrite covered_remainder by assumption.
    symmetry. apply removelast_firstn_len.
  - destruct (normal_colors_pointwise verts Hiv Hf s) as (s' & E).
    exists s'. rewrite E. now rewrite paint_remainder.
Qed.

(** C3, where the code departs from it. Against an oracle that answers
    point by point, the reference resolution returns the remapped oracle
    value of every vertex; the chunked loop returns the same array when
    the chunk size divides the number of vertices, and an array whose
    last row is zero when it does not. *)
Theorem chunked_against_reference
        (iv : Z) (verts : list (Vec3 F)) (cal : Calib)
        (f : Vec3 F -> Vec3 F) (s : Self) :
  0 < iv ->
  pointwise_oracle f cal ->
  outcome (reference_colors verts cal s)
  = Ok (map (fun v => remap3 (f v)) verts) /\
  (Py.len verts mod iv = 0 ->
   outcome (normal_colors iv verts cal s)
   = outcome (reference_colors verts cal s)) /\
  (Py.len verts mod iv <> 0 ->
   outcome (normal_colors iv verts cal s)
   = Ok (map (fun v => remap3 (f v)) (removelast verts) ++ [zero3])).
Proof.
  intros Hiv Hf.
  assert (Href : outcome (reference_colors verts cal s)
                 = Ok (map (fun v => remap3 (f v)) verts)).
  { unfold reference_colors, bind, emit, net_call, get_self, ret, outcome.
    destruct (Hf (netMR s) verts) as (n' & E1 & E2).
    rewrite E1. simpl. now rewrite E2, map_map. }
  destruct (normal_colors_pointwise verts Hiv Hf s) as (s' & E).
  split; [exact Href|]. split; intros Hm.
  - rewrite Href, E. unfold outcome; simpl.
    rewrite covered_divisible by assumption.
    now rewrite paint_all.
  - rewrite E. unfold outcome; simpl. now rewrite paint_remainder.
Qed.
End ResolutionClaims.

(** ** The two flavors side by side *)

Section FlavorClaims.
Context {F : Type} {SF : Scalar F} {C : Collaborators F}.

(** The code's matrix product, row by row, is the homogeneous action of
    the matrix on the vertex. *)
Lemma to_world_homogeneous (m_inv : Mat4 F) (verts : list (Vec3 F)) :
  to_world m_inv verts = map (homogeneous_apply m_inv) verts.
Proof.
  unfold to_world. apply map_ext. intros [[x y] z].
  destruct m_inv as [[[[[[a00 a01] a02] a03] [[[a10 a11] a12] a13]]
                       [[[a20 a21] a22] a23]] [[[a30 a31] a32] a33]].
  reflexivity.
Qed.

(** C6, as the code has it. The surface-normal flavor asks its oracle
    about at most [interval] = 50000 vertices in one call.  The
    projected-color flavor does not chunk: it never calls the normal
    oracle, and when it resolves attributes it projects all extracted
    vertices in one call. *)
Theorem chunking_by_flavor :
  (forall res data save_path thresh use_octree components s,
      Forall (fun p => Z.of_nat (List.length p) <= interval)
             (normal_calls
                (events (_gen_mesh_gray res data save_path thresh use_octree
                                        components s))))
  /\ (forall res data save_path thresh use_octree components s,
         let w := events (_gen_mesh_color res data save_path thresh
                                          use_octree components s) in
         normal_calls w = [] /\
         (projection_calls w = [] \/
          exists s1 n verts faces,
            reconstruction (netMR s1) (calib data) res (b_min data)
                           (b_max data) thresh use_octree 100000
            = Ok (n, (verts, faces)) /\
            projection_calls w = [verts])).
Proof.
  split.
  - intros res data save_path thresh use_octree components s.
    destruct (_gen_mesh_gray res data save_path thresh use_octree components s)
      as [[r s'] w] eqn:E.
    unfold events; simpl.
    destruct (gray_run_summary _ _ _ _ _ _ _ E)
      as [(e & -> & ->)
         | [(e & w0 & Hh & Hw0)
           | (imgs & s1 & n & verts & faces & color & s2 & _ & _ & _ & _ & ->)]].
    + constructor.
    + destruct (ends_handled_trace Hh) as (_ & -> & _).
      destruct Hw0 as [-> | (imgs & cs & -> & Hcs)]; [constructor|].
      simpl. now rewrite normal_calls_map.
    + simpl. rewrite normal_calls_app, normal_calls_map. simpl.
      rewrite app_nil_r. apply chunks_bounded, interval_pos.
  - intros res data save_path thresh use_octree components s w. subst w.
    destruct (_gen_mesh_color res data save_path thresh use_octree components s)
      as [[r s'] w] eqn:E.
    unfold events; simpl.
    destruct (color_run_summary _ _ _ _ _ _ _ E)
      as [(e & -> & ->)
         | [(e & w0 & Hh & Hw0)
           | (imgs & s1 & n & verts & faces & xyz & color & verts'
              & _ & Er & _ & ->)]].
    + auto.
    + destruct (ends_handled_trace Hh) as (_ & -> & -> & _).
      destruct Hw0 as [-> | (imgs & tail & -> & Ht)]; [auto|].
      destruct Ht as [-> | (s1 & n & verts & faces & Er & Ht)]; [auto|].
      destruct Ht as [-> | (uv & ->)]; simpl; split; auto;
        right; exists s1, n, verts, faces; auto.
    + simpl. split; auto. right. exists s1, n, verts, faces. auto.
Qed.

(** C7, as the code has it. The projected-color flavor saves, when the
    item carries a world calibration, the extracted vertices under the
    homogeneous action of its inverse, and the extracted vertices
    themselves when it carries none.  The surface-normal flavor saves
    the extracted vertices as they are, whether or not the item carries
    a world calibration. *)
Theorem world_transform_by_flavor :
  (forall res data save_path thresh use_octree components s,
      Forall (fun '(_, saved, _) =>
                exists s1 n verts faces,
                  reconstruction (netMR s1) (calib data) res (b_min data)
                                 (b_max data) thresh use_octree 100000
                  = Ok (n, (verts, faces)) /\
                  match calib_world data with
                  | Some cw =>
                      exists m_inv,
                        inv cw = Ok m_inv /\
                        saved = map (homogeneous_apply m_inv) verts
                  | None => saved = verts
                  end)
             (saved_meshes
                (events (_gen_mesh_color res data save_path thresh
                                         use_octree components s))))
  /\ (forall res data save_path thresh use_octree components s,
         Forall (fun '(_, saved, _) =>
                   exists s1 n faces,
                     reconstruction (netMR s1) (calib data) res (b_min data)
                                    (b_max data) thresh use_octree 50000
                     = Ok (n, (saved, faces)))
                (saved_meshes
                   (events (_gen_mesh_gray res data save_path thresh
                                           use_octree components s)))).
Proof.
  split.
  - intros res data save_path thresh use_octree components s.
    destruct (_gen_mesh_color res data save_path thresh use_octree components s)
      as [[r s'] w] eqn:E.
    unfold events; simpl.
    destruct (color_run_summary _ _ _ _ _ _ _ E)
      as [(e & -> & ->)
         | [(e & w0 & Hh & Hw0)
           | (imgs & s1 & n & verts & faces & xyz & color & verts'
              & _ & Er & Ew & ->)]].
    + constructor.
    + destruct (ends_handled_trace Hh) as (-> & _).
      destruct Hw0 as [-> | (imgs & tail & -> & Ht)]; [constructor|].
      destruct Ht as [-> | (s1 & n & verts & faces & Er & Ht)]; [constructor|].
      destruct Ht as [-> | (uv & ->)]; constructor.
    + simpl. constructor; [|constructor].
      exists s1, n, verts, faces. split; [exact Er|].
      destruct (world_vertices_cases _ _ _ Ew) as (_ & _ & Hw).
      destruct (calib_world data) as [cw|].
      * destruct (inv cw) as [m_inv|e]; [|discriminate].
        exists m_inv. split; [reflexivity|].
        inversion Hw. apply to_world_homogeneous.
      * now inversion Hw.
  - intros res data save_path thresh use_octree components s.
    destruct (_gen_mesh_gray res data save_path thresh use_octree components s)
      as [[r s'] w] eqn:E.
    unfold events; simpl.
    destruct (gray_run_summary _ _ _ _ _ _ _ E)
      as [(e & -> & ->)
         | [(e & w0 & Hh & Hw0)
           | (imgs & s1 & n & verts & faces & color & s2 & _ & Er & _ & _ & ->)]].
    + constructor.
    + destruct (ends_handled_trace Hh) as (-> & _).
      destruct Hw0 as [-> | (imgs & cs & -> & _)]; [constructor|].
      simpl. rewrite saved_meshes_calls. constructor.
    + simpl. rewrite saved_meshes_app, saved_meshes_calls. simpl.
      constructor; [|constructor]. exists s1, n, faces. exact Er.
Qed.

Lemma np_concatenate_nonempty (l : list Preview) :
  l <> [] -> np_concatenate l = Ok l.
Proof. destruct l; [congruence | reflexivity]. Qed.

End FlavorClaims.

(** ** The preview image and a failing reconstruction *)

Section PreviewTheorem.
Context {F : Type} {SF : Scalar F} {C : Collaborators F}.

(** C10, as the code has it. In both mesh generators, once the two filter
    calls have returned: if the preview image cannot be written, the
    reconstruction is not attempted; if it is written, it is written
    before the reconstruction is attempted, and an exception raised
    afterwards is printed, with the method returning [None], when it is
    an instance of [Exception], and reaches the caller when it is not.
    So a reconstruction that fails with an instance of [Exception] leaves
    the trace image written, reconstruction attempted, message printed,
    and the caller receives [None]; one that fails with any other
    exception leaves the image written and the exception with the
    caller. *)
Theorem preview_written_before_reconstruction
        (res : Z) (data : Data) (save_path : string) (thresh : F)
        (use_octree components : bool) (s : Self) (n1 n2 : Net) :
  filter_global (netMR s) (img_512 data) = Ok n1 ->
  filter_local n1 (img data) = Ok n2 ->
  let png := png_path save_path in
  let imgs := map bgr255 (cat_normal_maps n2 (img_512 data)) in
  let s1 := filtered n1 n2 s in
  let gray := _gen_mesh_gray res data save_path thresh use_octree
                             components s in
  let color := _gen_mesh_color res data save_path thresh use_octree
                               components s in
  (imgs = [] \/ (exists e, cv2_imwrite png imgs = Raise e) ->
   reconstruction_attempts (events gray) = [] /\
   reconstruction_attempts (events color) = [])
  /\ (imgs <> [] ->
      cv2_imwrite png imgs = Ok tt ->
      (let pre := [EImwrite png imgs; EReconstruction 50000] in
       (exists rest, events gray = pre ++ rest)
       /\ (forall e,
              reconstruction n2 (calib data) res (b_min data) (b_max data)
                             thresh use_octree 50000 = Raise e ->
              gray = if is_Exception e
                     then (Ok None, s1, pre ++ [EPrint (message e)])
                     else (Raise e, s1, pre))
       /\ match outcome gray with
          | Ok (Some paths) => paths = (png, save_path)
          | Ok None =>
              exists e rest,
                is_Exception e = true /\
                events gray = pre ++ rest ++ [EPrint (message e)]
          | Raise e => is_Exception e = false
          end)
      /\ (let pre := [EImwrite png imgs; EReconstruction 100000] in
          (exists rest, events color = pre ++ rest)
          /\ (forall e,
                 reconstruction n2 (calib data) res (b_min data) (b_max data)
                                thresh use_octree 100000 = Raise e ->
                 color = if is_Exception e
                         then (Ok tt, s1, pre ++ [EPrint (message e)])
                         else (Raise e, s1, pre))
          /\ match outcome color with
             | Ok tt =>
                 (exists verts attrs,
                     saved_meshes (events color)
                     = [(save_path, verts, attrs)])
                 \/ (exists e rest,
                        is_Exception e = true /\
                        events color = pre ++ rest ++ [EPrint (message e)])
             | Raise e => is_Exception e = false
             end)).
Proof.
  intros H1 H2 png imgs s1 gray color.
  assert (Hg : gray = match gray_guarded res data save_path thresh use_octree
                              (cat_normal_maps n2 (img_512 data)) s1 with
                      | (Raise e, s2, wb) => handled None e s2 wb
                      | ok => ok
                      end).
  { subst gray. now rewrite gen_mesh_gray_unfold, H1, H2. }
  assert (Hc : color = match color_guarded res data save_path thresh
                               use_octree
                               (cat_normal_maps n2 (img_512 data)) s1 with
                       | (Raise e, s2, wb) => handled tt e s2 wb
                       | ok => ok
                       end).
  { subst color. now rewrite gen_mesh_color_unfold, H1, H2. }
  rewrite gray_guarded_unfold in Hg. rewrite color_guarded_unfold in Hc.
  cbv zeta in Hg, Hc.
  change (netMR s1) with n2 in Hg, Hc.
  fold png imgs in Hg, Hc.
  clearbody gray color.
  split.
  - intros [Hnil | (e & He)].
    + rewrite Hnil in Hg, Hc. simpl in Hg, Hc. subst gray color.
      split; reflexivity.
    + destruct (np_concatenate imgs) as [l|e0]; rewrite ?He in Hg, Hc;
        subst gray color; unfold handled;
        match goal with
        | |- context [is_Exception ?x] => destruct (is_Exception x)
        end; split; reflexivity.
  - intros Hne Hw.
    rewrite (np_concatenate_nonempty Hne), Hw in Hg, Hc.
    split.
    + intros pre.
      destruct (reconstruction n2 (calib data) res (b_min data) (b_max data)
                  thresh use_octree 50000)
        as [[n [verts faces]]|e0] eqn:Er.
      * destruct (normal_colors interval verts (calib data) (set_netMR n s1))
          as [[rc s2] wc].
        split; [|split; [intros e He; discriminate|]].
        -- destruct rc as [attrs|e0];
             [destruct (save_obj_mesh_with_color save_path verts faces attrs)
               as [[]|e0]|];
             subst gray; unfold handled;
             try destruct (is_Exception e0); unfold events; simpl; eauto.
        -- destruct rc as [attrs|e0];
             [destruct (save_obj_mesh_with_color save_path verts faces attrs)
               as [[]|e0]|];
             subst gray; unfold handled;
             try destruct (is_Exception e0) eqn:Ee; unfold events, outcome;
             simpl; auto; try (exists e0, wc; auto).
      * subst gray. unfold handled.
        split; [|split].
        -- destruct (is_Exception e0); unfold events; simpl; eauto.
        -- intros e He. inversion He; subst.
           destruct (is_Exception e); reflexivity.
        -- destruct (is_Exception e0) eqn:Ee; unfold events, outcome; simpl;
             auto. exists e0, []. auto.
    + intros pre.
      destruct (reconstruction n2 (calib data) res (b_min data) (b_max data)
                  thresh use_octree 100000)
        as [[n [verts faces]]|e0] eqn:Er.
      * split; [|split; [intros e He; discriminate|]].
        -- destruct (projection n verts (calib data)) as [xyz|e0];
             [destruct (index (firstn 1 (img data)) (map first2 xyz))
               as [attrs|e0];
              [destruct (outcome (world_vertices data verts (set_netMR n s1)))
                as [verts'|e0];
               [destruct (save_obj_mesh_with_color save_path verts' faces
                            (map remap3 attrs)) as [[]|e0]|]|]|];
             subst color; unfold handled;
             try destruct (is_Exception e0); unfold events; simpl; eauto.
        -- destruct (projection n verts (calib data)) as [xyz|e0];
             [destruct (index (firstn 1 (img data)) (map first2 xyz))
               as [attrs|e0];
              [destruct (outcome (world_vertices data verts (set_netMR n s1)))
                as [verts'|e0];
               [destruct (save_obj_mesh_with_color save_path verts' faces
                            (map remap3 attrs)) as [[]|e0]|]|]|];
             subst color; unfold handled;
             try destruct (is_Exception e0) eqn:Ee; unfold events, outcome;
             simpl; auto.
           ++ left. eauto.
           ++ right.
              exists e0, [EProjection verts; EIndex (map first2 xyz)]. auto.
           ++ right.
              exists e0, [EProjection verts; EIndex (map first2 xyz)]. auto.
           ++ right.
              exists e0, [EProjection verts; EIndex (map first2 xyz)]. auto.
           ++ right. exists e0, [EProjection verts]. auto.
      * subst color. unfold handled.
        split; [|split].
        -- destruct (is_Exception e0); unfold events; simpl; eauto.
        -- intros e He. inversion He; subst.
           destruct (is_Exception e); reflexivity.
        -- destruct (is_Exception e0) eqn:Ee; unfold events, outcome; simpl;
             auto. right. exists e0, []. auto.
Qed.
End PreviewTheorem.

(** ** [evaluate] *)

Section EvaluateClaims.
Context {F : Type} {SF : Scalar F} {C : Collaborators F}.

(** [_gen_mesh_gray] reads no dataset item. *)
Lemma gray_reads_no_item res data save_path thresh use_octree components
      s r s' w :
  _gen_mesh_gray res data save_path thresh use_octree components s
    = (r, s', w) ->
  items_read w = [].
Proof.
  intros E.
  destruct (gray_run_summary _ _ _ _ _ _ _ E)
    as [(e & -> & ->)
       | [(e & w0 & Hh & Hw0)
         | (imgs & s1 & n & verts & faces & color & s2 & _ & _ & _ & _ & ->)]].
  - reflexivity.
  - destruct (ends_handled_trace Hh) as (_ & _ & _ & ->).
    destruct Hw0 as [-> | (imgs & cs & -> & _)]; [reflexivity|].
    simpl. apply items_read_calls.
  - simpl. rewrite items_read_app, items_read_calls. reflexivity.
Qed.

Lemma norm_start_nonneg (s : Self) : 0 <= norm_start s.
Proof.
  unfold norm_start. destruct (start_id s <? 0) eqn:E; [lia|].
  now apply Z.ltb_ge in E.
Qed.

Lemma normalize_ids_fields (n : Z) (s : Self) :
  start_id (normalize_ids n s) = norm_start s /\
  end_id (normalize_ids n s) = norm_end s n /\
  opt (normalize_ids n s) = opt s.
Proof.
  unfold normalize_ids, norm_start, norm_end.
  destruct (start_id s <? 0); simpl; destruct (end_id s <? 0); simpl; auto.
Qed.

(** What [evaluate] does, in closed form: after the two bounds are
    normalised and the banner printed, either the range is empty or its
    first index is past the dataset, and nothing more happens; or the
    item at the first index is read, its path printed, and the result of
    [_gen_mesh_gray] on it returned. *)
Lemma evaluate_unfold (test_dataset : list Data) (s : Self) :
  let a := norm_start s in
  let s1 := normalize_ids (Py.len test_dataset) s in
  evaluate test_dataset s =
  if (a <? norm_end s (Py.len test_dataset)) && (a <? Py.len test_dataset)
  then
    match nth_error test_dataset (Z.to_nat a) with
    | Some d =>
        let save_path := result_path (opt s) (data_name d) in
        let '(r, s2, w) :=
          _gen_mesh_gray (resolution (opt s)) d save_path fhalf true
                         (use_compose (opt s)) s1 in
        (r, s2, EPrint banner :: EGetItem a :: EPrint save_path :: w)
    | None =>
        (Raise (StdError "IndexError"), s1, [EPrint banner; EGetItem a])
    end
  else (Ok None, s1, [EPrint banner]).
Proof.
  intros a s1.
  pose proof (normalize_ids_fields (Py.len test_dataset) s) as (Hs & He & Ho).
  pose proof (norm_start_nonneg s) as Ha. fold a in Ha, Hs. fold s1 in Hs, He, Ho.
  assert (Hpre :
    evaluate test_dataset s =
    let '(r, s2, w) :=
      bind (for_in (Py.range2 (start_id s1) (end_id s1))
              (fun i =>
                 if i >=? Py.len test_dataset then ret Break
                 else
                   bind (getitem test_dataset i) (fun test_data =>
                   bind get_self (fun s0 =>
                   let save_path := result_path (opt s0) (data_name test_data) in
                   bind (print save_path) (fun _ =>
                   bind (_gen_mesh_gray (resolution (opt s0)) test_data save_path
                                        fhalf true (use_compose (opt s0)))
                        (fun r => ret (Return r)))))))
           (fun r => ret (match r with Some r => r | None => None end)) s1 in
    (r, s2, EPrint banner :: w)).
  { unfold evaluate, __set_eval, s1, normalize_ids, bind at 1 2 3 4 5 6 7,
      get_self, modify, print, emit, ret.
    destruct (start_id s <? 0); simpl; destruct (end_id s <? 0); simpl;
      match goal with
      | |- context [bind ?m ?k ?st] => destruct (bind m k st) as [[[r|e] s2] w]
      end; reflexivity. }
  rewrite Hpre, Hs, He. clear Hpre.
  unfold Py.range2.
  destruct (a <? norm_end s (Py.len test_dataset)) eqn:Eab; simpl.
  2:{ apply Z.ltb_ge in Eab.
      replace (Z.to_nat (norm_end s (Py.len test_dataset) - a)) with 0%nat by lia.
      reflexivity. }
  apply Z.ltb_lt in Eab.
  destruct (Z.to_nat (norm_end s (Py.len test_dataset) - a)) as [|m] eqn:Em; [lia|].
  simpl. rewrite Z.add_0_r.
  unfold bind at 1 2. rewrite Z.geb_leb.
  destruct (a <? Py.len test_dataset) eqn:Elen.
  2:{ apply Z.ltb_ge in Elen.
      destruct (Py.len test_dataset <=? a) eqn:Ec;
        [reflexivity | apply Z.leb_gt in Ec; lia]. }
  apply Z.ltb_lt in Elen.
  destruct (Py.len test_dataset <=? a) eqn:Ec; [apply Z.leb_le in Ec; lia|].
  unfold getitem, print. unfold bind, emit, get_self, ret, raise.
  destruct (a <? 0) eqn:E0; [apply Z.ltb_lt in E0; lia|].
  destruct (nth_error test_dataset (Z.to_nat a)) as [d|] eqn:Ed; [|reflexivity].
  cbv beta iota zeta. rewrite Ho.
  destruct (_gen_mesh_gray (resolution (opt s)) d
              (result_path (opt s) (data_name d)) fhalf true
              (use_compose (opt s)) s1) as [[[v|e] s2] w]; simpl;
    rewrite ?app_nil_r; reflexivity.
Qed.

(** C9. One call of [evaluate] writes at most one mesh and reads at most
    one dataset item, the one at the normalised [start_id]: when the
    range is not empty and its first index is inside the dataset, the
    call is the banner, the read of that item, its path printed and the
    run of [_gen_mesh_gray] on it, whose result is returned.  When the
    normalised [start_id] is not below the size of the dataset,
    [evaluate] returns [None] and has only printed the banner. *)
Theorem evaluate_makes_at_most_one_mesh
        (test_dataset : list Data) (s : Self) :
  let run := evaluate test_dataset s in
  let a := norm_start s in
  (List.length (saved_meshes (events run)) <= 1)%nat
  /\ (items_read (events run) = [] \/ items_read (events run) = [a])
  /\ (Py.len test_dataset <= a ->
      outcome run = Ok None /\ events run = [EPrint banner])
  /\ (forall d,
        a < norm_end s (Py.len test_dataset) ->
        nth_error test_dataset (Z.to_nat a) = Some d ->
        let first :=
          _gen_mesh_gray (resolution (opt s)) d
                         (result_path (opt s) (data_name d)) fhalf true
                         (use_compose (opt s))
                         (normalize_ids (Py.len test_dataset) s) in
        outcome run = outcome first /\
        events run = EPrint banner :: EGetItem a
                       :: EPrint (result_path (opt s) (data_name d))
                       :: events first).
Proof.
  intros run a. subst run.
  pose proof (evaluate_unfold test_dataset s) as Hu. cbv zeta in Hu. fold a in Hu.
  pose proof (norm_start_nonneg s) as Ha. fold a in Ha.
  rewrite Hu. clear Hu.
  destruct (a <? norm_end s (Py.len test_dataset)) eqn:Eab; simpl.
  2:{ apply Z.ltb_ge in Eab. unfold events, outcome; simpl.
      split; [lia|]. split; [now left|]. split; [auto|].
      intros d Hlt. lia. }
  apply Z.ltb_lt in Eab.
  destruct (a <? Py.len test_dataset) eqn:Elen.
  2:{ apply Z.ltb_ge in Elen. unfold events, outcome; simpl.
      split; [lia|]. split; [now left|]. split; [auto|].
      intros d _ Hd.
      assert (Z.to_nat a < List.length test_dataset)%nat
        by (apply nth_error_Some; congruence).
      unfold Py.len in Elen. lia. }
  apply Z.ltb_lt in Elen.
  destruct (nth_error test_dataset (Z.to_nat a)) as [d|] eqn:Ed.
  2:{ apply nth_error_None in Ed. unfold Py.len in Elen. lia. }
  destruct (_gen_mesh_gray (resolution (opt s)) d
              (result_path (opt s) (data_name d)) fhalf true
              (use_compose (opt s)) (normalize_ids (Py.len test_dataset) s))
    as [[r s2] w] eqn:Eg.
  unfold events, outcome; simpl.
  rewrite (gray_reads_no_item _ _ _ _ _ _ _ Eg).
  split; [|split; [|split]].
  - destruct (gray_saved_meshes _ _ _ _ _ _ _ Eg)
      as [[-> _] | (verts & color & -> & _ & _)]; simpl; lia.
  - now right.
  - intros Hle. lia.
  - intros d' _ Hd'. inversion Hd'; subst d'. rewrite Eg. auto.
Qed.
End EvaluateClaims.

(** ** Concrete runs *)

Module Runs.
Import Demo.

(** A mesh of one vertex through [_gen_mesh_gray]: the oracle is asked
    about no vertex at all, and the vertex is saved with a zero
    attribute. *)
Example one_vertex_run :
  normal_calls (events (gray_run one_vertex None)) = [[]]
  /\ saved_meshes (events (gray_run one_vertex None))
     = [("out/mesh.obj"%string, [v1], [(0%Q, 0%Q, 0%Q)])]
  /\ outcome (gray_run one_vertex None)
     = Ok (Some ("out/mesh.png"%string, "out/mesh.obj"%string)).
Proof. repeat split. Qed.

(** Three vertices: the first two carry their remapped normal, the
    third was never sent to the oracle. *)
Example triangle_run :
  normal_calls (events (gray_run triangle None)) = [[v1; v2]]
  /\ saved_meshes (events (gray_run triangle None))
     = [("out/mesh.obj"%string, [v1; v2; v3],
         [remap3 v1; remap3 v2; (0%Q, 0%Q, 0%Q)])].
Proof. repeat split. Qed.

(** C1: the theorem at the failing input, one vertex and the chunk size
    of the source. *)
Lemma trailing_vertex_dropped_witness :
  0 < interval
  /\ @pointwise_oracle Q (collab one_vertex) (fun v => v) tt
  /\ Py.len [v1] mod interval <> 0
  /\ List.concat (chunks interval [v1]) = removelast [v1]
  /\ exists s',
      @normal_colors Q scalar_Q (collab one_vertex) interval [v1] tt
                     (self0 one_vertex 0 1)
      = (Ok (map (fun v => remap3 v) (removelast [v1]) ++ [zero3]), s',
         map ECalcNormal (chunks interval [v1])).
Proof.
  assert (H1 : 0 < interval) by reflexivity.
  assert (H2 : @pointwise_oracle Q (collab one_vertex) (fun v => v) tt)
    by (intros n pts; exists (map (fun v => v) pts); split; reflexivity).
  assert (H3 : Py.len [v1] mod interval <> 0) by (vm_compute; discriminate).
  split; [exact H1|]. split; [exact H2|]. split; [exact H3|].
  exact (@trailing_vertex_dropped Q scalar_Q (collab one_vertex) interval
           [v1] tt (fun v => v) (self0 one_vertex 0 1) H1 H2 H3).
Defined.

(** C3: the theorem at the failing input. *)
Lemma chunked_against_reference_witness :
  0 < interval
  /\ @pointwise_oracle Q (collab no_vertex) (fun v => v) tt
  /\ outcome (resolve_reference [v1]) = Ok (map (fun v => remap3 v) [v1])
  /\ (Py.len [v1] mod interval = 0 ->
      outcome (resolve interval [v1]) = outcome (resolve_reference [v1]))
  /\ (Py.len [v1] mod interval <> 0 ->
      outcome (resolve interval [v1])
      = Ok (map (fun v => remap3 v) (removelast [v1]) ++ [zero3])).
Proof.
  assert (H1 : 0 < interval) by reflexivity.
  assert (H2 : @pointwise_oracle Q (collab no_vertex) (fun v => v) tt)
    by (intros n pts; exists (map (fun v => v) pts); split; reflexivity).
  split; [exact H1|]. split; [exact H2|].
  exact (@chunked_against_reference Q scalar_Q (collab no_vertex) interval
           [v1] tt (fun v => v) (self0 no_vertex 0 1) H1 H2).
Defined.

(** On one vertex the chunked loop and the reference resolution return
    different arrays. *)
Example chunked_differs_from_reference :
  outcome (resolve interval [v1]) = Ok [(0%Q, 0%Q, 0%Q)]
  /\ outcome (resolve_reference [v1]) = Ok [remap3 v1]
  /\ outcome (resolve interval [v1]) <> outcome (resolve_reference [v1]).
Proof.
  split; [reflexivity|]. split; [reflexivity|].
  vm_compute. discriminate.
Qed.

(** On two vertices and chunk size two they agree. *)
Example chunked_agrees_when_divisible :
  outcome (resolve 2 [v1; v2]) = outcome (resolve_reference [v1; v2])
  /\ normal_calls (events (resolve 2 [v1; v2])) = [[v1; v2]; []].
Proof. split; reflexivity. Qed.

(** C4: no vertex, and yet one oracle call, where [ceil(0 / 50000)] is
    zero. *)
Lemma zero_vertices_one_oracle_call :
  saved_meshes (events (gray_run no_vertex None))
  = [("out/mesh.obj"%string, [], [])]
  /\ normal_calls (events (gray_run no_vertex None)) = [[]]
  /\ ceil_div (Py.len (@nil (Vec3 Q))) interval = 0
  /\ Z.of_nat (List.length (normal_calls (events (gray_run no_vertex None))))
     <> ceil_div (Py.len (@nil (Vec3 Q))) interval.
Proof.
  split; [reflexivity|]. split; [reflexivity|]. split; [reflexivity|].
  vm_compute. discriminate.
Qed.

(** C4: the amended statement on three vertices and chunk size two. *)
Lemma oracle_called_once_per_iteration_witness :
  0 < 2
  /\ Z.of_nat (List.length (normal_calls (events (resolve 2 [v1; v2; v3]))))
     = Py.len [v1; v2; v3] / 2 + 1
  /\ Forall (fun p => Z.of_nat (List.length p) <= 2)
            (normal_calls (events (resolve 2 [v1; v2; v3])))
  /\ (forall k : nat,
         Z.of_nat k < Py.len [v1; v2; v3] / 2 ->
         nth_error (normal_calls (events (resolve 2 [v1; v2; v3]))) k
         = Some (Py.slice [v1; v2; v3] (Z.of_nat k * 2) ((Z.of_nat k + 1) * 2)))
  /\ (Py.len [v1; v2; v3] mod 2 <> 0 ->
      Z.of_nat (List.length (normal_calls (events (resolve 2 [v1; v2; v3]))))
      = ceil_div (Py.len [v1; v2; v3]) 2)
  /\ (Py.len [v1; v2; v3] mod 2 = 0 ->
      Z.of_nat (List.length (normal_calls (events (resolve 2 [v1; v2; v3]))))
      = ceil_div (Py.len [v1; v2; v3]) 2 + 1 /\
      nth_error (normal_calls (events (resolve 2 [v1; v2; v3])))
                (Z.to_nat (Py.len [v1; v2; v3] / 2)) = Some []).
Proof.
  assert (H1 : 0 < 2) by reflexivity.
  split; [exact H1|].
  exact (@oracle_called_once_per_iteration Q scalar_Q (collab no_vertex) 2
           [v1; v2; v3] tt (self0 no_vertex 0 1)
           (snd (fst (resolve 2 [v1; v2; v3])))
           [remap3 v1; remap3 v2; zero3]
           (events (resolve 2 [v1; v2; v3]))
           H1 eq_refl).
Defined.

(** C8: the first iteration on three vertices with chunk size two. *)
Lemma normals_remapped_before_store_witness :
  @normal_chunk Q scalar_Q (collab triangle) 2 [v1; v2; v3] tt 0
                [zero3; zero3; zero3] (self0 triangle 0 1)
  = (Ok [remap3 v1; remap3 v2; zero3],
     set_netMR (C := collab triangle) [v1; v2] (self0 triangle 0 1),
     [ECalcNormal [v1; v2]])
  /\ (let stored '(x, y, z) :=
        (fadd (fmul x fhalf) fhalf,
         fadd (fmul y fhalf) fhalf,
         fadd (fmul z fhalf) fhalf) in
      Py.slice [remap3 v1; remap3 v2; zero3] 0 2 = map stored [v1; v2]
      \/ (exists v, [v1; v2] = [v] /\
                     Py.slice [remap3 v1; remap3 v2; zero3] 0 2
                     = repeat (stored v) 2)).
Proof.
  split; [reflexivity|].
  exact (@normals_remapped_before_store Q scalar_Q (collab triangle) 2
           [v1; v2; v3] tt 0 [zero3; zero3; zero3]
           [remap3 v1; remap3 v2; zero3] (self0 triangle 0 1)
           (set_netMR (C := collab triangle) [v1; v2] (self0 triangle 0 1))
           [ECalcNormal [v1; v2]] eq_refl).
Defined.



(** C10: a reconstruction interrupted from the keyboard.  The preview
    has been written, nothing is printed, and the interrupt reaches the
    caller: neither generator returns [None]. *)
Lemma interrupt_reaches_the_caller :
  mesh interrupted = Raise (BaseOnly "KeyboardInterrupt")
  /\ gray_run interrupted None
     = (Raise (BaseOnly "KeyboardInterrupt"), self0 interrupted 0 1,
        [@EImwrite Q (collab interrupted) "out/mesh.png" [7];
         EReconstruction 50000])
  /\ outcome (gray_run interrupted None) <> Ok None
  /\ color_run interrupted None
     = (Raise (BaseOnly "KeyboardInterrupt"), self0 interrupted 0 1,
        [@EImwrite Q (collab interrupted) "out/mesh.png" [7];
         EReconstruction 100000])
  /\ outcome (color_run interrupted None) <> Ok tt
  /\ printed (events (gray_run interrupted None)) = []
  /\ printed (events (color_run interrupted None)) = [].
Proof.
  split; [reflexivity|]. split; [reflexivity|].
  split; [vm_compute; discriminate|]. split; [reflexivity|].
  split; [vm_compute; discriminate|]. split; reflexivity.
Qed.

(** C10: the amended statement at the reconstruction that runs out of
    memory. *)
Lemma preview_written_before_reconstruction_witness :
  @filter_global Q (collab out_of_memory) [] [7] = Ok []
  /\ @filter_local Q (collab out_of_memory) [] [8] = Ok []
  /\ @cv2_imwrite Q (collab out_of_memory) "out/mesh.png" [7] = Ok tt
  /\ mesh out_of_memory = Raise (StdError "CUDA out of memory")
  /\ gray_run out_of_memory None
     = (Ok None, self0 out_of_memory 0 1,
        [@EImwrite Q (collab out_of_memory) "out/mesh.png" [7];
         EReconstruction 50000; EPrint "CUDA out of memory"])
  /\ color_run out_of_memory None
     = (Ok tt, self0 out_of_memory 0 1,
        [@EImwrite Q (collab out_of_memory) "out/mesh.png" [7];
         EReconstruction 100000; EPrint "CUDA out of memory"]).
Proof.
  split; [reflexivity|]. split; [reflexivity|]. split; [reflexivity|].
  split; [reflexivity|].
  destruct (@preview_written_before_reconstruction
              Q scalar_Q (collab out_of_memory) 256 (item out_of_memory None)
              "out/mesh.obj"%string (1 # 2)%Q true false
              (self0 out_of_memory 0 1) [] [] eq_refl eq_refl)
    as [_ Hwritten].
  destruct (Hwritten ltac:(discriminate) eq_refl)
    as [(_ & Hgray & _) (_ & Hcolor & _)].
  split.
  - exact (Hgray (StdError "CUDA out of memory") eq_refl).
  - exact (Hcolor (StdError "CUDA out of memory") eq_refl).
Defined.

(** C6: no bound holds for the batches of the projected-color flavor;
    a mesh of [bound + 1] vertices is projected in one call. *)
Lemma color_flavor_not_chunked :
  ~ exists bound : nat,
      forall sc : Script,
        Forall (fun p => (List.length p <= bound)%nat)
               (projection_calls (events (color_run sc None))).
Proof.
  intros [bound H].
  specialize (H (script_of (Ok (repeat v1 (S bound), [])))).
  assert (E : projection_calls
                (events (color_run (script_of (Ok (repeat v1 (S bound), [])))
                                   None))
              = [repeat v1 (S bound)]) by reflexivity.
  rewrite E in H. inversion H as [|p ps Hp _]; subst.
  simpl in Hp. rewrite repeat_length in Hp. lia.
Qed.

(** C7: an item with a world calibration through [_gen_mesh_gray]: the
    vertices are saved as extracted, not under the inverse of the
    calibration. *)
Lemma gray_ignores_world_calibration :
  calib_world (item triangle (Some scale2)) = Some scale2
  /\ map (fun '(_, saved, _) => saved)
         (saved_meshes (events (gray_run triangle (Some scale2))))
     = [[v1; v2; v3]]
  /\ (exists m_inv,
         @inv Q (collab triangle) scale2 = Ok m_inv /\
         map (homogeneous_apply m_inv) [v1; v2; v3] <> [v1; v2; v3])
  /\ map (fun '(_, saved, _) => saved)
         (saved_meshes (events (color_run triangle (Some scale2))))
     <> [[v1; v2; v3]].
Proof.
  split; [reflexivity|]. split; [reflexivity|]. split.
  - eexists. split; [reflexivity|]. vm_compute. discriminate.
  - vm_compute. discriminate.
Qed.

(** An item without world calibration, for comparison: both flavors
    save the extracted vertices. *)
Example color_run_without_calibration :
  map (fun '(_, saved, _) => saved)
      (saved_meshes (events (color_run triangle None)))
  = [[v1; v2; v3]]
  /\ projection_calls (events (color_run triangle None)) = [[v1; v2; v3]].
Proof. split; reflexivity. Qed.

(** [evaluate] on two items, from the start: one item read, one mesh. *)
Example evaluate_two_items :
  items_read (events (@evaluate Q scalar_Q (collab triangle)
                                [item triangle None; item triangle None]
                                (self0 triangle (-1) (-1))))
  = [0]
  /\ List.length
       (saved_meshes
          (events (@evaluate Q scalar_Q (collab triangle)
                             [item triangle None; item triangle None]
                             (self0 triangle (-1) (-1)))))
     = 1%nat.
Proof. split; reflexivity. Qed.

(** [evaluate] started past the end of the dataset. *)
Example evaluate_past_the_end :
  @evaluate Q scalar_Q (collab triangle)
            [item triangle None; item triangle None] (self0 triangle 2 (-1))
  = (Ok None, self0 triangle 2 2, [EPrint banner]).
Proof. reflexivity. Qed.
End Runs.


(** * Further properties of the class *)

(** ** Strings *)

Section StringFacts.

Lemma append_assoc (a b c : string) :
  String.append (String.append a b) c = String.append a (String.append b c).
Proof. induction a as [|ch a IH]; simpl; [reflexivity | now rewrite IH]. Qed.

Lemma append_nil_r (a : string) : String.append a "" = a.
Proof. induction a as [|ch a IH]; simpl; [reflexivity | now rewrite IH]. Qed.

Lemma length_append (a b : string) :
  String.length (String.append a b) = (String.length a + String.length b)%nat.
Proof. induction a as [|ch a IH]; simpl; [reflexivity | now rewrite IH]. Qed.

Lemma substring_prefix (a b : string) :
  substring 0 (String.length a) (String.append a b) = a.
Proof.
  induction a as [|ch a IH]; simpl.
  - destruct b; reflexivity.
  - now rewrite IH.
Qed.

Lemma substring_zero (a : string) : substring 0 0 a = ""%string.
Proof. destruct a; reflexivity. Qed.

Lemma drop_last4_append (a ext : string) :
  String.length ext = 4%nat -> Py.drop_last4 (String.append a ext) = a.
Proof.
  intros H. unfold Py.drop_last4. rewrite length_append, H.
  replace (String.length a + 4 - 4)%nat with (String.length a) by lia.
  apply substring_prefix.
Qed.

(** X5. The preview path is the mesh path with its last four characters
    replaced by [.png], whatever those four characters are. *)
Theorem preview_path_replaces_four_characters (stem ext : string) :
  String.length ext = 4%nat ->
  png_path (String.append stem ext) = String.append stem ".png".
Proof. intros H. unfold png_path. now rewrite drop_last4_append. Qed.

(** X6. A path of at most four characters has nothing left before the
    extension: its preview path is [.png] alone. *)
Theorem preview_path_of_short_path (save_path : string) :
  (String.length save_path <= 4)%nat -> png_path save_path = ".png"%string.
Proof.
  intros H. unfold png_path, Py.drop_last4.
  replace (String.length save_path - 4)%nat with 0%nat by lia.
  now rewrite substring_zero.
Qed.

(** The part of a result path after the directory and before the
    extension. *)
Lemma result_path_split (o : Opt) (item_name : string) :
  result_path o item_name
  = String.append
      (String.append (recon_dir o)
         (String.concat ""
            ["/result_"; item_name; "_"; Py.fmt_d (resolution o)]%string))
      ".obj".
Proof.
  unfold result_path, recon_dir.
  repeat (progress (rewrite ?append_assoc; simpl)).
  reflexivity.
Qed.

(** X7. The mesh of an item and its preview image are written side by
    side in the [recon] directory of the run, under the same name
    [result_<item>_<resolution>], with extensions [.obj] and [.png]. *)
Theorem item_paths_share_directory_and_name (o : Opt) (item_name : string) :
  let stem :=
    String.append (recon_dir o)
      (String.concat ""
         ["/result_"; item_name; "_"; Py.fmt_d (resolution o)]%string) in
  result_path o item_name = String.append stem ".obj"
  /\ png_path (result_path o item_name) = String.append stem ".png".
Proof.
  intros stem. split.
  - apply result_path_split.
  - rewrite result_path_split. fold stem.
    unfold png_path. now rewrite drop_last4_append.
Qed.
End StringFacts.

(** ** The constructor *)

Section ConstructorFacts.
Context {F : Type} {SF : Scalar F} {C : Collaborators F}
        {IC : InitCollaborators C}.

Lemma choose_run (opt : Options) :
  choose_state_dict_path opt
  = (Ok (Some (chosen_path opt)), after_choice opt, []).
Proof.
  unfold choose_state_dict_path, chosen_path, after_choice, ibind, iget,
    iret, imodify.
  destruct (load_netMR_checkpoint_path opt) as [p|]; [reflexivity|].
  destruct (resume_epoch opt <? 0); reflexivity.
Qed.

Lemma overwrite_after_choice (stored opt : Options) :
  overwrite_opt stored (after_choice opt) = overwrite_opt stored opt.
Proof.
  unfold after_choice.
  destruct (load_netMR_checkpoint_path opt); [reflexivity|].
  destruct (resume_epoch opt <? 0); reflexivity.
Qed.

Lemma after_choice_ids (opt : Options) :
  opt_start_id (after_choice opt) = opt_start_id opt /\
  opt_end_id (after_choice opt) = opt_end_id opt /\
  device_name (after_choice opt) = device_name opt.
Proof.
  unfold after_choice, device_name.
  destruct (load_netMR_checkpoint_path opt); [auto|].
  destruct (resume_epoch opt <? 0); auto.
Qed.

(** The events up to the moment the stored options have replaced the
    received ones. *)
Let loaded_events (p dev : string) : list InitEvent :=
  [IPrint (String.append "Resuming from  " p); ILoad p dev;
   IPrint "Warning: opt is overwritten."].

(** [__init__] in closed form. *)
Lemma init_unfold (opt : Options) :
  let p := chosen_path opt in
  let dev := device_name opt in
  __init__ opt =
  if path_exists p then
    match torch_load p dev with
    | Raise e =>
        (Raise e, after_choice opt,
         [IPrint (String.append "Resuming from  " p); ILoad p dev])
    | Ok (stored, opt_netG, weights) =>
        let m := overwrite_opt stored opt in
        match HGPIFuNetwNML opt_netG "orthogonal" dev with
        | Raise e => (Raise e, after_choice opt, loaded_events p dev)
        | Ok netG =>
        match HGPIFuMRNet m netG "orthogonal" dev with
        | Raise e => (Raise e, after_choice opt, loaded_events p dev)
        | Ok net0 =>
        match load_state_dict net0 weights with
        | Raise e => (Raise e, after_choice opt, loaded_events p dev)
        | Ok net =>
        match makedirs (checkpoints_path m) with
        | Raise e => (Raise e, after_choice opt, loaded_events p dev)
        | Ok _ =>
        match makedirs (opt_results_path m) with
        | Raise e =>
            (Raise e, after_choice opt,
             loaded_events p dev ++ [IMakedirs (checkpoints_path m)])
        | Ok _ =>
        match makedirs (recon_dir (methods_opt m)) with
        | Raise e =>
            (Raise e, after_choice opt,
             loaded_events p dev
               ++ [IMakedirs (checkpoints_path m);
                   IMakedirs (opt_results_path m)])
        | Ok _ =>
            (Ok {| start_id := opt_start_id opt;
                   end_id := opt_end_id opt;
                   netMR := net;
                   opt := methods_opt m |},
             after_choice opt,
             loaded_events p dev
               ++ [IMakedirs (checkpoints_path m);
                   IMakedirs (opt_results_path m);
                   IMakedirs (recon_dir (methods_opt m))])
        end end end end end end
    end
  else (Raise (BaseOnly (String.append "failed loading state dict! " p)),
        after_choice opt, []).
Proof.
  intros p dev. unfold __init__. unfold ibind at 1. rewrite choose_run.
  unfold ibind at 1. unfold iget at 1. cbv beta iota zeta.
  destruct (after_choice_ids opt) as (Hs & He & Hd).
  rewrite Hs, He, Hd. fold p dev.
  unfold load_checkpoint, do_makedirs.
  unfold ibind, iret, iraise, ilift, iemit, iget. cbv beta iota zeta.
  destruct (path_exists p); [|reflexivity].
  destruct (torch_load p dev) as [[[stored g] wts]|e]; [|reflexivity].
  cbv beta iota zeta. rewrite overwrite_after_choice.
  destruct (HGPIFuNetwNML g "orthogonal" dev) as [netG|e]; [|reflexivity].
  destruct (HGPIFuMRNet (overwrite_opt stored opt) netG "orthogonal" dev)
    as [net0|e]; [|reflexivity].
  destruct (load_state_dict net0 wts) as [net|e]; [|reflexivity].
  destruct (makedirs (checkpoints_path (overwrite_opt stored opt)))
    as [[]|e]; [|reflexivity].
  destruct (makedirs (opt_results_path (overwrite_opt stored opt)))
    as [[]|e]; [|reflexivity].
  destruct (makedirs (recon_dir (methods_opt (overwrite_opt stored opt))))
    as [[]|e]; reflexivity.
Qed.

(** X1. What the constructor does, in order.  When it returns, the chosen
    checkpoint file existed and was read, and the trace is: the two
    lines printed around the load, then the three directories created,
    the first taken from the options stored in the checkpoint, the
    other two from the results path received.  When it raises, fewer
    than three directories were created; if the chosen file does not
    exist the message names it and nothing at all was done; if it exists
    it is the one file that was read. *)
Theorem constructor_steps_in_order (o : Options) :
  let run := __init__ o in
  let p := chosen_path o in
  let dev := device_name o in
  match init_outcome run with
  | Ok _ =>
      path_exists p = true /\
      exists stored opt_netG weights,
        torch_load p dev = Ok (stored, opt_netG, weights) /\
        init_events run
        = [IPrint (String.append "Resuming from  " p); ILoad p dev;
           IPrint "Warning: opt is overwritten.";
           IMakedirs (checkpoints_path stored);
           IMakedirs (opt_results_path o);
           IMakedirs (recon_dir (methods_opt (overwrite_opt stored o)))]
  | Raise e =>
      (List.length (dirs_made (init_events run)) < 3)%nat /\
      (path_exists p = false ->
       e = BaseOnly (String.append "failed loading state dict! " p) /\
       init_events run = []) /\
      (path_exists p = true -> loads (init_events run) = [p])
  end.
Proof.
  intros run p dev. subst run.
  pose proof (init_unfold o) as Hu. cbv zeta in Hu. fold p dev in Hu.
  rewrite Hu. clear Hu. unfold init_outcome, init_events.
  destruct (path_exists p) eqn:Ep; simpl.
  2:{ split; [lia|]. split; [auto | discriminate]. }
  destruct (torch_load p dev) as [[[stored g] wts]|e] eqn:El; simpl.
  2:{ split; [lia|]. split; [discriminate | reflexivity]. }
  destruct (HGPIFuNetwNML g "orthogonal" dev) as [netG|e]; simpl.
  2:{ split; [lia|]. split; [discriminate | reflexivity]. }
  destruct (HGPIFuMRNet (overwrite_opt stored o) netG "orthogonal" dev)
    as [net0|e]; simpl.
  2:{ split; [lia|]. split; [discriminate | reflexivity]. }
  destruct (load_state_dict net0 wts) as [net|e]; simpl.
  2:{ split; [lia|]. split; [discriminate | reflexivity]. }
  destruct (makedirs (checkpoints_path stored)) as [[]|e]; simpl.
  2:{ split; [lia|]. split; [discriminate | reflexivity]. }
  destruct (makedirs (opt_results_path o)) as [[]|e]; simpl.
  2:{ split; [lia|]. split; [discriminate | reflexivity]. }
  destruct (makedirs (recon_dir (methods_opt (overwrite_opt stored o))))
    as [[]|e]; simpl.
  2:{ split; [lia|]. split; [discriminate | reflexivity]. }
  split; [reflexivity|]. exists stored, g, wts. split; reflexivity.
Qed.

(** X2. The object the constructor returns mixes two sets of options:
    [start_id] and [end_id] and, in [self.opt], the results path and the
    resolution are the ones received; the name of the run and
    [use_compose] in [self.opt] are the ones stored in the checkpoint
    that was read. *)
Theorem constructor_merges_options (o : Options) (self : Self) :
  init_outcome (__init__ o) = Ok self ->
  exists stored opt_netG weights,
    torch_load (chosen_path o) (device_name o)
    = Ok (stored, opt_netG, weights) /\
    start_id self = opt_start_id o /\
    end_id self = opt_end_id o /\
    results_path (opt self) = opt_results_path o /\
    resolution (opt self) = opt_resolution o /\
    name (opt self) = opt_name stored /\
    use_compose (opt self) = opt_use_compose stored.
Proof.
  pose proof (init_unfold o) as Hu. cbv zeta in Hu.
  rewrite Hu. clear Hu. unfold init_outcome.
  destruct (path_exists (chosen_path o)); simpl; [|discriminate].
  destruct (torch_load (chosen_path o) (device_name o))
    as [[[stored g] wts]|e]; simpl; [|discriminate].
  destruct (HGPIFuNetwNML g "orthogonal" (device_name o)) as [netG|e];
    simpl; [|discriminate].
  destruct (HGPIFuMRNet (overwrite_opt stored o) netG "orthogonal"
                        (device_name o)) as [net0|e]; simpl; [|discriminate].
  destruct (load_state_dict net0 wts) as [net|e]; simpl; [|discriminate].
  destruct (makedirs (checkpoints_path stored)) as [[]|e]; simpl;
    [|discriminate].
  destruct (makedirs (opt_results_path o)) as [[]|e]; simpl; [|discriminate].
  destruct (makedirs (recon_dir (methods_opt (overwrite_opt stored o))))
    as [[]|e]; simpl; [|discriminate].
  intros H. inversion H; subst self; clear H.
  exists stored, g, wts. simpl. repeat split.
Qed.

(** X3. Of the options object it receives, the constructor changes
    nothing but [resume_epoch], and that only when no checkpoint path
    was given and the epoch was negative: it is then 0, whether the
    constructor returns or raises. *)
Theorem constructor_changes_only_resume_epoch (o : Options) :
  let o' := init_options (__init__ o) in
  (load_netMR_checkpoint_path o = None -> resume_epoch o < 0 ->
   o' = set_resume_epoch 0 o)
  /\ (load_netMR_checkpoint_path o <> None \/ 0 <= resume_epoch o ->
      o' = o).
Proof.
  intros o'.
  assert (Ho : o' = after_choice o).
  { subst o'. pose proof (init_unfold o) as Hu. cbv zeta in Hu.
    rewrite Hu. clear Hu. unfold init_options.
    destruct (path_exists (chosen_path o)); simpl; [|reflexivity].
    destruct (torch_load (chosen_path o) (device_name o))
      as [[[stored g] wts]|e]; simpl; [|reflexivity].
    destruct (HGPIFuNetwNML g "orthogonal" (device_name o)) as [netG|e];
      simpl; [|reflexivity].
    destruct (HGPIFuMRNet (overwrite_opt stored o) netG "orthogonal"
                          (device_name o)) as [net0|e]; simpl; [|reflexivity].
    destruct (load_state_dict net0 wts) as [net|e]; simpl; [|reflexivity].
    destruct (makedirs (checkpoints_path stored)) as [[]|e]; simpl;
      [|reflexivity].
    destruct (makedirs (opt_results_path o)) as [[]|e]; simpl; [|reflexivity].
    destruct (makedirs (recon_dir (methods_opt (overwrite_opt stored o))))
      as [[]|e]; reflexivity. }
  rewrite Ho. unfold after_choice. split.
  - intros Hn Hr. rewrite Hn.
    destruct (resume_epoch o <? 0) eqn:E; [reflexivity|].
    apply Z.ltb_ge in E. lia.
  - intros [Hn | Hr].
    + destruct (load_netMR_checkpoint_path o); [reflexivity | congruence].
    + destruct (load_netMR_checkpoint_path o); [reflexivity|].
      destruct (resume_epoch o <? 0) eqn:E; [|reflexivity].
      apply Z.ltb_lt in E. lia.
Qed.
End ConstructorFacts.

(** ** What a run leaves in [self] *)

Section FrameFacts.
Context {F : Type} {SF : Scalar F} {C : Collaborators F}.

Lemma same_but_net_refl (s : Self) : same_but_net s s.
Proof. repeat split. Qed.

Lemma same_but_net_trans (s1 s2 s3 : Self) :
  same_but_net s1 s2 -> same_but_net s2 s3 -> same_but_net s1 s3.
Proof.
  intros (A1 & A2 & A3) (B1 & B2 & B3). repeat split; congruence.
Qed.

Lemma same_but_net_set (n : Net) (s : Self) : same_but_net s (set_netMR n s).
Proof. repeat split. Qed.

Lemma normal_chunk_frame iv verts cal i color s r s' w :
  normal_chunk iv verts cal i color s = (r, s', w) -> same_but_net s s'.
Proof.
  unfold normal_chunk, bind, emit, net_call, get_self, ret, raise.
  intros E.
  destruct (calc_normal (netMR s) _ cal) as [n|e]; simpl in E.
  - destruct (Py.slice_assign color _ _ _); inversion E; subst;
      apply same_but_net_set.
  - inversion E; subst. apply same_but_net_refl.
Qed.

Lemma normal_loop_frame iv verts cal xs : forall color s r s' w,
  for_acc xs (normal_chunk iv verts cal) color s = (r, s', w) ->
  same_but_net s s'.
Proof.
  induction xs as [|i xs IH]; intros color s r s' w E; simpl in E.
  - unfold ret in E. inversion E; subst. apply same_but_net_refl.
  - unfold bind in E.
    destruct (normal_chunk iv verts cal i color s) as [[r1 s1] w1] eqn:E1.
    pose proof (normal_chunk_frame _ _ _ _ _ _ E1) as H1.
    destruct r1 as [c1|e1].
    + destruct (for_acc xs (normal_chunk iv verts cal) c1 s1)
        as [[r2 s2] w2] eqn:E2.
      inversion E; subst. eapply same_but_net_trans; eauto.
    + inversion E; subst. exact H1.
Qed.

Lemma normal_colors_frame iv verts cal s r s' w :
  normal_colors iv verts cal s = (r, s', w) -> same_but_net s s'.
Proof. unfold normal_colors. apply normal_loop_frame. Qed.

(** A run of [_gen_mesh_gray], with the state and the views its guarded
    block starts from. *)
Lemma gen_mesh_gray_inv res data save_path thresh use_octree components
      s r s' w :
  _gen_mesh_gray res data save_path thresh use_octree components s
    = (r, s', w) ->
  (exists e, r = Raise e /\ w = [] /\ same_but_net s s' /\
        (filter_global (netMR s) (img_512 data) = Raise e \/
         exists n1, filter_global (netMR s) (img_512 data) = Ok n1 /\
                    filter_local n1 (img data) = Raise e))
  \/ (exists n1 n2 rb wb,
        filter_global (netMR s) (img_512 data) = Ok n1 /\
        filter_local n1 (img data) = Ok n2 /\
        gray_guarded res data save_path thresh use_octree
                     (cat_normal_maps n2 (img_512 data)) (filtered n1 n2 s)
          = (rb, s', wb) /\
        match rb with
        | Ok v => r = Ok v /\ w = wb
        | Raise e => ends_handled None e wb r w
        end).
Proof.
  unfold _gen_mesh_gray, bind, net_call, get_self, try_except, print, emit, ret.
  intros E.
  destruct (filter_global (netMR s) (img_512 data)) as [n1|e] eqn:E1;
    simpl in E.
  2:{ inversion E; subst. left. exists e. repeat split; auto. }
  destruct (filter_local n1 (img data)) as [n2|e] eqn:E2; simpl in E.
  2:{ inversion E; subst. left. exists e. repeat split; eauto. }
  right. exists n1, n2.
  fold (filtered n1 n2 s) in E.
  destruct (gray_guarded res data save_path thresh use_octree
              (cat_normal_maps n2 (img_512 data)) (filtered n1 n2 s))
    as [[rb sb] wb] eqn:Eb.
  exists rb, wb. split; [reflexivity|]. split; [exact E2|].
  destruct rb as [v|e]; [inversion E; subst; auto|].
  unfold ends_handled. destruct (is_Exception e); inversion E; subst; auto.
Qed.

(** [_gen_mesh_gray] changes nothing in [self] but the network. *)
Lemma gen_mesh_gray_frame res data save_path thresh use_octree components
      s r s' w :
  _gen_mesh_gray res data save_path thresh use_octree components s
    = (r, s', w) ->
  same_but_net s s'.
Proof.
  intros E.
  destruct (gen_mesh_gray_inv _ _ _ _ _ _ _ E)
    as [(e & _ & _ & H & _) | (n1 & n2 & rb & wb & _ & _ & Eb & _)];
    [exact H|].
  assert (H0 : same_but_net s (filtered n1 n2 s)) by (repeat split).
  eapply same_but_net_trans; [exact H0|].
  destruct (gray_guarded_cases _ _ _ _ _ _ _ Eb)
    as [(e & _ & _ & ->)
       | [(e & _ & -> & _)
         | (n & verts & faces & rc & wc & _ & Ec & _)]];
    try apply same_but_net_refl.
  eapply same_but_net_trans; [apply same_but_net_set|].
  eapply normal_colors_frame; eauto.
Qed.
End FrameFacts.

(** ** More on the attribute loop *)

Section LoopExtras.
Context {F : Type} {SF : Scalar F} {C : Collaborators F}.

(** A slice assignment leaves the rows outside the slice as they were. *)
Lemma slice_assign_outside {A : Type} (l vals l' : list A) (left right : Z)
      (k : nat) :
  Py.slice_assign l left right vals = Some l' ->
  (k < Py.slice_start l left)%nat
  \/ (Py.slice_start l left + Py.slice_len l left right <= k)%nat ->
  nth_error l' k = nth_error l k.
Proof.
  intros Ha Hk.
  pose proof (slice_start_le l left) as Hs.
  pose proof (slice_end_le l left right) as He.
  unfold Py.slice_assign in Ha.
  set (a := Py.slice_start l left) in *.
  set (n := Py.slice_len l left right) in *.
  assert (Hmid : forall mid : list A,
             List.length mid = n ->
             nth_error (firstn a l ++ mid ++ skipn (a + n) l) k
             = nth_error l k).
  { intros mid Hmid.
    assert (Hfa : List.length (firstn a l) = a)
      by (rewrite length_firstn; lia).
    destruct Hk as [Hk | Hk].
    - rewrite nth_error_app1 by lia.
      rewrite nth_error_firstn.
      destruct (Nat.ltb_spec k a); [reflexivity | lia].
    - rewrite nth_error_app2 by lia.
      rewrite nth_error_app2 by lia.
      rewrite nth_error_skipn. f_equal. lia. }
  destruct (Nat.eqb (List.length vals) n) eqn:Ek.
  - apply Nat.eqb_eq in Ek. inversion Ha; subst l'. now apply Hmid.
  - destruct vals as [|v [|v' vals']]; try discriminate.
    inversion Ha; subst l'. apply Hmid, repeat_length.
Qed.

(** X8. An iteration of the attribute loop writes inside its slice only:
    every row of the attribute array before the start of the slice or
    from its end on is what it was before the iteration. *)
Theorem chunk_write_leaves_other_rows
        (iv : Z) (verts : list (Vec3 F)) (cal : Calib) (i : Z)
        (color color' : list (Vec3 F)) (s s' : Self) (w : list Event)
        (k : nat) :
  normal_chunk iv verts cal i color s = (Ok color', s', w) ->
  let left := i * iv in
  let right := if i =? Py.len color / iv then -1 else (i + 1) * iv in
  (k < Py.slice_start color left)%nat
  \/ (Py.slice_start color left + Py.slice_len color left right <= k)%nat ->
  nth_error color' k = nth_error color k.
Proof.
  intros E left right Hk.
  unfold normal_chunk, bind, emit, net_call, get_self, ret, raise in E.
  fold left right in E.
  destruct (calc_normal (netMR s) (Py.slice verts left right) cal) as [n|e];
    simpl in E; [|discriminate].
  destruct (Py.slice_assign color left right (map remap3 (nmls n)))
    as [c1|] eqn:Ea; inversion E; subst; clear E.
  eapply slice_assign_outside; eauto.
Qed.

(** A loop that raises has sent a batch in its last iteration: the calls
    are those of the first [k + 1] iterations, for some iteration [k]. *)
Lemma normal_loop_raise iv verts cal xs : forall color s e s' w,
  List.length color = List.length verts ->
  for_acc xs (normal_chunk iv verts cal) color s = (Raise e, s', w) ->
  exists k, (k < List.length xs)%nat /\
    w = map (fun i => ECalcNormal (chunk_of iv verts i)) (firstn (S k) xs).
Proof.
  induction xs as [|i xs IH]; intros color s e s' w Hlen E.
  - simpl in E. unfold ret in E. discriminate.
  - simpl in E. unfold bind in E.
    destruct (normal_chunk iv verts cal i color s) as [[r1 s1] w1] eqn:E1.
    destruct (normal_chunk_inv _ _ _ _ _ _ Hlen E1) as [Hw1 Hr1].
    destruct r1 as [c1|e1].
    + destruct (for_acc xs (normal_chunk iv verts cal) c1 s1)
        as [[r2 s2] w2] eqn:E2.
      inversion E; subst r2 s' w; clear E.
      destruct (IH _ _ _ _ _ (Hr1 c1 eq_refl) E2) as (k & Hk & Hw2).
      exists (S k). split; [simpl; lia|].
      subst w1 w2. reflexivity.
    + inversion E; subst. exists 0%nat. split; [simpl; lia|]. reflexivity.
Qed.

(** X9. When the attribute loop raises, because the oracle failed or
    returned rows that do not fit the slice, the batch that failed is
    the last one that was sent: the oracle calls are the first [k + 1]
    chunks for some [k], and no later chunk was tried. *)
Theorem failing_batch_is_the_last_one_sent
        (iv : Z) (verts : list (Vec3 F)) (cal : Calib)
        (s s' : Self) (e : Exception) (w : list Event) :
  normal_colors iv verts cal s = (Raise e, s', w) ->
  exists k,
    (k < List.length (chunks iv verts))%nat /\
    normal_calls w = firstn (S k) (chunks iv verts) /\
    w = map ECalcNormal (normal_calls w).
Proof.
  unfold normal_colors. intros E.
  assert (Hz : List.length (np_zeros_like verts) = List.length verts)
    by (unfold np_zeros_like; apply length_map).
  assert (Hl : Py.len (np_zeros_like verts) = Py.len verts)
    by (unfold Py.len; now rewrite Hz).
  rewrite Hl in E.
  destruct (normal_loop_raise _ _ _ _ _ _ Hz E) as (k & Hk & ->).
  exists k. unfold chunks. rewrite length_map. split; [exact Hk|].
  rewrite <- map_map, normal_calls_map.
  split; [now rewrite firstn_map | reflexivity].
Qed.

(** X10. Whenever [_gen_mesh_gray] writes a mesh, the batches it sent to
    the normal oracle, put end to end in the order of the calls, are the
    saved vertices, or the saved vertices without the last one: no
    vertex was sent twice or out of order. *)
Theorem batches_follow_the_saved_vertices
        (res : Z) (data : Data) (save_path : string) (thresh : F)
        (use_octree components : bool) (s : Self) :
  let run := _gen_mesh_gray res data save_path thresh use_octree
                            components s in
  Forall (fun '(_, verts, _) =>
            List.concat (normal_calls (events run))
            = firstn (covered interval (Py.len verts)) verts
            /\ (List.concat (normal_calls (events run)) = verts
                \/ List.concat (normal_calls (events run))
                   = removelast verts))
         (saved_meshes (events run)).
Proof.
  intros run. subst run.
  destruct (_gen_mesh_gray res data save_path thresh use_octree components s)
    as [[r s'] w] eqn:E.
  unfold events; simpl.
  destruct (gray_run_summary _ _ _ _ _ _ _ E)
    as [(e & -> & ->)
       | [(e & w0 & Hh & Hw0)
         | (imgs & s1 & n & verts & faces & color & s2 & _ & _ & _ & _ & ->)]].
  - constructor.
  - destruct (ends_handled_trace Hh) as (-> & _).
    destruct Hw0 as [-> | (imgs & cs & -> & _)]; [constructor|].
    simpl. rewrite saved_meshes_calls. constructor.
  - simpl. rewrite saved_meshes_app, saved_meshes_calls. simpl.
    rewrite normal_calls_app, normal_calls_map. simpl. rewrite app_nil_r.
    constructor; [|constructor].
    rewrite (chunks_concat verts interval_pos). split; [reflexivity|].
    destruct (Z.eq_dec (Py.len verts mod interval) 0) as [Hm | Hm].
    + left. rewrite (covered_divisible verts interval_pos Hm).
      apply firstn_all.
    + right. rewrite (covered_remainder verts interval_pos Hm).
      symmetry. apply removelast_firstn_len.
Qed.

(** X11. The views of the preview begin with the views of the input.
    After them come the predicted front normal map, when the network has
    a front predictor and the map is there, and then the back one in the
    same way; a front predictor without its map stops the block, so the
    back map is left out as well. *)
Theorem preview_views_start_with_input (n : Net) (views : list View) :
  cat_normal_maps n views
  = views ++ (if netF n
              then match nmlF n with
                   | Some front => front ++ back_views n
                   | None => []
                   end
              else back_views n)
  /\ (List.length views <= List.length (cat_normal_maps n views))%nat.
Proof.
  assert (H : cat_normal_maps n views
              = views ++ (if netF n
                          then match nmlF n with
                               | Some front => front ++ back_views n
                               | None => []
                               end
                          else back_views n)).
  { unfold cat_normal_maps, back_views, torch_cat.
    destruct (netF n); [destruct (nmlF n) as [front|]|];
      destruct (netB n); try destruct (nmlB n) as [back|];
      rewrite ?app_nil_r, ?app_assoc; reflexivity. }
  split; [exact H|]. rewrite H, length_app. lia.
Qed.

(** X12. An item without any view, on a network without normal
    predictors: [_gen_mesh_gray] cannot build the preview, so the
    reconstruction is never attempted and no mesh is written; unless a
    filter call raised, the method returns [None] having printed numpy's
    message. *)
Theorem no_view_no_reconstruction
        (res : Z) (data : Data) (save_path : string) (thresh : F)
        (use_octree components : bool) (s : Self) :
  img_512 data = [] ->
  (forall n, netF n = false) ->
  (forall n, netB n = false) ->
  let run := _gen_mesh_gray res data save_path thresh use_octree
                            components s in
  reconstruction_attempts (events run) = []
  /\ saved_meshes (events run) = []
  /\ ((events run = [] /\ exists e, outcome run = Raise e)
      \/ (outcome run = Ok None /\
          events run = [EPrint "need at least one array to concatenate"])).
Proof.
  intros Hviews HF HB run. subst run.
  destruct (_gen_mesh_gray res data save_path thresh use_octree components s)
    as [[r s'] w] eqn:E.
  unfold events, outcome; simpl.
  destruct (gen_mesh_gray_inv _ _ _ _ _ _ _ E)
    as [(e & -> & -> & _ & _) | (n1 & n2 & rb & wb & _ & _ & Eb & Hrb)].
  { split; [reflexivity|]. split; [reflexivity|]. left. eauto. }
  assert (Hg : cat_normal_maps n2 (img_512 data) = []).
  { unfold cat_normal_maps. now rewrite HF, HB, Hviews. }
  rewrite Hg in Eb.
  unfold gray_guarded, save_preview, bind, lift in Eb. simpl in Eb.
  inversion Eb; subst. unfold ends_handled in Hrb. simpl in Hrb.
  destruct Hrb as [-> ->].
  split; [reflexivity|]. split; [reflexivity|]. right. split; reflexivity.
Qed.
End LoopExtras.

(** ** More on the projected-color flavor *)

Section ColorExtras.
Context {F : Type} {SF : Scalar F} {C : Collaborators F}.

(** X13. A world calibration that cannot be inverted: [_gen_mesh_color]
    writes no mesh, and when it returns it has printed a message. *)
Theorem singular_world_calibration_saves_nothing
        (res : Z) (data : Data) (save_path : string) (thresh : F)
        (use_octree components : bool) (s : Self)
        (cw : Mat4 F) (e : Exception) :
  calib_world data = Some cw ->
  inv cw = Raise e ->
  let run := _gen_mesh_color res data save_path thresh use_octree
                             components s in
  saved_meshes (events run) = []
  /\ (outcome run = Ok tt ->
      exists e' w0, events run = w0 ++ [EPrint e']).
Proof.
  intros Hcw Hinv run. subst run.
  destruct (_gen_mesh_color res data save_path thresh use_octree components s)
    as [[r s'] w] eqn:E.
  unfold events, outcome; simpl.
  destruct (color_run_summary _ _ _ _ _ _ _ E)
    as [(e0 & -> & ->)
       | [(e0 & w0 & Hh & Hw0)
         | (imgs & s1 & n & verts & faces & xyz & color & verts'
            & _ & _ & Ew & _)]].
  - split; [reflexivity | discriminate].
  - split.
    2:{ intros Hr.
        destruct (ends_handled_cases Hh) as [(_ & _ & ->) | (_ & Hr' & _)];
          [eauto | congruence]. }
    destruct (ends_handled_trace Hh) as (-> & _).
    destruct Hw0 as [-> | (imgs & tail & -> & Ht)]; [reflexivity|].
    destruct Ht as [-> | (s1 & n & verts & faces & _ & Ht)]; [reflexivity|].
    destruct Ht as [-> | (uv & ->)]; reflexivity.
  - exfalso.
    destruct (world_vertices_cases _ _ _ Ew) as (_ & _ & Hw).
    rewrite Hcw, Hinv in Hw. discriminate.
Qed.

(** X14. The colors [_gen_mesh_color] saves are the image samples,
    remapped by [x * 0.5 + 0.5], at the first two coordinates of the
    projections of the vertices as extracted: only the first image of
    the item is sampled, and the world calibration plays no part in the
    colors. *)
Theorem colors_come_from_extracted_vertices
        (res : Z) (data : Data) (save_path : string) (thresh : F)
        (use_octree components : bool) (s : Self) :
  Forall (fun '(_, _, color) =>
            exists s1 n verts faces xyz sampled,
              reconstruction (netMR s1) (calib data) res (b_min data)
                             (b_max data) thresh use_octree 100000
              = Ok (n, (verts, faces)) /\
              projection n verts (calib data) = Ok xyz /\
              index (firstn 1 (img data)) (map first2 xyz) = Ok sampled /\
              color = map remap3 sampled)
         (saved_meshes
            (events (_gen_mesh_color res data save_path thresh use_octree
                                     components s))).
Proof.
  destruct (_gen_mesh_color res data save_path thresh use_octree components s)
    as [[r s'] w] eqn:E.
  unfold events; simpl.
  destruct (gen_mesh_color_cases _ _ _ _ _ _ _ E)
    as [(e & -> & ->) | (s1 & g & rb & wb & Eb & Hrb)].
  { constructor. }
  destruct (color_guarded_cases _ _ _ _ _ _ _ Eb)
    as [(e & -> & ->)
       | [(e & -> & _ & ->)
         | (n & verts & faces & Er & Hend)]].
  - destruct (ends_handled_trace Hrb) as (-> & _). constructor.
  - destruct (ends_handled_trace Hrb) as (-> & _). constructor.
  - destruct Hend as [(e & tail & -> & Ht & ->)
                     | (xyz & color & verts' & Ep & Ei & _ & -> & ->)].
    + destruct (ends_handled_trace Hrb) as (-> & _).
      destruct Ht as [-> | (uv & ->)]; constructor.
    + destruct Hrb as [_ ->].
      simpl. constructor; [|constructor].
      exists s1, n, verts, faces, xyz, color. auto.
Qed.
End ColorExtras.

(** ** More on [evaluate] *)

Section EvaluateExtras.
Context {F : Type} {SF : Scalar F} {C : Collaborators F}.

(** The state [evaluate] ends in differs from the normalised one at most
    in the network. *)
Lemma evaluate_final_self (test_dataset : list Data) (s : Self) :
  same_but_net (normalize_ids (Py.len test_dataset) s)
               (final_self (evaluate test_dataset s)).
Proof.
  pose proof (evaluate_unfold test_dataset s) as Hu. cbv zeta in Hu.
  rewrite Hu. clear Hu. unfold final_self.
  destruct ((norm_start s <? norm_end s (Py.len test_dataset))
            && (norm_start s <? Py.len test_dataset));
    [|apply same_but_net_refl].
  destruct (nth_error test_dataset (Z.to_nat (norm_start s))) as [d|];
    [|apply same_but_net_refl].
  destruct (_gen_mesh_gray (resolution (opt s)) d
              (result_path (opt s) (data_name d)) fhalf true
              (use_compose (opt s)) (normalize_ids (Py.len test_dataset) s))
    as [[r s2] w] eqn:Eg.
  simpl. eapply gen_mesh_gray_frame; eauto.
Qed.

(** The items [evaluate] reads. *)
Lemma evaluate_items_read (test_dataset : list Data) (s : Self) :
  items_read (events (evaluate test_dataset s))
  = if (norm_start s <? norm_end s (Py.len test_dataset))
       && (norm_start s <? Py.len test_dataset)
    then [norm_start s] else [].
Proof.
  pose proof (evaluate_unfold test_dataset s) as Hu. cbv zeta in Hu.
  rewrite Hu. clear Hu. unfold events.
  destruct (norm_start s <? norm_end s (Py.len test_dataset)) eqn:Eab;
    [|reflexivity].
  destruct (norm_start s <? Py.len test_dataset) eqn:Elen; [|reflexivity].
  simpl.
  apply Z.ltb_lt in Elen. pose proof (norm_start_nonneg s) as Ha.
  destruct (nth_error test_dataset (Z.to_nat (norm_start s))) as [d|] eqn:Ed.
  2:{ apply nth_error_None in Ed. unfold Py.len in Elen. lia. }
  destruct (_gen_mesh_gray (resolution (opt s)) d
              (result_path (opt s) (data_name d)) fhalf true
              (use_compose (opt s)) (normalize_ids (Py.len test_dataset) s))
    as [[r s2] w] eqn:Eg.
  simpl. now rewrite (gray_reads_no_item _ _ _ _ _ _ _ Eg).
Qed.

(** X15. [evaluate] reads the item at the normalised [start_id] exactly
    when that index is below the normalised [end_id] and below the size
    of the dataset; otherwise, and in particular when [end_id] is not
    above [start_id], it reads nothing, prints the banner and returns
    [None]. *)
Theorem evaluate_reads_the_start_item_iff_in_range
        (test_dataset : list Data) (s : Self) :
  let run := evaluate test_dataset s in
  if (norm_start s <? norm_end s (Py.len test_dataset))
     && (norm_start s <? Py.len test_dataset)
  then items_read (events run) = [norm_start s]
  else outcome run = Ok None /\ events run = [EPrint banner].
Proof.
  intros run. subst run.
  pose proof (evaluate_items_read test_dataset s) as Hi.
  pose proof (evaluate_unfold test_dataset s) as Hu. cbv zeta in Hu.
  destruct ((norm_start s <? norm_end s (Py.len test_dataset))
            && (norm_start s <? Py.len test_dataset)).
  - exact Hi.
  - rewrite Hu. split; reflexivity.
Qed.

(** X16. [evaluate] stores the normalised bounds in [self] and never
    moves [start_id] on: a negative [end_id] is replaced, for good, by
    the size of the dataset of the first call.  A later call, on any
    dataset, looks at the same index again, against the end bound of the
    first call. *)
Theorem evaluate_bounds_persist (test_dataset : list Data) (s : Self) :
  let s' := final_self (evaluate test_dataset s) in
  start_id s' = norm_start s
  /\ end_id s' = norm_end s (Py.len test_dataset)
  /\ opt s' = opt s
  /\ forall again : list Data,
       items_read (events (evaluate again s'))
       = if (norm_start s <? norm_end s (Py.len test_dataset))
            && (norm_start s <? Py.len again)
         then [norm_start s] else [].
Proof.
  intros s'.
  destruct (evaluate_final_self test_dataset s) as (Hs & He & Ho).
  destruct (normalize_ids_fields (Py.len test_dataset) s) as (Ns & Ne & No).
  fold s' in Hs, He, Ho.
  assert (Hst : start_id s' = norm_start s) by congruence.
  assert (Hen : end_id s' = norm_end s (Py.len test_dataset)) by congruence.
  split; [exact Hst|]. split; [exact Hen|]. split; [congruence|].
  intros again. rewrite evaluate_items_read.
  pose proof (norm_start_nonneg s) as Ha.
  assert (Hns : norm_start s' = norm_start s).
  { unfold norm_start at 1. rewrite Hst.
    destruct (norm_start s <? 0) eqn:E; [apply Z.ltb_lt in E; lia | reflexivity]. }
  assert (Hne : norm_end s' (Py.len again) = norm_end s (Py.len test_dataset)).
  { unfold norm_end at 1. rewrite Hen.
    destruct (norm_end s (Py.len test_dataset) <? 0) eqn:E; [|reflexivity].
    apply Z.ltb_lt in E. unfold norm_end in E.
    pose proof (len_nonneg test_dataset).
    destruct (end_id s <? 0) eqn:E2; [lia | apply Z.ltb_ge in E2; lia]. }
  now rewrite Hns, Hne.
Qed.

(** X17. A failure of the first filter call is not caught anywhere: when
    the start item is in range, [evaluate] raises it to its caller,
    after printing the banner and the path of the mesh it was about to
    make, and nothing has been written. *)
Theorem evaluate_raises_when_the_filter_fails
        (test_dataset : list Data) (s : Self) (e : Exception) :
  (forall n views, filter_global n views = Raise e) ->
  norm_start s < norm_end s (Py.len test_dataset) ->
  norm_start s < Py.len test_dataset ->
  exists d,
    nth_error test_dataset (Z.to_nat (norm_start s)) = Some d /\
    outcome (evaluate test_dataset s) = Raise e /\
    events (evaluate test_dataset s)
    = [EPrint banner; EGetItem (norm_start s);
       EPrint (result_path (opt s) (data_name d))].
Proof.
  intros Hf Hab Hlen.
  pose proof (evaluate_unfold test_dataset s) as Hu. cbv zeta in Hu.
  rewrite Hu. clear Hu.
  apply Z.ltb_lt in Hab. rewrite Hab.
  pose proof (norm_start_nonneg s) as Ha.
  destruct (nth_error test_dataset (Z.to_nat (norm_start s))) as [d|] eqn:Ed.
  2:{ apply nth_error_None in Ed. unfold Py.len in Hlen. lia. }
  apply Z.ltb_lt in Hlen. rewrite Hlen. simpl. exists d.
  split; [reflexivity|].
  unfold _gen_mesh_gray, bind, net_call. rewrite Hf. simpl.
  unfold outcome, events. simpl. split; reflexivity.
Qed.

(** The path of every mesh [evaluate] writes. *)
Lemma evaluate_saved_paths (test_dataset : list Data) (s : Self)
      (p : string) (v c : list (Vec3 F)) :
  In (p, v, c) (saved_meshes (events (evaluate test_dataset s))) ->
  exists d,
    nth_error test_dataset (Z.to_nat (norm_start s)) = Some d /\
    p = result_path (opt s) (data_name d).
Proof.
  pose proof (evaluate_unfold test_dataset s) as Hu. cbv zeta in Hu.
  rewrite Hu. clear Hu. unfold events.
  destruct ((norm_start s <? norm_end s (Py.len test_dataset))
            && (norm_start s <? Py.len test_dataset));
    [|simpl; intros []].
  destruct (nth_error test_dataset (Z.to_nat (norm_start s))) as [d|];
    [|simpl; intros []].
  destruct (_gen_mesh_gray (resolution (opt s)) d
              (result_path (opt s) (data_name d)) fhalf true
              (use_compose (opt s)) (normalize_ids (Py.len test_dataset) s))
    as [[r s2] w] eqn:Eg.
  simpl. intros Hin. exists d. split; [reflexivity|].
  destruct (gray_saved_meshes _ _ _ _ _ _ _ Eg)
    as [[Hs _] | (verts & color & Hs & _ & _)]; rewrite Hs in Hin.
  - destruct Hin.
  - destruct Hin as [Hin | []]. now inversion Hin.
Qed.
End EvaluateExtras.

(** ** From the constructor to the meshes *)

Section ConstructorToMeshes.
Context {F : Type} {SF : Scalar F} {C : Collaborators F}
        {IC : InitCollaborators C}.

(** X4. Every mesh that [evaluate] writes, on the object the
    constructor returned, lies in the last directory the constructor
    created, and is named after the item and the resolution received by
    the constructor. *)
Theorem meshes_land_in_the_created_directory
        (o : Options) (self : Self) (test_dataset : list Data)
        (p : string) (v c : list (Vec3 F)) :
  init_outcome (__init__ o) = Ok self ->
  In (p, v, c) (saved_meshes (events (evaluate test_dataset self))) ->
  exists item,
    In item test_dataset /\
    p = String.append
          (String.append
             (last (dirs_made (init_events (__init__ o))) ""%string)
             (String.concat ""
                ["/result_"; data_name item; "_";
                 Py.fmt_d (opt_resolution o)]%string))
          ".obj".
Proof.
  intros Hinit Hin.
  destruct (evaluate_saved_paths _ _ _ _ _ Hin) as (d & Hd & ->).
  exists d. split; [eapply nth_error_In; eauto|].
  rewrite result_path_split.
  pose proof (init_unfold o) as Hu. cbv zeta in Hu.
  rewrite Hu in Hinit |- *. clear Hu. unfold init_outcome in Hinit.
  unfold init_events.
  destruct (path_exists (chosen_path o)); simpl in *; [|discriminate].
  destruct (torch_load (chosen_path o) (device_name o))
    as [[[stored g] wts]|e]; simpl in *; [|discriminate].
  destruct (HGPIFuNetwNML g "orthogonal" (device_name o)) as [netG|e];
    simpl in *; [|discriminate].
  destruct (HGPIFuMRNet (overwrite_opt stored o) netG "orthogonal"
                        (device_name o)) as [net0|e];
    simpl in *; [|discriminate].
  destruct (load_state_dict net0 wts) as [net|e]; simpl in *; [|discriminate].
  destruct (makedirs (checkpoints_path stored)) as [[]|e]; simpl in *;
    [|discriminate].
  destruct (makedirs (opt_results_path o)) as [[]|e]; simpl in *;
    [|discriminate].
  destruct (makedirs (recon_dir (methods_opt (overwrite_opt stored o))))
    as [[]|e]; simpl in *; [|discriminate].
  inversion Hinit; subst self. reflexivity.
Qed.
End ConstructorToMeshes.

(** ** Further concrete runs *)

Module MoreRuns.
Import Demo DemoInit.

(** The preview of ["out/mesh.obj"]. *)
Lemma preview_path_replaces_four_characters_witness :
  String.length ".obj" = 4%nat
  /\ png_path (String.append "out/mesh" ".obj")
     = String.append "out/mesh" ".png".
Proof.
  split; [reflexivity|].
  exact (preview_path_replaces_four_characters "out/mesh" ".obj" eq_refl).
Defined.

(** A longer extension loses its last four characters only. *)
Example preview_of_a_jpeg : png_path "photo.jpeg" = "photo..png"%string.
Proof. reflexivity. Qed.

Lemma preview_path_of_short_path_witness :
  (String.length "ab" <= 4)%nat /\ png_path "ab" = ".png"%string.
Proof.
  assert (H : (String.length "ab" <= 4)%nat) by (simpl; lia).
  split; [exact H|].
  exact (preview_path_of_short_path "ab" H).
Defined.

(** The constructor on the scripted checkpoint, with no path given and a
    negative epoch. *)
Example constructor_run :
  init_outcome (init_run None (-1)) = Ok built
  /\ resume_epoch (init_options (init_run None (-1))) = 0
  /\ init_events (init_run None (-1))
     = [IPrint "Resuming from  ckpt/run_train_latest";
        ILoad "ckpt/run_train_latest" "cpu";
        IPrint "Warning: opt is overwritten.";
        IMakedirs "train/checkpoints"; IMakedirs "out";
        IMakedirs "out/pifuhd/recon"].
Proof. repeat split. Qed.

(** With epoch 3 the checkpoint looked for does not exist. *)
Example constructor_without_checkpoint :
  init_run None 3
  = (Raise (BaseOnly "failed loading state dict! ckpt/run_train_epoch_3"),
     caller_opt None 3, []).
Proof. reflexivity. Qed.

Lemma constructor_merges_options_witness :
  init_outcome (init_run None (-1)) = Ok built
  /\ exists (stored : Options)
            (opt_netG : @NetGOpt Q (collab triangle) (init_collab triangle))
            (weights : @Weights Q (collab triangle) (init_collab triangle)),
      @torch_load Q (collab triangle) (init_collab triangle)
                  (chosen_path (caller_opt None (-1)))
                  (@device_name Q (collab triangle) (init_collab triangle)
                                (caller_opt None (-1)))
      = Ok (stored, opt_netG, weights) /\
      start_id built = opt_start_id (caller_opt None (-1)) /\
      end_id built = opt_end_id (caller_opt None (-1)) /\
      results_path (opt built) = opt_results_path (caller_opt None (-1)) /\
      resolution (opt built) = opt_resolution (caller_opt None (-1)) /\
      name (opt built) = opt_name stored /\
      use_compose (opt built) = opt_use_compose stored.
Proof.
  split; [reflexivity|].
  exact (@constructor_merges_options Q (collab triangle)
           (init_collab triangle) (caller_opt None (-1)) built eq_refl).
Defined.

(** The first iteration on three vertices with chunk size two leaves the
    third row alone. *)
Lemma chunk_write_leaves_other_rows_witness :
  @normal_chunk Q scalar_Q (collab triangle) 2 [v1; v2; v3] tt 0
                [zero3; zero3; zero3] (self0 triangle 0 1)
  = (Ok [remap3 v1; remap3 v2; zero3],
     set_netMR (C := collab triangle) [v1; v2] (self0 triangle 0 1),
     [ECalcNormal [v1; v2]])
  /\ ((2 < Py.slice_start [zero3; zero3; zero3] (0 * 2))%nat
      \/ (Py.slice_start [zero3; zero3; zero3] (0 * 2)
          + Py.slice_len (A := Vec3 Q) [zero3; zero3; zero3] (0 * 2) 2
          <= 2)%nat)
  /\ nth_error [remap3 v1; remap3 v2; zero3] 2
     = nth_error (A := Vec3 Q) [zero3; zero3; zero3] 2.
Proof.
  assert (H : (2 < Py.slice_start (A := Vec3 Q) [zero3; zero3; zero3] (0 * 2))%nat
              \/ (Py.slice_start (A := Vec3 Q) [zero3; zero3; zero3] (0 * 2)
                  + Py.slice_len (A := Vec3 Q) [zero3; zero3; zero3] (0 * 2) 2
                  <= 2)%nat)
    by (right; vm_compute; lia).
  split; [reflexivity|]. split; [exact H|].
  exact (@chunk_write_leaves_other_rows Q scalar_Q (collab triangle) 2
           [v1; v2; v3] tt 0 [zero3; zero3; zero3]
           [remap3 v1; remap3 v2; zero3] (self0 triangle 0 1)
           (set_netMR (C := collab triangle) [v1; v2] (self0 triangle 0 1))
           [ECalcNormal [v1; v2]] 2%nat eq_refl H).
Defined.

(** Five vertices, chunk size two, an oracle that fails on the second
    chunk: two calls, the third chunk is never sent. *)
Lemma failing_batch_is_the_last_one_sent_witness :
  failing_loop
  = (Raise (StdError "CUDA out of memory"), final_self failing_loop,
     [ECalcNormal [v1; v2]; ECalcNormal [v3; v1]])
  /\ exists k,
      (k < List.length (chunks 2 five))%nat /\
      normal_calls [@ECalcNormal Q (faulty false) [v1; v2];
                    ECalcNormal [v3; v1]]
      = firstn (S k) (chunks 2 five) /\
      [@ECalcNormal Q (faulty false) [v1; v2]; ECalcNormal [v3; v1]]
      = map ECalcNormal
            (normal_calls [@ECalcNormal Q (faulty false) [v1; v2];
                           ECalcNormal [v3; v1]]).
Proof.
  split; [reflexivity|].
  exact (@failing_batch_is_the_last_one_sent Q scalar_Q (faulty false) 2 five
           tt (faulty_self false 0 1) (final_self failing_loop)
           (StdError "CUDA out of memory")
           [ECalcNormal [v1; v2]; ECalcNormal [v3; v1]] eq_refl).
Defined.

Example chunks_of_five : chunks 2 five = [[v1; v2]; [v3; v1]; []].
Proof. reflexivity. Qed.

(** An item without views on the scripted network. *)
Lemma no_view_no_reconstruction_witness :
  img_512 (blind_item triangle) = []
  /\ (forall n, @netF Q (collab triangle) n = false)
  /\ (forall n, @netB Q (collab triangle) n = false)
  /\ reconstruction_attempts
       (events (@_gen_mesh_gray Q scalar_Q (collab triangle) 256
                                (blind_item triangle) "out/mesh.obj"
                                (1 # 2)%Q true false (self0 triangle 0 1)))
     = []
  /\ saved_meshes
       (events (@_gen_mesh_gray Q scalar_Q (collab triangle) 256
                                (blind_item triangle) "out/mesh.obj"
                                (1 # 2)%Q true false (self0 triangle 0 1)))
     = []
  /\ ((events (@_gen_mesh_gray Q scalar_Q (collab triangle) 256
                               (blind_item triangle) "out/mesh.obj"
                               (1 # 2)%Q true false (self0 triangle 0 1))
       = [] /\
       exists e,
         outcome (@_gen_mesh_gray Q scalar_Q (collab triangle) 256
                                  (blind_item triangle) "out/mesh.obj"
                                  (1 # 2)%Q true false (self0 triangle 0 1))
         = Raise e)
      \/ (outcome (@_gen_mesh_gray Q scalar_Q (collab triangle) 256
                                   (blind_item triangle) "out/mesh.obj"
                                   (1 # 2)%Q true false (self0 triangle 0 1))
          = Ok None /\
          events (@_gen_mesh_gray Q scalar_Q (collab triangle) 256
                                  (blind_item triangle) "out/mesh.obj"
                                  (1 # 2)%Q true false (self0 triangle 0 1))
          = [EPrint "need at least one array to concatenate"])).
Proof.
  assert (H1 : img_512 (blind_item triangle) = []) by reflexivity.
  assert (H2 : forall n, @netF Q (collab triangle) n = false)
    by (intros n; reflexivity).
  assert (H3 : forall n, @netB Q (collab triangle) n = false)
    by (intros n; reflexivity).
  split; [exact H1|]. split; [exact H2|]. split; [exact H3|].
  exact (@no_view_no_reconstruction Q scalar_Q (collab triangle) 256
           (blind_item triangle) "out/mesh.obj"%string (1 # 2)%Q true false
           (self0 triangle 0 1) H1 H2 H3).
Defined.

(** A calibration without inverse through [_gen_mesh_color]: the
    reconstruction, the projection and the image lookup are done, then
    the inversion fails and no mesh is written. *)
Example singular_calibration_run :
  events (color_run triangle (Some flat))
  = [@EImwrite Q (collab triangle) "out/mesh.png" [7];
     EReconstruction 100000;
     EProjection [v1; v2; v3];
     EIndex [(1%Q, 0%Q); (0%Q, 1%Q); (0%Q, 0%Q)];
     EPrint "Singular matrix"].
Proof. reflexivity. Qed.

Lemma singular_world_calibration_saves_nothing_witness :
  calib_world (item triangle (Some flat)) = Some flat
  /\ @inv Q (collab triangle) flat = Raise (StdError "Singular matrix")
  /\ saved_meshes (events (color_run triangle (Some flat))) = []
  /\ (outcome (color_run triangle (Some flat)) = Ok tt ->
      exists e' w0, events (color_run triangle (Some flat)) = w0 ++ [EPrint e']).
Proof.
  split; [reflexivity|]. split; [reflexivity|].
  exact (@singular_world_calibration_saves_nothing Q scalar_Q
           (collab triangle) 256 (item triangle (Some flat))
           "out/mesh.obj"%string (1 # 2)%Q true false (self0 triangle 0 1)
           flat (StdError "Singular matrix") eq_refl eq_refl).
Defined.

(** [evaluate] on collaborators whose first filter call fails. *)
Lemma evaluate_raises_when_the_filter_fails_witness :
  (forall n views,
      @filter_global Q (faulty true) n views = Raise (StdError "filter failed"))
  /\ norm_start (faulty_self true 0 (-1))
     < norm_end (faulty_self true 0 (-1)) (Py.len [faulty_item true])
  /\ norm_start (faulty_self true 0 (-1)) < Py.len [faulty_item true]
  /\ exists d,
      nth_error [faulty_item true]
                (Z.to_nat (norm_start (faulty_self true 0 (-1)))) = Some d /\
      outcome (@evaluate Q scalar_Q (faulty true) [faulty_item true]
                         (faulty_self true 0 (-1)))
      = Raise (StdError "filter failed") /\
      events (@evaluate Q scalar_Q (faulty true) [faulty_item true]
                        (faulty_self true 0 (-1)))
      = [EPrint banner; EGetItem (norm_start (faulty_self true 0 (-1)));
         EPrint (result_path (opt (faulty_self true 0 (-1))) (data_name d))].
Proof.
  assert (H1 : forall n views,
             @filter_global Q (faulty true) n views
             = Raise (StdError "filter failed")) by (intros n views; reflexivity).
  assert (H2 : norm_start (faulty_self true 0 (-1))
               < norm_end (faulty_self true 0 (-1)) (Py.len [faulty_item true]))
    by reflexivity.
  assert (H3 : norm_start (faulty_self true 0 (-1)) < Py.len [faulty_item true])
    by reflexivity.
  split; [exact H1|]. split; [exact H2|]. split; [exact H3|].
  exact (@evaluate_raises_when_the_filter_fails Q scalar_Q (faulty true)
           [faulty_item true] (faulty_self true 0 (-1))
           (StdError "filter failed") H1 H2 H3).
Defined.

(** The same collaborators with working filters: the loop fails, and
    [evaluate] returns [None] instead of raising. *)
Example evaluate_on_a_failing_oracle :
  outcome (@evaluate Q scalar_Q (faulty false) [faulty_item false]
                     (faulty_self false 0 (-1)))
  = Ok None
  /\ saved_meshes
       (events (@evaluate Q scalar_Q (faulty false) [faulty_item false]
                          (faulty_self false 0 (-1))))
     = [].
Proof. split; reflexivity. Qed.

(** A second call of [evaluate] reads the same item again. *)
Example evaluate_twice :
  items_read
    (events (@evaluate Q scalar_Q (collab triangle)
               [item triangle None; item triangle None]
               (final_self
                  (@evaluate Q scalar_Q (collab triangle)
                     [item triangle None; item triangle None]
                     (self0 triangle (-1) (-1))))))
  = [0].
Proof. reflexivity. Qed.

(** From the constructor to the mesh of the first item. *)
Lemma meshes_land_in_the_created_directory_witness :
  init_outcome (init_run None (-1)) = Ok built
  /\ In ("out/pifuhd/recon/result_person_256.obj"%string,
         [v1; v2; v3], [remap3 v1; remap3 v2; zero3])
        (saved_meshes
           (events (@evaluate Q scalar_Q (collab triangle)
                              [item triangle None] built)))
  /\ exists it,
      In it [item triangle None] /\
      "out/pifuhd/recon/result_person_256.obj"%string
      = String.append
          (String.append
             (last (dirs_made (init_events (init_run None (-1)))) ""%string)
             (String.concat ""
                ["/result_"; data_name it; "_";
                 Py.fmt_d (opt_resolution (caller_opt None (-1)))]%string))
          ".obj".
Proof.
  assert (H2 : In ("out/pifuhd/recon/result_person_256.obj"%string,
                   [v1; v2; v3], [remap3 v1; remap3 v2; zero3])
                  (saved_meshes
                     (events (@evaluate Q scalar_Q (collab triangle)
                                        [item triangle None] built))))
    by (left; reflexivity).
  split; [reflexivity|]. split; [exact H2|].
  exact (@meshes_land_in_the_created_directory Q scalar_Q (collab triangle)
           (init_collab triangle) (caller_opt None (-1)) built
           [item triangle None] _ _ _ eq_refl H2).
Defined.
End MoreRuns.
